(** * WebSocket chat relay (Examples/Day01): connection and request lifecycle

    A shallow embedding of the three variants of the relay, [app.py],
    [app2.py] and [app3.py]: the text normaliser [to_text], the request
    schema [ChatRequest] and its validation, the classification of
    validation errors, and the two endpoint handlers of each variant.

    The handlers are coroutines that talk to a transport (the WebSocket) and
    to a model client.  Both are external, so their behaviour is an input of
    the embedding: a connection is run against a script that fixes what every
    [receive_json], [send_json], [close], [ainvoke] and [astream] call does
    (return a value or raise), and the handler appends what it did to a log.
    A timer of [asyncio.wait_for] that fires is the awaited call raising
    [TimeoutError], which is how the handler observes it.  Logging is left
    out, and so is what is not an [Exception] (the cancellation of the
    task). *)

From Stdlib Require Import List String Ascii ZArith Bool Lia.
Import ListNotations.
Local Open Scope string_scope.

(** ** Python values *)

(** Data as it travels in JSON frames, in outbound messages and in the
    error lists of the validator.  Text is a sequence of characters, each a
    code point from 0 to 255; numbers are integers (a float behaves like an
    integer for every test the code makes: it is not a string; only its type
    name, in the text of an error, would differ). *)
#[warnings="-register-all"]
Inductive pyval : Type :=
| PyNone
| PyBool (b : bool)
| PyInt (z : Z)
| PyStr (s : string)
| PyList (l : list pyval)
| PyTuple (l : list pyval)
| PyDict (d : list (string * pyval)).

(** A value as [to_text] can observe it (the parameter is typed [Any]):
    [None], or an object with its [content] attribute when it has one and the
    text [str(result)] gives.  A plain string [s] is [LObject None s]. *)
Inductive llm_value : Type :=
| LNone
| LObject (content : option pyval) (str_ : string).

Definition plain_text (s : string) : llm_value := LObject None s.

(** Exceptions, by the classes the handlers tell apart.  All four are
    subclasses of [Exception]. *)
Inductive exn : Type :=
| WebSocketDisconnect
| TimeoutError
| ValidationError (errors : list (list (string * pyval)))
| OtherException (what : string).

Inductive result (A : Type) : Type :=
| Ok (a : A)
| Raise (e : exn).
Arguments Ok {A} a.
Arguments Raise {A} e.

(** Truth value of a Python value ([not v], [v or d]). *)
Definition truthy (v : pyval) : bool :=
  match v with
  | PyNone => false
  | PyBool b => b
  | PyInt z => negb (Z.eqb z 0)
  | PyStr s => negb (String.eqb s EmptyString)
  | PyList l | PyTuple l => match l with [] => false | _ => true end
  | PyDict d => match d with [] => false | _ => true end
  end.

Definition is_str (v : pyval) : bool :=
  match v with PyStr _ => true | _ => false end.

(** [type(v).__name__] *)
Definition type_name (v : pyval) : string :=
  match v with
  | PyNone => "NoneType"
  | PyBool _ => "bool"
  | PyInt _ => "int"
  | PyStr _ => "str"
  | PyList _ => "list"
  | PyTuple _ => "tuple"
  | PyDict _ => "dict"
  end.

(** The double quote, as a text of one character. *)
Definition double_quote : string := String (ascii_of_nat 34) EmptyString.

(** The texts of the errors Python raises on a value of the wrong type:
    the [AttributeError] of [v.attr] and the [TypeError] of [text + v]. *)
Definition no_attribute (v : pyval) (attr : string) : string :=
  "'" ++ type_name v ++ "' object has no attribute '" ++ attr ++ "'".
Definition cannot_concatenate (v : pyval) : string :=
  "can only concatenate str (not " ++ double_quote ++ type_name v ++
  double_quote ++ ") to str".

(** [d.get(key)] on a dict held as an association list. *)
Fixpoint dict_get (d : list (string * pyval)) (key : string) : option pyval :=
  match d with
  | [] => None
  | (k, v) :: rest => if String.eqb k key then Some v else dict_get rest key
  end.

(** [v or d]. *)
Definition py_or (v d : pyval) : pyval := if truthy v then v else d.

(** ** Strings *)

(** [c.lower()] for one character: the capital letters are A to Z and, past
    the ASCII range, the code points 192 to 222 but the multiplication sign
    (215); each has its small letter 32 places further. *)
Definition lower_char (c : ascii) : ascii :=
  let n := nat_of_ascii c in
  if orb (andb (Nat.leb 65 n) (Nat.leb n 90))
         (andb (andb (Nat.leb 192 n) (Nat.leb n 222)) (negb (Nat.eqb n 215)))
  then ascii_of_nat (n + 32) else c.

(** [s.lower()] *)
Fixpoint lower (s : string) : string :=
  match s with
  | EmptyString => EmptyString
  | String c t => String (lower_char c) (lower t)
  end.

(** [needle in hay] for two strings. *)
Fixpoint contains (needle hay : string) : bool :=
  if String.prefix needle hay then true
  else match hay with
       | EmptyString => false
       | String _ t => contains needle t
       end.

(** [c.isspace()], the white space [str.strip] removes: tab, line feed,
    vertical tab, form feed, carriage return, the four separators 28..31 and
    the space, and past the ASCII range the next-line control (133, U+0085)
    and the no-break space (160, U+00A0). *)
Definition isspace (c : ascii) : bool :=
  let n := nat_of_ascii c in
  orb (andb (Nat.leb 9 n) (Nat.leb n 13))
      (orb (andb (Nat.leb 28 n) (Nat.leb n 31))
           (orb (Nat.eqb n 32) (orb (Nat.eqb n 133) (Nat.eqb n 160)))).

Fixpoint lstrip (s : string) : string :=
  match s with
  | EmptyString => EmptyString
  | String c t => if isspace c then lstrip t else s
  end.

(** Drops trailing white space: a character is kept when something that is
    kept follows it, or when it is not white space. *)
Fixpoint rstrip (s : string) : string :=
  match s with
  | EmptyString => EmptyString
  | String c t =>
      match rstrip t with
      | EmptyString => if isspace c then EmptyString else String c EmptyString
      | t' => String c t'
      end
  end.

(** [s.strip()] *)
Definition strip (s : string) : string := rstrip (lstrip s).

(** [x in loc] for a string [x] and a list or tuple [loc]. *)
Definition str_in (x : string) (l : list pyval) : bool :=
  existsb (fun v => match v with PyStr s => String.eqb s x | _ => false end) l.

(** [n] copies of a character. *)
Fixpoint replicate (n : nat) (c : ascii) : string :=
  match n with
  | O => EmptyString
  | S k => String c (replicate k c)
  end.

(** ** Text normaliser *)

(** [to_text] (app2.py, app3.py).  The [or] returns the attribute itself
    when it is truthy, whatever its type. *)
Definition to_text (result : llm_value) : pyval :=
  match result with
  | LNone => PyStr EmptyString
  | LObject (Some content) _ => py_or content (PyStr EmptyString)
  | LObject None str_ => PyStr str_
  end.

(** ** Request schema *)

(** [class ChatRequest(BaseModel): message: str = Field(..., min_length=1,
    max_length=8000)] *)
Record ChatRequest : Type := mkChatRequest { message : string }.

Definition min_length : Z := 1.
Definition max_length : Z := 8000.

(** [len(s)] *)
Definition len (s : string) : Z := Z.of_nat (String.length s).

(** One entry of [ValidationError.errors()]: the keys [type], [loc], [msg]
    and [input], and [ctx] where the validator gives one. *)
Definition error_details (type_ : string) (loc : list pyval) (msg : string)
    (input : pyval) (ctx : list (string * pyval)) : list (string * pyval) :=
  [("type", PyStr type_); ("loc", PyTuple loc); ("msg", PyStr msg);
   ("input", input)] ++
  match ctx with [] => [] | _ => [("ctx", PyDict ctx)] end.

(** [ChatRequest.model_validate(data)]: [data] has to be a dict with a key
    [message] (other keys are ignored) holding a string of 1 to 8000
    characters, which is stored as it is; the string is not stripped.  The
    error entries are the validator's for each failure, the too-long one as
    the comment in [is_message_too_big_error] quotes it. *)
Definition model_validate (data : pyval) : result ChatRequest :=
  match data with
  | PyDict d =>
      match dict_get d "message" with
      | None =>
          Raise (ValidationError
            [error_details "missing" [PyStr "message"] "Field required" data []])
      | Some (PyStr s) =>
          if Z.ltb (len s) min_length then
            Raise (ValidationError
              [error_details "string_too_short" [PyStr "message"]
                 "String should have at least 1 character" (PyStr s)
                 [("min_length", PyInt 1)]])
          else if Z.ltb max_length (len s) then
            Raise (ValidationError
              [error_details "string_too_long" [PyStr "message"]
                 "String should have at most 8000 characters" (PyStr s)
                 [("max_length", PyInt 8000)]])
          else Ok (mkChatRequest s)
      | Some v =>
          Raise (ValidationError
            [error_details "string_type" [PyStr "message"]
               "Input should be a valid string" v []])
      end
  | _ =>
      Raise (ValidationError
        [error_details "model_type" []
           "Input should be a valid dictionary or instance of ChatRequest"
           data [("class_name", PyStr "ChatRequest")]])
  end.

(** [(err.get(key) or '').lower()]: a missing or falsy entry counts as the
    empty string; a truthy entry that is not a string has no [lower]. *)
Definition lowered_field (err : list (string * pyval)) (key : string)
  : result string :=
  match dict_get err key with
  | None => Ok EmptyString
  | Some v =>
      match py_or v (PyStr EmptyString) with
      | PyStr s => Ok (lower s)
      | u => Raise (OtherException (no_attribute u "lower"))
      end
  end.

(** [is_message_too_big_error] (app3.py). *)
Fixpoint is_message_too_big_error (errors : list (list (string * pyval)))
  : result bool :=
  match errors with
  | [] => Ok false
  | err :: rest =>
      match lowered_field err "type" with
      | Raise e => Raise e
      | Ok err_type =>
          match lowered_field err "msg" with
          | Raise e => Raise e
          | Ok msg =>
              if orb (contains "too_long" err_type)
                     (orb (contains "too long" msg) (contains "max_length" msg))
              then
                let loc := match dict_get err "loc" with
                           | Some v => v
                           | None => PyTuple []
                           end in
                match loc with
                | PyList l | PyTuple l =>
                    if str_in "message" l then Ok true
                    else is_message_too_big_error rest
                | _ => is_message_too_big_error rest
                end
              else is_message_too_big_error rest
          end
      end
  end.

(** ** Transport, model client and the handler's state *)

(** [fastapi.status] *)
Definition WS_1000_NORMAL_CLOSURE : Z := 1000.
Definition WS_1009_MESSAGE_TOO_BIG : Z := 1009.
Definition WS_1011_INTERNAL_ERROR : Z := 1011.
Definition WS_1013_TRY_AGAIN_LATER : Z := 1013.
Definition HTTP_200_OK : Z := 200.
Definition HTTP_422_UNPROCESSABLE_ENTITY : Z := 422.

(** What a handler did, in order. *)
Inductive event : Type :=
| EvAccept
| EvRecv (r : result pyval)              (* receive_json returned or raised *)
| EvSend (msg : pyval) (r : option exn)  (* send_json, send_text; None: sent *)
| EvAcquire                              (* entering async with lock *)
| EvRelease                              (* leaving it *)
| EvInvoke (prompt : string) (r : result llm_value)      (* llm.ainvoke *)
| EvStreamOpen (prompt : string)         (* llm.astream *)
| EvClose (code : Z) (r : option exn).   (* websocket.close *)

(** A token stream of the model: the chunks it yields and how it stops
    ([None]: exhausted; [Some e]: the next step raises [e]). *)
Definition token_stream : Type := (list llm_value * option exn)%type.

(** The script of a connection (what the successive calls will do; a script
    that has run out means: the send or close succeeds, the model returns
    [None], the stream is empty), the handler's local variables, and the
    log. *)
Record conn : Type := mkConn {
  send_script : list (option exn);
  close_script : list (option exn);
  invoke_script : list (result llm_value);
  stream_script : list token_stream;
  uuid_script : list string;
  close_code : Z;
  full_text : string;
  log : list event
}.

Definition connect (sends closes : list (option exn))
    (invokes : list (result llm_value)) (streams : list token_stream)
    (uuids : list string) : conn :=
  mkConn sends closes invokes streams uuids 0 EmptyString [].

Definition add_log (e : event) (w : conn) : conn :=
  mkConn (send_script w) (close_script w) (invoke_script w) (stream_script w)
         (uuid_script w) (close_code w) (full_text w) (log w ++ [e]).

(** A coroutine of a handler: runs on the connection state, returns or
    raises. *)
Definition M (A : Type) : Type := conn -> result A * conn.

Definition ret {A} (a : A) : M A := fun w => (Ok a, w).
Definition raise {A} (e : exn) : M A := fun w => (Raise e, w).
Definition bind {A B} (m : M A) (f : A -> M B) : M B :=
  fun w => match m w with
           | (Ok a, w') => f a w'
           | (Raise e, w') => (Raise e, w')
           end.
Definition lift {A} (r : result A) : M A := fun w => (r, w).

Notation "x <- m ;; k" := (bind m (fun x => k))
  (at level 61, m at next level, right associativity).
Notation "m ;; k" := (bind m (fun _ => k))
  (at level 61, right associativity).

(** [try: body except Exception as e: handler e] *)
Definition try_except {A} (body : M A) (handler : exn -> M A) : M A :=
  fun w => match body w with
           | (Ok a, w') => (Ok a, w')
           | (Raise e, w') => handler e w'
           end.

(** [try: body finally: fin] *)
Definition finally {A} (body : M A) (fin : M unit) : M A :=
  fun w => match body w with
           | (r, w') => match fin w' with
                        | (Ok _, w'') => (r, w'')
                        | (Raise e, w'') => (Raise e, w'')
                        end
           end.

Definition emit (e : event) : M unit := fun w => (Ok tt, add_log e w).

Definition set_close_code (c : Z) : M unit :=
  fun w => (Ok tt, mkConn (send_script w) (close_script w) (invoke_script w)
                          (stream_script w) (uuid_script w) c (full_text w)
                          (log w)).
Definition get_close_code : M Z := fun w => (Ok (close_code w), w).
Definition set_full_text (s : string) : M unit :=
  fun w => (Ok tt, mkConn (send_script w) (close_script w) (invoke_script w)
                          (stream_script w) (uuid_script w) (close_code w) s
                          (log w)).
Definition get_full_text : M string := fun w => (Ok (full_text w), w).

(** [full_text += token]: only a string can be appended to a string; any
    other token raises a [TypeError]. *)
Definition iadd_full_text (token : pyval) : M unit :=
  fun w => match token with
           | PyStr s => set_full_text (full_text w ++ s) w
           | _ => (Raise (OtherException (cannot_concatenate token)), w)
           end.

(** [await websocket.accept()] *)
Definition accept : M unit := emit EvAccept.

(** [await websocket.receive_json()], with what this call does. *)
Definition receive_json (r : result pyval) : M pyval :=
  emit (EvRecv r) ;; lift r.

Definition outcome (o : option exn) : M unit :=
  match o with None => ret tt | Some e => raise e end.

(** [await websocket.send_json(msg)] *)
Definition send_json (msg : pyval) : M unit :=
  fun w =>
    let o := hd None (send_script w) in
    let w' := mkConn (tl (send_script w)) (close_script w) (invoke_script w)
                     (stream_script w) (uuid_script w) (close_code w)
                     (full_text w) (log w) in
    (emit (EvSend msg o) ;; outcome o) w'.

(** [await websocket.close(code=code)] *)
Definition close (code : Z) : M unit :=
  fun w =>
    let o := hd None (close_script w) in
    let w' := mkConn (send_script w) (tl (close_script w)) (invoke_script w)
                     (stream_script w) (uuid_script w) (close_code w)
                     (full_text w) (log w) in
    (emit (EvClose code o) ;; outcome o) w'.

(** [str(uuid.uuid4())[:8]] *)
Definition uuid8 : M string :=
  fun w =>
    let u := hd EmptyString (uuid_script w) in
    (Ok (String.substring 0 8 u),
     mkConn (send_script w) (close_script w) (invoke_script w)
            (stream_script w) (tl (uuid_script w)) (close_code w)
            (full_text w) (log w)).

(** [await llm.ainvoke(prompt)] *)
Definition ainvoke (prompt : string) : M llm_value :=
  fun w =>
    let r := hd (Ok LNone) (invoke_script w) in
    let w' := mkConn (send_script w) (close_script w) (tl (invoke_script w))
                     (stream_script w) (uuid_script w) (close_code w)
                     (full_text w) (log w) in
    (emit (EvInvoke prompt r) ;; lift r) w'.

(** [llm.astream(prompt)]: the stream the loop will consume. *)
Definition astream (prompt : string) : M token_stream :=
  fun w =>
    let s := hd ([], None) (stream_script w) in
    let w' := mkConn (send_script w) (close_script w) (invoke_script w)
                     (tl (stream_script w)) (uuid_script w) (close_code w)
                     (full_text w) (log w) in
    (emit (EvStreamOpen prompt) ;; ret s) w'.

(** [await asyncio.wait_for(m, timeout=seconds)]: the result of [m], or
    [TimeoutError] when the timer fires first, which the script gives as the
    awaited call inside [m] raising [TimeoutError]. *)
Definition wait_for {A} (seconds : nat) (m : M A) : M A := m.

(** [async with lock: body].  The lock belongs to the connection and only
    its handler takes it; [single_flight] below checks on the log that it is
    free whenever it is taken. *)
Definition with_lock {A} (body : M A) : M A :=
  emit EvAcquire ;; finally body (emit EvRelease).

(** [safe_close] (app2.py, app3.py): a failed close is swallowed. *)
Definition safe_close (code : Z) : M unit :=
  try_except (close code) (fun _ => ret tt).

(** [str(e)] of an exception: the text it was raised with.  The named
    classes are raised by the transport, the timer and the validator; the
    text of the first two is empty, the validator's is its summary line. *)
Definition exn_text (e : exn) : string :=
  match e with
  | WebSocketDisconnect => EmptyString
  | TimeoutError => EmptyString
  | ValidationError _ => "validation error for ChatRequest"
  | OtherException what => what
  end.

(** How one pass of [while True] ends. *)
Inductive control : Type := Continue | Break.

(** [while True: body], one pass per inbound frame.  [frames] are the
    outcomes of the successive [receive_json] calls; once they are used up
    the client is gone and the call raises [WebSocketDisconnect]. *)
Fixpoint while_true (body : result pyval -> M control)
    (frames : list (result pyval)) : M unit :=
  match frames with
  | [] => body (Raise WebSocketDisconnect) ;; ret tt
  | f :: rest =>
      c <- body f ;;
      match c with
      | Break => ret tt
      | Continue => while_true body rest
      end
  end.

Definition example_message : pyval := PyDict [("message", PyStr "Hi")].

(** ** app3.py *)

Module App3.

(** The [try] statement of a request in [ws_chat_non_stream]. *)
Definition non_stream_reply (conn_id request_id : string) (req : ChatRequest)
  : M control :=
  try_except
    (result <- wait_for 60 (ainvoke (message req)) ;;
     let reply_text := to_text result in
     send_json (PyDict [("type", PyStr "response");
                        ("request_id", PyStr request_id);
                        ("value", reply_text)]) ;;
     ret Continue)
    (fun e =>
       match e with
       | TimeoutError =>
           send_json (PyDict [("type", PyStr "error");
                              ("code", PyStr "LLM_TIMEOUT");
                              ("request_id", PyStr request_id);
                              ("detail", PyStr "LLM call exceeded 60 seconds.")]) ;;
           set_close_code WS_1013_TRY_AGAIN_LATER ;;
           ret Break
       | _ =>
           send_json (PyDict [("type", PyStr "error");
                              ("code", PyStr "LLM_ERROR");
                              ("request_id", PyStr request_id);
                              ("detail", PyStr (exn_text e))]) ;;
           set_close_code WS_1011_INTERNAL_ERROR ;;
           ret Break
       end).

(** The body of [async with lock] in [ws_chat_non_stream]. *)
Definition non_stream_request (conn_id : string) (req : ChatRequest)
  : M control :=
  with_lock (
    request_id <- uuid8 ;;
    non_stream_reply conn_id request_id req).

(** Receive and validate, in [ws_chat_non_stream]: a request, or how the
    pass ends when the payload is refused. *)
Definition non_stream_receive (f : result pyval)
  : M (ChatRequest + control) :=
  try_except
    (data <- receive_json f ;;
     req <- lift (model_validate data) ;;
     ret (inl req))
    (fun e =>
       match e with
       | ValidationError errors =>
           too_big <- lift (is_message_too_big_error errors) ;;
           if (too_big : bool) then
             send_json (PyDict [("type", PyStr "error");
                                ("code", PyStr "MESSAGE_TOO_BIG");
                                ("detail", PyStr "Message exceeds max length.")]) ;;
             set_close_code WS_1009_MESSAGE_TOO_BIG ;;
             ret (inr Break)
           else
             send_json (PyDict [("type", PyStr "error");
                                ("code", PyStr "INVALID_PAYLOAD");
                                ("detail", PyList (map PyDict errors));
                                ("example", example_message)]) ;;
             ret (inr Continue)
       | _ => raise e
       end).

Definition non_stream_pass (conn_id : string) (f : result pyval)
  : M control :=
  r <- non_stream_receive f ;;
  match r with
  | inl req => non_stream_request conn_id req
  | inr c => ret c
  end.

(** [ws_chat_non_stream], the handler of [/ws/chat]. *)
Definition ws_chat_non_stream (frames : list (result pyval)) : M unit :=
  accept ;;
  conn_id <- uuid8 ;;
  set_close_code WS_1000_NORMAL_CLOSURE ;;
  finally
    (try_except
       (while_true (non_stream_pass conn_id) frames)
       (fun e =>
          match e with
          | WebSocketDisconnect => ret tt
          | _ => set_close_code WS_1011_INTERNAL_ERROR
          end))
    (code <- get_close_code ;; safe_close code).

(** [stream_tokens], the loop over the chunks of the stream. *)
Fixpoint stream_chunks (request_id : string) (chunks : list llm_value)
    (stop : option exn) : M unit :=
  match chunks with
  | [] => outcome stop
  | chunk :: rest =>
      let token := to_text chunk in
      if negb (truthy token) then stream_chunks request_id rest stop
      else
        iadd_full_text token ;;
        send_json (PyDict [("type", PyStr "chunk");
                           ("request_id", PyStr request_id);
                           ("value", token);
                           ("status", PyStr "IN_PROGRESS");
                           ("status_code", PyInt HTTP_200_OK)]) ;;
        stream_chunks request_id rest stop
  end.

Definition stream_tokens (request_id : string) (req : ChatRequest) : M unit :=
  s <- astream (message req) ;;
  stream_chunks request_id (fst s) (snd s).

(** The [try] statement of a request in [ws_chat_stream]. *)
Definition stream_reply (conn_id request_id : string) (req : ChatRequest)
  : M control :=
  try_except
    (wait_for 120 (stream_tokens request_id req) ;;
     full <- get_full_text ;;
     send_json (PyDict [("type", PyStr "end");
                        ("request_id", PyStr request_id);
                        ("full", PyStr full);
                        ("status", PyStr "COMPLETED");
                        ("status_code", PyInt HTTP_200_OK)]) ;;
     ret Continue)
    (fun e =>
       match e with
       | TimeoutError =>
           send_json (PyDict [("type", PyStr "error");
                              ("code", PyStr "STREAM_TIMEOUT");
                              ("request_id", PyStr request_id);
                              ("detail", PyStr "Streaming exceeded 120 seconds.")]) ;;
           set_close_code WS_1013_TRY_AGAIN_LATER ;;
           ret Break
       | WebSocketDisconnect => raise e
       | _ =>
           try_except
             (send_json (PyDict [("type", PyStr "error");
                                 ("code", PyStr "STREAM_ERROR");
                                 ("request_id", PyStr request_id);
                                 ("detail", PyStr (exn_text e))]))
             (fun _ => ret tt) ;;
           set_close_code WS_1011_INTERNAL_ERROR ;;
           ret Break
       end).

(** The body of [async with lock] in [ws_chat_stream]. *)
Definition stream_request (conn_id : string) (req : ChatRequest)
  : M control :=
  with_lock (
    request_id <- uuid8 ;;
    send_json (PyDict [("type", PyStr "start");
                       ("request_id", PyStr request_id)]) ;;
    set_full_text EmptyString ;;
    stream_reply conn_id request_id req).

(** Receive and validate, in [ws_chat_stream]. *)
Definition stream_receive (f : result pyval) : M (ChatRequest + control) :=
  try_except
    (data <- receive_json f ;;
     req <- lift (model_validate data) ;;
     ret (inl req))
    (fun e =>
       match e with
       | ValidationError errors =>
           too_big <- lift (is_message_too_big_error errors) ;;
           if (too_big : bool) then
             send_json (PyDict [("type", PyStr "error");
                                ("status", PyStr "MESSAGE_TOO_BIG");
                                ("status_code", PyInt WS_1009_MESSAGE_TOO_BIG);
                                ("detail", PyStr "Message exceeds max length.")]) ;;
             set_close_code WS_1009_MESSAGE_TOO_BIG ;;
             ret (inr Break)
           else
             send_json (PyDict [("type", PyStr "error");
                                ("status", PyStr "INVALID_PAYLOAD");
                                ("status_code", PyInt HTTP_422_UNPROCESSABLE_ENTITY);
                                ("detail", PyList (map PyDict errors));
                                ("example", example_message)]) ;;
             ret (inr Continue)
       | _ => raise e
       end).

Definition stream_pass (conn_id : string) (f : result pyval) : M control :=
  r <- stream_receive f ;;
  match r with
  | inl req => stream_request conn_id req
  | inr c => ret c
  end.

(** [ws_chat_stream], the handler of [/ws/chat2]. *)
Definition ws_chat_stream (frames : list (result pyval)) : M unit :=
  accept ;;
  conn_id <- uuid8 ;;
  set_close_code WS_1000_NORMAL_CLOSURE ;;
  finally
    (try_except
       (while_true (stream_pass conn_id) frames)
       (fun e =>
          match e with
          | WebSocketDisconnect => ret tt
          | _ => set_close_code WS_1011_INTERNAL_ERROR
          end))
    (code <- get_close_code ;; safe_close code).

(** [receive_chat_request] (defined in app3.py, used by no handler there). *)
Definition receive_chat_request (f : result pyval) : M (option ChatRequest) :=
  try_except
    (data <- receive_json f ;;
     req <- lift (model_validate data) ;;
     ret (Some req))
    (fun e =>
       match e with
       | WebSocketDisconnect => raise e
       | ValidationError errors =>
           send_json (PyDict [("type", PyStr "error");
                              ("code", PyStr "INVALID_PAYLOAD");
                              ("detail", PyList (map PyDict errors));
                              ("example", example_message)]) ;;
           ret None
       | _ =>
           send_json (PyDict [("type", PyStr "error");
                              ("code", PyStr "BAD_REQUEST");
                              ("detail", PyStr (exn_text e));
                              ("example", example_message)]) ;;
           ret None
       end).

End App3.

(** ** app2.py *)

Module App2.

(** [receive_chat_request]: the request, or [None] after reporting why the
    payload was refused. *)
Definition receive_chat_request (f : result pyval) : M (option ChatRequest) :=
  try_except
    (data <- receive_json f ;;
     req <- lift (model_validate data) ;;
     ret (Some req))
    (fun e =>
       match e with
       | WebSocketDisconnect => raise e
       | ValidationError errors =>
           send_json (PyDict [("type", PyStr "error");
                              ("code", PyStr "INVALID_PAYLOAD");
                              ("detail", PyList (map PyDict errors));
                              ("example", example_message)]) ;;
           ret None
       | _ =>
           send_json (PyDict [("type", PyStr "error");
                              ("code", PyStr "BAD_REQUEST");
                              ("detail", PyStr (exn_text e));
                              ("example", example_message)]) ;;
           ret None
       end).

(** The [try] statement of a request in [ws_chat_non_stream]. *)
Definition non_stream_reply (conn_id request_id : string) (req : ChatRequest)
  : M control :=
  try_except
    (result <- wait_for 60 (ainvoke (message req)) ;;
     let reply_text := to_text result in
     send_json (PyDict [("type", PyStr "response");
                        ("request_id", PyStr request_id);
                        ("value", reply_text)]) ;;
     ret Continue)
    (fun e =>
       match e with
       | TimeoutError =>
           send_json (PyDict [("type", PyStr "error");
                              ("code", PyStr "LLM_TIMEOUT");
                              ("request_id", PyStr request_id);
                              ("detail", PyStr "LLM call exceeded 60 seconds.")]) ;;
           ret Continue
       | _ =>
           send_json (PyDict [("type", PyStr "error");
                              ("code", PyStr "LLM_ERROR");
                              ("request_id", PyStr request_id);
                              ("detail", PyStr (exn_text e))]) ;;
           ret Continue
       end).

(** The body of [async with lock] in [ws_chat_non_stream]. *)
Definition non_stream_request (conn_id : string) (req : ChatRequest)
  : M control :=
  with_lock (
    request_id <- uuid8 ;;
    non_stream_reply conn_id request_id req).

Definition non_stream_pass (conn_id : string) (f : result pyval)
  : M control :=
  req <- receive_chat_request f ;;
  match req with
  | None => ret Continue
  | Some req => non_stream_request conn_id req
  end.

(** [ws_chat_non_stream], the handler of [/ws/chat]. *)
Definition ws_chat_non_stream (frames : list (result pyval)) : M unit :=
  accept ;;
  conn_id <- uuid8 ;;
  finally
    (try_except
       (while_true (non_stream_pass conn_id) frames)
       (fun _ => ret tt))
    (safe_close WS_1000_NORMAL_CLOSURE).

(** [stream_tokens], the loop over the chunks of the stream. *)
Fixpoint stream_chunks (request_id : string) (chunks : list llm_value)
    (stop : option exn) : M unit :=
  match chunks with
  | [] => outcome stop
  | chunk :: rest =>
      let token := to_text chunk in
      if negb (truthy token) then stream_chunks request_id rest stop
      else
        iadd_full_text token ;;
        send_json (PyDict [("type", PyStr "chunk");
                           ("request_id", PyStr request_id);
                           ("value", token)]) ;;
        stream_chunks request_id rest stop
  end.

Definition stream_tokens (request_id : string) (req : ChatRequest) : M unit :=
  s <- astream (message req) ;;
  stream_chunks request_id (fst s) (snd s).

(** The [try] statement of a request in [ws_chat_stream]. *)
Definition stream_reply (conn_id request_id : string) (req : ChatRequest)
  : M control :=
  try_except
    (wait_for 120 (stream_tokens request_id req) ;;
     full <- get_full_text ;;
     send_json (PyDict [("type", PyStr "end");
                        ("request_id", PyStr request_id);
                        ("full", PyStr full)]) ;;
     ret Continue)
    (fun e =>
       match e with
       | TimeoutError =>
           send_json (PyDict [("type", PyStr "error");
                              ("code", PyStr "STREAM_TIMEOUT");
                              ("request_id", PyStr request_id);
                              ("detail", PyStr "Streaming exceeded 120 seconds.")]) ;;
           ret Continue
       | WebSocketDisconnect => raise e
       | _ =>
           try_except
             (send_json (PyDict [("type", PyStr "error");
                                 ("code", PyStr "STREAM_ERROR");
                                 ("request_id", PyStr request_id);
                                 ("detail", PyStr (exn_text e))]))
             (fun _ => ret tt) ;;
           ret Continue
       end).

(** The body of [async with lock] in [ws_chat_stream]. *)
Definition stream_request (conn_id : string) (req : ChatRequest)
  : M control :=
  with_lock (
    request_id <- uuid8 ;;
    send_json (PyDict [("type", PyStr "start");
                       ("request_id", PyStr request_id)]) ;;
    set_full_text EmptyString ;;
    stream_reply conn_id request_id req).

Definition stream_pass (conn_id : string) (f : result pyval) : M control :=
  req <- receive_chat_request f ;;
  match req with
  | None => ret Continue
  | Some req => stream_request conn_id req
  end.

(** [ws_chat_stream], the handler of [/ws/chat2]. *)
Definition ws_chat_stream (frames : list (result pyval)) : M unit :=
  accept ;;
  conn_id <- uuid8 ;;
  finally
    (try_except
       (while_true (stream_pass conn_id) frames)
       (fun _ => ret tt))
    (safe_close WS_1000_NORMAL_CLOSURE).

End App2.

(** ** app.py *)

Module App1.

(** [data.get('message', '')]: only a dict has [get]; on any other payload
    the call raises an [AttributeError]. *)
Definition get_message (data : pyval) : result pyval :=
  match data with
  | PyDict d => Ok (match dict_get d "message" with
                    | Some v => v
                    | None => PyStr EmptyString
                    end)
  | _ => Raise (OtherException (no_attribute data "get"))
  end.

(** [not isinstance(user_text, str) or not user_text.strip()] *)
Definition refused (user_text : pyval) : bool :=
  match user_text with
  | PyStr s => negb (truthy (PyStr (strip s)))
  | _ => true
  end.

(** The reply of the first endpoint: the [content] attribute as it is, or
    [str(result)]; [None] has no attribute and prints as [None]. *)
Definition reply_text (result : llm_value) : pyval :=
  match result with
  | LObject (Some content) _ => content
  | LObject None str_ => PyStr str_
  | LNone => PyStr "None"
  end.

Definition invalid_payload_text : string :=
  "Invalid payload. Send: {'message': 'Data must be dictonary with non-empty string value.'}".

(** One pass of the loop of the first [ws_chat]; [send_text] goes through
    the same transport call as [send_json]. *)
Definition pass (f : result pyval) : M control :=
  data <- receive_json f ;;
  user_text <- lift (get_message data) ;;
  if refused user_text then
    send_json (PyStr invalid_payload_text) ;;
    ret Continue
  else
    result <- ainvoke (match user_text with PyStr s => s | _ => EmptyString end) ;;
    send_json (reply_text result) ;;
    ret Continue.

(** [ws_chat], the handler of [/ws/chat]: the transport is closed only
    after an exception other than a disconnect. *)
Definition ws_chat (frames : list (result pyval)) : M unit :=
  accept ;;
  try_except
    (while_true pass frames)
    (fun e =>
       match e with
       | WebSocketDisconnect => ret tt
       | _ => try_except (close WS_1011_INTERNAL_ERROR) (fun _ => ret tt)
       end).

End App1.

(** ** Reading the log *)

Local Open Scope list_scope.

(** What a coroutine appended to the log when run from [w]. *)
Definition events_of {A} (m : M A) (w : conn) : list event :=
  skipn (List.length (log w)) (log (snd (m w))).

(** The messages handed to the transport, and those that went out. *)
Definition sent (evs : list event) : list pyval :=
  flat_map (fun e => match e with EvSend m _ => [m] | _ => [] end) evs.
Definition delivered (evs : list event) : list pyval :=
  flat_map (fun e => match e with EvSend m None => [m] | _ => [] end) evs.

(** Every send among [evs] went out. *)
Definition all_delivered (evs : list event) : bool :=
  forallb (fun e => match e with EvSend _ (Some _) => false | _ => true end)
    evs.

(** [m.get(key)] of an outbound message. *)
Definition field (key : string) (m : pyval) : option pyval :=
  match m with PyDict d => dict_get d key | _ => None end.

(** The [type] of an outbound message. *)
Definition msg_type (m : pyval) : string :=
  match field "type" m with Some (PyStr t) => t | _ => EmptyString end.

Definition has_type (t : string) (m : pyval) : bool :=
  String.eqb (msg_type m) t.

(** The [value] fields of the chunk events among [msgs], in order. *)
Definition chunk_values (msgs : list pyval) : list (option pyval) :=
  map (field "value") (filter (has_type "chunk") msgs).

(** The [code] fields of the error events among [msgs], in order. *)
Definition error_codes (msgs : list pyval) : list (option pyval) :=
  map (field "code") (filter (has_type "error") msgs).

(** The texts of [vs] put end to end, in order. *)
Definition join (vs : list string) : string :=
  fold_right String.append EmptyString vs.

Definition is_terminal (t : string) : bool :=
  orb (String.eqb t "end") (String.eqb t "error").

(** [chunk]s, then one terminal event (at most one when none is due), then
    nothing. *)
Fixpoint chunks_then (terminal_due : bool) (types : list string) : bool :=
  match types with
  | [] => negb terminal_due
  | t :: rest =>
      if String.eqb t "chunk" then chunks_then terminal_due rest
      else andb (is_terminal t) (match rest with [] => true | _ => false end)
  end.

(** One [start], [chunk]s, exactly one of [end] and [error], nothing after. *)
Definition complete_sequence (types : list string) : bool :=
  match types with
  | t :: rest => andb (String.eqb t "start") (chunks_then true rest)
  | [] => false
  end.

(** A sequence that may stop early: nothing, or one [start], [chunk]s and at
    most one terminal event, nothing after. *)
Definition ordered_sequence (types : list string) : bool :=
  match types with
  | t :: rest => andb (String.eqb t "start") (chunks_then false rest)
  | [] => true
  end.

(** The state of the connection's lock, with the number of model requests
    started since it was taken. *)
Inductive gate : Type := Free | Held (requests : nat).

(** What a handler may do in each state of the lock: receive, refuse a
    payload, close and take the lock while it is free; send and start one
    model request while it holds it.  An event that carries a [request_id]
    belongs to a request and is sent under the lock. *)
Definition gate_step (g : gate) (e : event) : option gate :=
  match g, e with
  | Free, EvAcquire => Some (Held 0)
  | Free, EvSend m _ =>
      match field "request_id" m with None => Some Free | Some _ => None end
  | Free, (EvAccept | EvRecv _ | EvClose _ _) => Some Free
  | Free, _ => None
  | Held n, EvSend _ _ => Some (Held n)
  | Held O, (EvInvoke _ _ | EvStreamOpen _) => Some (Held 1)
  | Held _, EvRelease => Some Free
  | Held _, _ => None
  end.

Fixpoint gate_run (g : gate) (evs : list event) : option gate :=
  match evs with
  | [] => Some g
  | e :: rest =>
      match gate_step g e with
      | Some g' => gate_run g' rest
      | None => None
      end
  end.

(** The log respects the lock and leaves it free. *)
Definition single_flight (evs : list event) : bool :=
  match gate_run Free evs with Some Free => true | _ => false end.

(** The outcomes of the [receive_json] calls, in order. *)
Definition received (evs : list event) : list (result pyval) :=
  flat_map (fun e => match e with EvRecv r => [r] | _ => [] end) evs.

Definition is_close (e : event) : bool :=
  match e with EvClose _ _ => true | _ => false end.

(** Events of a handler between a receive and the next one. *)
Definition request_event (e : event) : bool :=
  match e with
  | EvSend _ _ | EvAcquire | EvRelease | EvInvoke _ _ | EvStreamOpen _ => true
  | _ => false
  end.

(** A time-out was reported to the client. *)
Definition timeout_reported (evs : list event) : bool :=
  existsb (fun c => match c with
                    | Some (PyStr code) =>
                        orb (String.eqb code "LLM_TIMEOUT")
                            (String.eqb code "STREAM_TIMEOUT")
                    | _ => false
                    end)
          (error_codes (delivered evs)).


(** How a coroutine ended. *)
Definition raises {A} (r : result A) : bool :=
  match r with Raise _ => true | Ok _ => false end.
Definition raises_disconnect {A} (r : result A) : bool :=
  match r with Raise WebSocketDisconnect => true | _ => false end.

(** The types of the events that went out, in order. *)
Definition event_types (evs : list event) : list string :=
  map msg_type (delivered evs).

(** ** What the handlers are shown to do *)

(** The chunk events of app3.py and of app2.py. *)
Definition chunk_msg3 (request_id v : string) : pyval :=
  PyDict [("type", PyStr "chunk"); ("request_id", PyStr request_id);
          ("value", PyStr v); ("status", PyStr "IN_PROGRESS");
          ("status_code", PyInt HTTP_200_OK)].
Definition chunk_msg2 (request_id v : string) : pyval :=
  PyDict [("type", PyStr "chunk"); ("request_id", PyStr request_id);
          ("value", PyStr v)].

(** What the chunk loop of a stream did: it sent the texts [vs] and, when
    it stopped on an exception, possibly one more chunk that did not go
    out.  It touches neither the close code nor, while it runs to the end,
    anything of [full_text] but its tail. *)
Definition chunk_loop_spec (msg : string -> pyval)
    (run : conn -> result unit * conn) (w : conn) : Prop :=
  exists vs tail,
    log (snd (run w)) =
      log w ++ map (fun v => EvSend (msg v) None) vs ++ tail /\
    close_code (snd (run w)) = close_code w /\
    match fst (run w) with
    | Ok _ => tail = [] /\
              full_text (snd (run w)) = (full_text w ++ join vs)%string
    | Raise e => tail = [] \/ exists v, tail = [EvSend (msg v) (Some e)]
    end.

(** What one pass of a receive loop does: it receives once, then only
    sends and talks to the model, under the lock as [gate_step] has it.
    [closing] says that a reported time-out ends the loop with the
    try-again-later code. *)
Definition pass_spec (closing : bool) (body : result pyval -> M control)
  : Prop :=
  forall f w, exists evs,
    log (snd (body f w)) = log w ++ [EvRecv f] ++ evs /\
    forallb request_event evs = true /\
    gate_run Free evs = Some Free /\
    (closing = true -> timeout_reported evs = true ->
     fst (body f w) = Ok Break /\
     close_code (snd (body f w)) = WS_1013_TRY_AGAIN_LATER).

(** What a receive loop does on [frames]: it receives a prefix of the
    frames in their order (and the disconnect that follows them), never
    closes, and respects the lock. *)
Definition loop_spec (closing : bool) (frames : list (result pyval))
    (loop : M unit) : Prop :=
  forall w, exists n evs,
    log (snd (loop w)) = log w ++ evs /\
    received evs = firstn n (frames ++ [Raise WebSocketDisconnect]) /\
    existsb is_close evs = false /\
    gate_run Free evs = Some Free /\
    (closing = true -> timeout_reported evs = true ->
     fst (loop w) = Ok tt /\
     close_code (snd (loop w)) = WS_1013_TRY_AGAIN_LATER).

(** What a handler does on a connection: it accepts, runs its receive loop,
    and ends with the one close attempt, whose failure it swallows. *)
Definition connection_spec (closing : bool) (frames : list (result pyval))
    (handler : M unit) : Prop :=
  forall w, exists n evs code o,
    fst (handler w) = Ok tt /\
    log (snd (handler w)) = log w ++ [EvAccept] ++ evs ++ [EvClose code o] /\
    received evs = firstn n (frames ++ [Raise WebSocketDisconnect]) /\
    existsb is_close evs = false /\
    gate_run Free evs = Some Free /\
    (closing = true -> timeout_reported evs = true ->
     code = WS_1013_TRY_AGAIN_LATER).


(** ** Connections used as examples *)

Definition request_hi : ChatRequest := mkChatRequest "Hi".

Definition uuids : list string :=
  ["5d0c7a1e-6b1f-4c58-9a57-2f4be1d3a901";
   "9b1c2d3e-7f60-4a2b-8c11-0e5d4c3b2a19";
   "c84e1f02-3a9d-4e7c-b6a5-71d20f9e8b44"].

(** Scenario C of the specification: the stream yields [He] and [llo]. *)
Definition scenario_c : conn :=
  connect [] [] [] [([plain_text "He"; plain_text "llo"], None)] uuids.

(** The client goes away while the first chunk is sent. *)
Definition disconnect_mid_stream : conn :=
  connect [None; Some WebSocketDisconnect] [] []
    [([plain_text "He"; plain_text "llo"], None)] uuids.

(** A stream whose chunks carry no text. *)
Definition silent_stream : conn :=
  connect [] [] []
    [([LNone; LObject (Some PyNone) "content=None";
       LObject (Some (PyStr EmptyString)) "content=''";
       plain_text EmptyString], None)] uuids.

(** The model times out on the first call and answers the second. *)
Definition timeout_then_reply : conn :=
  connect [] [] [Raise TimeoutError; Ok (plain_text "Hello")] [] uuids.

(** The stream times out after one chunk. *)
Definition stream_times_out : conn :=
  connect [] [] [] [([plain_text "He"], Some TimeoutError)] uuids.

(** The model times out and the transport refuses the error report. *)
Definition timeout_report_fails : conn :=
  connect [Some (OtherException "RuntimeError")] [] [Raise TimeoutError] []
    uuids.

(** The stream fails and the transport refuses the error report. *)
Definition stream_error_report_fails : conn :=
  connect [None; Some (OtherException "RuntimeError")] [] []
    [([], Some (OtherException "APIError"))] uuids.

(** A message whose content is a list of content blocks. *)
Definition content_blocks : pyval :=
  PyList [PyDict [("type", PyStr "text"); ("text", PyStr "Hi")]].
Definition block_message : llm_value :=
  LObject (Some content_blocks) "content=[{'type': 'text', 'text': 'Hi'}]".
Definition replies_with_blocks : conn :=
  connect [] [] [Ok block_message] [([block_message], None)] uuids.

(** A message of white space only. *)
Definition blank_payload : pyval := PyDict [("message", PyStr "   ")].
Definition answers_hello : conn :=
  connect [] [] [Ok (plain_text "Hello")] [] uuids.

(** Messages of exactly 8000 and of 8001 characters. *)
Definition longest_message : string := replicate (Z.to_nat max_length) "a".
Definition too_long_message : string := String "a" longest_message.

(** The content of a model result is text when it is absent, [None] or a
    string. *)
Definition textual (result : llm_value) : Prop :=
  match result with
  | LObject (Some content) _ => content = PyNone \/ is_str content = true
  | _ => True
  end.

(** The error events of the two endpoints of app3.py for an oversized
    message. *)
Definition too_big_event : pyval :=
  PyDict [("type", PyStr "error"); ("code", PyStr "MESSAGE_TOO_BIG");
          ("detail", PyStr "Message exceeds max length.")].
Definition too_big_stream_event : pyval :=
  PyDict [("type", PyStr "error"); ("status", PyStr "MESSAGE_TOO_BIG");
          ("status_code", PyInt WS_1009_MESSAGE_TOO_BIG);
          ("detail", PyStr "Message exceeds max length.")].

(** ** app.py, the streaming endpoint *)

Module App1Stream.

(** The loop over the chunks of the stream in the second [ws_chat]: the
    token is the [content] attribute as it is, or [str(chunk)], as in the
    first endpoint. *)
Fixpoint stream_chunks (chunks : list llm_value) (stop : option exn)
  : M unit :=
  match chunks with
  | [] => outcome stop
  | chunk :: rest =>
      let token := App1.reply_text chunk in
      if negb (truthy token) then stream_chunks rest stop
      else
        iadd_full_text token ;;
        send_json (PyDict [("type", PyStr "chunk"); ("value", token)]) ;;
        stream_chunks rest stop
  end.

Definition invalid_payload_event : pyval :=
  PyDict [("type", PyStr "error");
          ("message",
           PyStr "Invalid payload. Send: {'message': '<non-empty string>'}")].

(** One pass of the loop of the second [ws_chat]. *)
Definition pass (f : result pyval) : M control :=
  data <- receive_json f ;;
  user_text <- lift (App1.get_message data) ;;
  if App1.refused user_text then
    send_json invalid_payload_event ;;
    ret Continue
  else
    send_json (PyDict [("type", PyStr "start")]) ;;
    set_full_text EmptyString ;;
    s <- astream (match user_text with PyStr s => s | _ => EmptyString end) ;;
    stream_chunks (fst s) (snd s) ;;
    full <- get_full_text ;;
    send_json (PyDict [("type", PyStr "end"); ("full", PyStr full)]) ;;
    ret Continue.

(** The second [ws_chat], the handler of [/ws/chat2] in app.py. *)
Definition ws_chat (frames : list (result pyval)) : M unit :=
  accept ;;
  try_except
    (while_true pass frames)
    (fun e =>
       match e with
       | WebSocketDisconnect => ret tt
       | _ => try_except (close WS_1011_INTERNAL_ERROR) (fun _ => ret tt)
       end).

End App1Stream.

(** ** Further readers of payloads and of the log *)

(** The payload is an object whose [message] is a string of more than 8000
    characters. *)
Definition oversized (data : pyval) : bool :=
  match data with
  | PyDict d =>
      match dict_get d "message" with
      | Some (PyStr s) => Z.ltb max_length (len s)
      | _ => false
      end
  | _ => false
  end.

(** Every character of [s] is white space (also when [s] is empty). *)
Fixpoint all_space (s : string) : bool :=
  match s with
  | EmptyString => true
  | String c t => andb (isspace c) (all_space t)
  end.

(** The frame carries a payload that makes the request [req]: an object
    whose [message] is the string of [req], of 1 to 8000 characters. *)
Definition valid_frame (f : result pyval) (req : ChatRequest) : Prop :=
  exists d,
    f = Ok (PyDict d) /\
    dict_get d "message" = Some (PyStr (message req)) /\
    (1 <= len (message req) <= 8000)%Z.

(** The field [key] of [m] is the string [c]. *)
Definition field_is (key c : string) (m : pyval) : bool :=
  match field key m with Some (PyStr s) => String.eqb s c | _ => false end.

(** The close code an error event stands for, when it is one after which a
    handler of app3.py leaves its loop. *)
Definition report_code (m : pyval) : option Z :=
  if negb (has_type "error" m) then None
  else if orb (field_is "code" "MESSAGE_TOO_BIG" m)
              (field_is "status" "MESSAGE_TOO_BIG" m)
  then Some WS_1009_MESSAGE_TOO_BIG
  else if orb (field_is "code" "LLM_TIMEOUT" m)
              (field_is "code" "STREAM_TIMEOUT" m)
  then Some WS_1013_TRY_AGAIN_LATER
  else if orb (field_is "code" "LLM_ERROR" m)
              (field_is "code" "STREAM_ERROR" m)
  then Some WS_1011_INTERNAL_ERROR
  else None.

Fixpoint first_report (msgs : list pyval) : option Z :=
  match msgs with
  | [] => None
  | m :: rest =>
      match report_code m with
      | Some c => Some c
      | None => first_report rest
      end
  end.

(** The close code of the first such event that went out. *)
Definition terminal_report (evs : list event) : option Z :=
  first_report (delivered evs).

(** The tokens a stream gives the chunk loop of app2.py and app3.py to
    relay: the normalised chunks that are not falsy, in order. *)
Definition tokens (chunks : list llm_value) : list pyval :=
  filter truthy (map to_text chunks).

(** What one pass of a loop of app.py does: it receives once, then only
    sends and talks to the model, and lets a disconnect at the receive
    through. *)
Definition plain_pass_spec (body : result pyval -> M control) : Prop :=
  forall f w, exists evs,
    log (snd (body f w)) = log w ++ [EvRecv f] ++ evs /\
    forallb request_event evs = true /\
    (f = Raise WebSocketDisconnect ->
     fst (body f w) = Raise WebSocketDisconnect).

(** What a loop of app.py does: it starts with a receive, never closes, and
    when the last thing it did was to receive the disconnect, it ends on
    it. *)
Definition plain_loop_spec (loop : M unit) : Prop :=
  forall w, exists f0 evs,
    log (snd (loop w)) = log w ++ EvRecv f0 :: evs /\
    existsb is_close (EvRecv f0 :: evs) = false /\
    (last (EvRecv f0 :: evs) EvAccept = EvRecv (Raise WebSocketDisconnect) ->
     fst (loop w) = Raise WebSocketDisconnect).

(** What a handler of app.py does on a connection: it returns normally and
    either does not close, or closes once, as the last thing it does and
    with the internal-error code, and then the last thing its loop did was
    not to receive the client's disconnect. *)
Definition plain_connection_spec (handler : M unit) (w : conn) : Prop :=
  fst (handler w) = Ok tt /\
  exists evs,
    existsb is_close evs = false /\
    (events_of handler w = EvAccept :: evs \/
     (exists o,
        events_of handler w =
          EvAccept :: evs ++ [EvClose WS_1011_INTERNAL_ERROR o]) /\
     last evs EvAccept <> EvRecv (Raise WebSocketDisconnect)).

(** The chunk events of the streaming endpoint of app.py. *)
Definition chunk_msg1 (v : string) : pyval :=
  PyDict [("type", PyStr "chunk"); ("value", PyStr v)].

(** The frames a non-streaming loop answers.  [receive_chat_request] of
    app2.py reports every failure of the receive but the disconnect; the
    loop of app3.py lets a failure of the receive through, unless it is a
    validation error whose entries it can read. *)
Definition answered2 (f : result pyval) : bool := negb (raises_disconnect f).
Definition answered3 (f : result pyval) : bool :=
  match f with
  | Ok _ => true
  | Raise (ValidationError errors) =>
      negb (raises (is_message_too_big_error errors))
  | Raise _ => false
  end.

(** What one pass of a non-streaming loop does for the client: when its
    sends go out, it has answered the frame with one event if the frame is
    one the loop answers, and with none otherwise; and a loop that keeps
    serving goes on to the next frame. *)
Definition answer_pass_spec (answered : result pyval -> bool) (keeps : bool)
    (body : result pyval -> M control) : Prop :=
  forall f w, exists evs,
    log (snd (body f w)) = log w ++ [EvRecv f] ++ evs /\
    received evs = [] /\
    (all_delivered evs = true ->
     List.length (delivered evs) = (if answered f then 1 else 0) /\
     (keeps = true -> f <> Raise WebSocketDisconnect ->
      fst (body f w) = Ok Continue)).

Definition answer_loop_spec (answered : result pyval -> bool) (keeps : bool)
    (frames : list (result pyval)) (loop : M unit) : Prop :=
  forall w, exists n evs,
    log (snd (loop w)) = log w ++ evs /\
    received evs = firstn n (frames ++ [Raise WebSocketDisconnect]) /\
    (all_delivered evs = true ->
     List.length (delivered evs) =
       List.length (filter answered (received evs)) /\
     (keeps = true -> forallb answered2 frames = true ->
      received evs = frames ++ [Raise WebSocketDisconnect])).

(** What one pass of a loop of app3.py does with the close code: once a
    report that stands for a close code has gone out, the pass ends the loop
    with that code; otherwise it ends the loop with the internal-error code
    or leaves the code as it was. *)
Definition report_pass_spec (body : result pyval -> M control) : Prop :=
  forall f w, exists evs,
    log (snd (body f w)) = log w ++ [EvRecv f] ++ evs /\
    forallb request_event evs = true /\
    match terminal_report evs with
    | Some c => fst (body f w) = Ok Break /\ close_code (snd (body f w)) = c
    | None =>
        (fst (body f w) = Ok Break /\
         close_code (snd (body f w)) = WS_1011_INTERNAL_ERROR) \/
        (fst (body f w) <> Ok Break /\
         close_code (snd (body f w)) = close_code w)
    end.

Definition report_loop_spec (loop : M unit) : Prop :=
  forall w, exists evs,
    log (snd (loop w)) = log w ++ evs /\
    existsb is_close evs = false /\
    match terminal_report evs with
    | Some c => fst (loop w) = Ok tt /\ close_code (snd (loop w)) = c
    | None =>
        close_code (snd (loop w)) = WS_1011_INTERNAL_ERROR \/
        close_code (snd (loop w)) = close_code w
    end.

(** The close code of a connection of app3.py follows what was reported:
    the code of the report that went out, and without one the normal or the
    internal-error code. *)
Definition close_follows_report (handler : M unit) (w : conn) : Prop :=
  exists evs code o,
    events_of handler w = evs ++ [EvClose code o] /\
    existsb is_close evs = false /\
    match terminal_report evs with
    | Some c => code = c
    | None => code = WS_1000_NORMAL_CLOSURE \/ code = WS_1011_INTERNAL_ERROR
    end.

(** The supervisor of app3.py: the connection id it draws, the state in
    which its loop starts (accepted, close code 1000), and the close code it
    hands to [safe_close] once the loop is left: the code recorded last,
    which is the supervisor's own 1011 after an exception other than the
    disconnect, and otherwise the code the loop left in [close_code]. *)
Definition conn_id_of (w : conn) : string :=
  String.substring 0 8 (hd EmptyString (uuid_script w)).
Definition loop_start (w : conn) : conn :=
  snd ((accept ;; uuid8 ;; set_close_code WS_1000_NORMAL_CLOSURE) w).
Definition recorded_decision (run : result unit * conn) : Z :=
  match fst run with
  | Ok _ | Raise WebSocketDisconnect => close_code (snd run)
  | Raise _ => WS_1011_INTERNAL_ERROR
  end.

(** The error events of [receive_chat_request]. *)
Definition invalid_payload_report (errors : list (list (string * pyval)))
  : pyval :=
  PyDict [("type", PyStr "error"); ("code", PyStr "INVALID_PAYLOAD");
          ("detail", PyList (map PyDict errors));
          ("example", example_message)].
Definition bad_request_report (detail : string) : pyval :=
  PyDict [("type", PyStr "error"); ("code", PyStr "BAD_REQUEST");
          ("detail", PyStr detail); ("example", example_message)].

(** The prompts given to the model, in order. *)
Definition asks (evs : list event) : list string :=
  flat_map (fun e => match e with
                     | EvInvoke p _ | EvStreamOpen p => [p]
                     | _ => []
                     end) evs.

(** The messages of the frames that carry a valid payload, in order. *)
Definition valid_messages (frames : list (result pyval)) : list string :=
  flat_map (fun f => match f with
                     | Ok data =>
                         match model_validate data with
                         | Ok req => [message req]
                         | Raise _ => []
                         end
                     | Raise _ => []
                     end) frames.

(** What one pass of a loop of app2.py or app3.py asks the model: the
    message of its frame when the payload is valid, and nothing otherwise;
    or nothing at all, and then the loop does not go on. *)
Definition ask_pass_spec (body : result pyval -> M control) : Prop :=
  forall f w, exists evs,
    log (snd (body f w)) = log w ++ [EvRecv f] ++ evs /\
    (asks evs = valid_messages [f] \/
     asks evs = [] /\ fst (body f w) <> Ok Continue).

Definition ask_loop_spec (frames : list (result pyval)) (loop : M unit)
  : Prop :=
  forall w, exists n evs,
    log (snd (loop w)) = log w ++ evs /\
    asks evs = firstn n (valid_messages frames).

(** A report that stands for a close code is the last message of the
    list. *)
Fixpoint reports_last (msgs : list pyval) : bool :=
  match msgs with
  | [] => true
  | m :: rest =>
      match report_code m with
      | Some _ => match rest with [] => true | _ => false end
      | None => reports_last rest
      end
  end.

(** What one pass of a loop of app3.py delivers: no message after a report
    that stands for a close code; and after such a report the loop does not
    go on. *)
Definition last_report_pass_spec (body : result pyval -> M control) : Prop :=
  forall f w, exists evs,
    log (snd (body f w)) = log w ++ [EvRecv f] ++ evs /\
    reports_last (delivered evs) = true /\
    (first_report (delivered evs) = None \/ fst (body f w) <> Ok Continue).

(** * Proofs *)

(** ** Lists, strings and the log *)

Lemma skipn_exact {A} (l x : list A) : skipn (List.length l) (l ++ x) = x.
Proof. induction l; simpl; auto. Qed.

Lemma events_of_eq {A} (m : M A) w evs :
  log (snd (m w)) = log w ++ evs -> events_of m w = evs.
Proof. unfold events_of. intros ->. apply skipn_exact. Qed.

Lemma sent_app a b : sent (a ++ b) = sent a ++ sent b.
Proof. apply flat_map_app. Qed.

Lemma delivered_app a b : delivered (a ++ b) = delivered a ++ delivered b.
Proof. apply flat_map_app. Qed.

Lemma received_app a b : received (a ++ b) = received a ++ received b.
Proof. apply flat_map_app. Qed.

Lemma append_nil_r (s : string) : (s ++ EmptyString)%string = s.
Proof. induction s; simpl; congruence. Qed.

Lemma append_assoc (a b c : string) :
  ((a ++ b) ++ c)%string = (a ++ (b ++ c))%string.
Proof. induction a; simpl; congruence. Qed.

Lemma chunks_then_skip b {A} (f : A -> pyval) (vs : list A) rest :
  (forall v, msg_type (f v) = "chunk") ->
  chunks_then b (map msg_type (map f vs) ++ rest) = chunks_then b rest.
Proof. intros H. induction vs; simpl; auto. rewrite H. simpl. auto. Qed.

Lemma gate_run_app g a b :
  gate_run g (a ++ b) =
  match gate_run g a with Some g' => gate_run g' b | None => None end.
Proof.
  revert g. induction a as [|e a IH]; intros g; simpl; auto.
  destruct (gate_step g e); auto.
Qed.

(** ** Running a handler by hand *)

(** Unfolds the combinators and primitives of a handler on its state, up to
    what the script decides. *)
Ltac conn_eval :=
  cbv beta iota zeta delta
    [bind ret raise lift try_except finally emit set_close_code
     get_close_code set_full_text get_full_text iadd_full_text accept
     receive_json outcome send_json close uuid8 ainvoke astream wait_for
     with_lock safe_close];
  cbn [add_log fst snd send_script close_script invoke_script
       stream_script uuid_script close_code full_text log tl].

(** Names the request id drawn from the script. *)
Ltac name_rid :=
  match goal with
  | |- context [substring 0 8 ?u] =>
      let rid := fresh "rid" in generalize (substring 0 8 u) as rid; intros rid
  end.

(** Case analysis on what the next send or close does, and on the class of
    an exception a handler looks at. *)
Ltac split_send :=
  match goal with
  | |- context [hd (@None exn) ?l] => destruct (hd (@None exn) l) as [?|]
  end.

Ltac split_exn :=
  match goal with
  | |- context [match ?e with WebSocketDisconnect => _ | _ => _ end] =>
      is_var e; destruct e
  end.

Ltac crunch := repeat (conn_eval; first [split_send | split_exn]).

(** Brings the appended events of the goal to the front. *)
Ltac settle_log :=
  conn_eval;
  repeat match goal with H : log _ = _ |- _ => rewrite H; clear H end;
  rewrite <- ?app_assoc; rewrite ?skipn_exact.

(** Replaces the chunk loop of a stream by what [chunk_loop_spec] says of
    it, case by case on how it ended. *)
Ltac run_chunks fn spec :=
  match goal with
  | |- context [fn ?rid ?c ?s ?W] =>
      let vs := fresh "vs" in
      let tail := fresh "tail" in
      let Hl := fresh "Hlog" in
      let Hc := fresh "Hcode" in
      let Hr := fresh "Hres" in
      let r := fresh "r" in
      let w' := fresh "w'" in
      destruct (spec rid c s W) as (vs & tail & Hl & Hc & Hr);
      destruct (fn rid c s W) as [r w'];
      cbn [add_log fst snd send_script close_script invoke_script
           stream_script uuid_script close_code full_text log tl]
        in Hl, Hc, Hr;
      destruct r as [[]|[| | |]];
      [destruct Hr as [-> Hr]
      |destruct Hr as [-> | [? ->]] ..]
  end.

Lemma stream_chunks_spec3 : forall rid chunks stop w,
  chunk_loop_spec (chunk_msg3 rid) (App3.stream_chunks rid chunks stop) w.
Proof.
  intros rid chunks stop.
  induction chunks as [|chunk rest IH]; intros w; unfold chunk_loop_spec.
  - exists [], []. simpl. rewrite app_nil_r, append_nil_r.
    destruct stop; simpl; auto.
  - simpl. destruct (truthy (to_text chunk)); simpl; [|apply IH].
    unfold bind at 1. unfold iadd_full_text.
    destruct (to_text chunk) as [| | |s| | |];
      try (exists [], []; simpl; rewrite ?app_nil_r; auto; fail).
    destruct w as [ss cs iv st us cc ft lg].
    destruct ss as [|[e|] ss]; cbn.
    2:{ exists [], [EvSend (chunk_msg3 rid s) (Some e)].
        cbn. repeat split; eauto. }
    all: match goal with
         | |- context [App3.stream_chunks _ _ _ ?w'] =>
             destruct (IH w') as (vs & tail & Hl & Hc & Hr)
         end;
      exists (s :: vs), tail; cbn in *; rewrite Hl, Hc;
      rewrite <- !app_assoc; cbn; repeat split; auto;
      destruct (fst _); auto; destruct Hr as [? Hr]; split; auto;
      rewrite Hr; apply append_assoc.
Qed.


Lemma stream_chunks_spec2 : forall rid chunks stop w,
  chunk_loop_spec (chunk_msg2 rid) (App2.stream_chunks rid chunks stop) w.
Proof.
  intros rid chunks stop.
  induction chunks as [|chunk rest IH]; intros w; unfold chunk_loop_spec.
  - exists [], []. simpl. rewrite app_nil_r, append_nil_r.
    destruct stop; simpl; auto.
  - simpl. destruct (truthy (to_text chunk)); simpl; [|apply IH].
    unfold bind at 1. unfold iadd_full_text.
    destruct (to_text chunk) as [| | |s| | |];
      try (exists [], []; simpl; rewrite ?app_nil_r; auto; fail).
    destruct w as [ss cs iv st us cc ft lg].
    destruct ss as [|[e|] ss]; cbn.
    2:{ exists [], [EvSend (chunk_msg2 rid s) (Some e)].
        cbn. repeat split; eauto. }
    all: match goal with
         | |- context [App2.stream_chunks _ _ _ ?w'] =>
             destruct (IH w') as (vs & tail & Hl & Hc & Hr)
         end;
      exists (s :: vs), tail; cbn in *; rewrite Hl, Hc;
      rewrite <- !app_assoc; cbn; repeat split; auto;
      destruct (fst _); auto; destruct Hr as [? Hr]; split; auto;
      rewrite Hr; apply append_assoc.
Qed.


(** ** The events of a chunk loop, seen through the readers *)

Section ChunkEvents.
Variable msg : string -> pyval.
Hypothesis msg_is_chunk : forall v, msg_type (msg v) = "chunk".

Lemma delivered_chunk_events vs :
  delivered (map (fun v => EvSend (msg v) None) vs) = map msg vs.
Proof. induction vs; simpl; congruence. Qed.

Lemma sent_chunk_events vs :
  sent (map (fun v => EvSend (msg v) None) vs) = map msg vs.
Proof. induction vs; simpl; congruence. Qed.

Lemma received_chunk_events vs :
  received (map (fun v => EvSend (msg v) None) vs) = [].
Proof. induction vs; simpl; congruence. Qed.

Lemma all_delivered_chunk_events vs :
  all_delivered (map (fun v => EvSend (msg v) None) vs) = true.
Proof. induction vs; simpl; congruence. Qed.

Lemma request_chunk_events vs :
  forallb request_event (map (fun v => EvSend (msg v) None) vs) = true.
Proof. induction vs; simpl; congruence. Qed.

Lemma gate_run_chunk_events n vs rest :
  gate_run (Held n) (map (fun v => EvSend (msg v) None) vs ++ rest) =
  gate_run (Held n) rest.
Proof. induction vs; simpl; destruct n; auto. Qed.

Lemma chunks_then_chunks b vs rest :
  chunks_then b (map msg_type (map msg vs) ++ rest) = chunks_then b rest.
Proof. apply chunks_then_skip. exact msg_is_chunk. Qed.

Lemma no_terminal_chunks vs rest :
  existsb is_terminal (map msg_type (map msg vs) ++ rest) =
  existsb is_terminal rest.
Proof.
  induction vs; simpl; auto. rewrite msg_is_chunk. simpl. auto.
Qed.

Lemma filter_other_chunks t vs rest :
  String.eqb "chunk" t = false ->
  filter (has_type t) (map msg vs ++ rest) = filter (has_type t) rest.
Proof.
  intros H. induction vs; simpl; auto.
  unfold has_type at 1. rewrite msg_is_chunk, H. auto.
Qed.

Lemma filter_chunk_chunks vs rest :
  filter (has_type "chunk") (map msg vs ++ rest) =
  map msg vs ++ filter (has_type "chunk") rest.
Proof.
  induction vs; simpl; auto.
  unfold has_type at 1. rewrite msg_is_chunk. simpl. congruence.
Qed.
End ChunkEvents.

Lemma all_delivered_app a b :
  all_delivered (a ++ b) = andb (all_delivered a) (all_delivered b).
Proof. apply forallb_app. Qed.

Lemma chunk_values3 rid vs :
  map (field "value") (map (chunk_msg3 rid) vs) =
  map (fun v => Some (PyStr v)) vs.
Proof. induction vs; simpl; congruence. Qed.

Lemma chunk_values2 rid vs :
  map (field "value") (map (chunk_msg2 rid) vs) =
  map (fun v => Some (PyStr v)) vs.
Proof. induction vs; simpl; congruence. Qed.

(** Rewrites the readers over the events of a chunk loop. *)
Ltac read_chunks :=
  rewrite ?delivered_app, ?sent_app, ?received_app, ?all_delivered_app,
    ?forallb_app;
  rewrite ?delivered_chunk_events, ?sent_chunk_events,
    ?received_chunk_events, ?all_delivered_chunk_events,
    ?request_chunk_events;
  cbn [app delivered sent received all_delivered flat_map forallb andb
       request_event];
  cbn [app map]; rewrite ?map_app; cbn [app map].

(** *** The sequence of events of a streaming request *)

Ltac stream_leaves :=
  settle_log; unfold event_types;
  read_chunks;
  cbn [ordered_sequence complete_sequence];
  rewrite ?chunks_then_chunks, ?no_terminal_chunks by reflexivity.

Lemma stream_sequence3 cid req w :
  ordered_sequence (event_types (events_of (App3.stream_request cid req) w)) = true /\
  (all_delivered (events_of (App3.stream_request cid req) w) = true ->
   raises_disconnect (fst (App3.stream_request cid req w)) = false ->
   complete_sequence (event_types (events_of (App3.stream_request cid req) w)) = true) /\
  (raises (fst (App3.stream_request cid req w)) = true ->
   existsb is_terminal (event_types (events_of (App3.stream_request cid req) w)) = false).
Proof.
  unfold events_of, App3.stream_request, App3.stream_reply, App3.stream_tokens.
  conn_eval. name_rid. split_send; conn_eval.
  1:{ stream_leaves. repeat split; try reflexivity; discriminate. }
  all: run_chunks App3.stream_chunks stream_chunks_spec3; crunch;
    stream_leaves.
  all: cbn [fst raises raises_disconnect];
    repeat split; try reflexivity; try discriminate.
  all: cbn [existsb]; rewrite no_terminal_chunks by reflexivity; reflexivity.
Qed.

Lemma stream_sequence2 cid req w :
  ordered_sequence (event_types (events_of (App2.stream_request cid req) w)) = true /\
  (all_delivered (events_of (App2.stream_request cid req) w) = true ->
   raises_disconnect (fst (App2.stream_request cid req w)) = false ->
   complete_sequence (event_types (events_of (App2.stream_request cid req) w)) = true) /\
  (raises (fst (App2.stream_request cid req w)) = true ->
   existsb is_terminal (event_types (events_of (App2.stream_request cid req) w)) = false).
Proof.
  unfold events_of, App2.stream_request, App2.stream_reply, App2.stream_tokens.
  conn_eval. name_rid. split_send; conn_eval.
  1:{ stream_leaves. repeat split; try reflexivity; discriminate. }
  all: run_chunks App2.stream_chunks stream_chunks_spec2; crunch;
    stream_leaves.
  all: cbn [fst raises raises_disconnect];
    repeat split; try reflexivity; try discriminate.
  all: cbn [existsb]; rewrite no_terminal_chunks by reflexivity; reflexivity.
Qed.

(** *** The aggregate of an [end] event *)

Ltac eval_types :=
  cbn [filter app has_type msg_type field dict_get String.eqb Ascii.eqb
       Bool.eqb].

Ltac filter_chunks :=
  unfold chunk_values; eval_types;
  repeat (rewrite ?filter_other_chunks, ?filter_chunk_chunks by reflexivity;
          eval_types);
  rewrite ?map_app, ?chunk_values3, ?chunk_values2, ?app_nil_r.

Lemma end_full3 cid req w m :
  In m (filter (has_type "end")
          (sent (events_of (App3.stream_request cid req) w))) ->
  exists vs,
    chunk_values (sent (events_of (App3.stream_request cid req) w)) =
      map (fun v => Some (PyStr v)) vs /\
    chunk_values (delivered (events_of (App3.stream_request cid req) w)) =
      map (fun v => Some (PyStr v)) vs /\
    field "full" m = Some (PyStr (join vs)).
Proof.
  unfold events_of, App3.stream_request, App3.stream_reply, App3.stream_tokens.
  conn_eval. name_rid. split_send; conn_eval.
  1:{ settle_log. cbn. intros []. }
  all: run_chunks App3.stream_chunks stream_chunks_spec3; crunch;
    settle_log; read_chunks; filter_chunks.
  all: try (intros []; fail).
  all: intros [<-|[]]; exists vs; rewrite Hres; repeat split; reflexivity.
Qed.

Lemma end_full2 cid req w m :
  In m (filter (has_type "end")
          (sent (events_of (App2.stream_request cid req) w))) ->
  exists vs,
    chunk_values (sent (events_of (App2.stream_request cid req) w)) =
      map (fun v => Some (PyStr v)) vs /\
    chunk_values (delivered (events_of (App2.stream_request cid req) w)) =
      map (fun v => Some (PyStr v)) vs /\
    field "full" m = Some (PyStr (join vs)).
Proof.
  unfold events_of, App2.stream_request, App2.stream_reply, App2.stream_tokens.
  conn_eval. name_rid. split_send; conn_eval.
  1:{ settle_log. cbn. intros []. }
  all: run_chunks App2.stream_chunks stream_chunks_spec2; crunch;
    settle_log; read_chunks; filter_chunks.
  all: try (intros []; fail).
  all: intros [<-|[]]; exists vs; rewrite Hres; repeat split; reflexivity.
Qed.

(** *** Streams that yield nothing to relay *)

Lemma stream_chunks_silent3 rid chunks w :
  Forall (fun c => to_text c = PyStr EmptyString) chunks ->
  App3.stream_chunks rid chunks None w = (Ok tt, w).
Proof.
  induction 1 as [|c rest Hc _ IH]; simpl; auto. rewrite Hc. simpl. exact IH.
Qed.

Lemma stream_chunks_silent2 rid chunks w :
  Forall (fun c => to_text c = PyStr EmptyString) chunks ->
  App2.stream_chunks rid chunks None w = (Ok tt, w).
Proof.
  induction 1 as [|c rest Hc _ IH]; simpl; auto. rewrite Hc. simpl. exact IH.
Qed.

Lemma empty_stream3 cid req w chunks :
  hd ([], None) (stream_script w) = (chunks, None) ->
  Forall (fun c => to_text c = PyStr EmptyString) chunks ->
  hd None (send_script w) = None ->
  hd None (tl (send_script w)) = None ->
  event_types (events_of (App3.stream_request cid req) w) = ["start"; "end"] /\
  map (field "full") (delivered (events_of (App3.stream_request cid req) w)) =
    [None; Some (PyStr EmptyString)] /\
  fst (App3.stream_request cid req w) = Ok Continue /\
  close_code (snd (App3.stream_request cid req w)) = close_code w.
Proof.
  intros Hs Hc H0 H1.
  unfold events_of, App3.stream_request, App3.stream_reply, App3.stream_tokens.
  conn_eval. rewrite H0. conn_eval. rewrite Hs. conn_eval.
  rewrite (stream_chunks_silent3 _ _ _ Hc). conn_eval. rewrite H1. conn_eval.
  settle_log. repeat split.
Qed.

Lemma empty_stream2 cid req w chunks :
  hd ([], None) (stream_script w) = (chunks, None) ->
  Forall (fun c => to_text c = PyStr EmptyString) chunks ->
  hd None (send_script w) = None ->
  hd None (tl (send_script w)) = None ->
  event_types (events_of (App2.stream_request cid req) w) = ["start"; "end"] /\
  map (field "full") (delivered (events_of (App2.stream_request cid req) w)) =
    [None; Some (PyStr EmptyString)] /\
  fst (App2.stream_request cid req w) = Ok Continue /\
  close_code (snd (App2.stream_request cid req w)) = close_code w.
Proof.
  intros Hs Hc H0 H1.
  unfold events_of, App2.stream_request, App2.stream_reply, App2.stream_tokens.
  conn_eval. rewrite H0. conn_eval. rewrite Hs. conn_eval.
  rewrite (stream_chunks_silent2 _ _ _ Hc). conn_eval. rewrite H1. conn_eval.
  settle_log. repeat split.
Qed.

(** ** One pass of the receive loop *)

(** Once the frames are used up the receive raises the disconnect, and every
    loop body lets it through: [while_true] ends there as the loop does. *)
Lemma disconnected_pass_raises cid w :
  fst (App3.non_stream_pass cid (Raise WebSocketDisconnect) w) =
    Raise WebSocketDisconnect /\
  fst (App3.stream_pass cid (Raise WebSocketDisconnect) w) =
    Raise WebSocketDisconnect /\
  fst (App2.non_stream_pass cid (Raise WebSocketDisconnect) w) =
    Raise WebSocketDisconnect /\
  fst (App2.stream_pass cid (Raise WebSocketDisconnect) w) =
    Raise WebSocketDisconnect /\
  fst (App1.pass (Raise WebSocketDisconnect) w) = Raise WebSocketDisconnect.
Proof. repeat split. Qed.

Lemma timeout_reported_app a b :
  timeout_reported (a ++ b) = orb (timeout_reported a) (timeout_reported b).
Proof.
  unfold timeout_reported, error_codes.
  rewrite delivered_app, filter_app, map_app. apply existsb_app.
Qed.

Lemma timeout_reported_chunks (msg : string -> pyval) vs :
  (forall v, msg_type (msg v) = "chunk") ->
  timeout_reported (map (fun v => EvSend (msg v) None) vs) = false.
Proof.
  intros H. unfold timeout_reported, error_codes.
  rewrite delivered_chunk_events.
  rewrite <- (app_nil_r (map msg vs)).
  rewrite filter_other_chunks by auto. reflexivity.
Qed.

Ltac split_result :=
  match goal with
  | |- context [match ?r with Ok _ => _ | Raise _ => _ end] =>
      first [ is_var r; destruct r
            | match r with
              | hd _ _ => destruct r
              | model_validate _ => destruct r
              | is_message_too_big_error _ => destruct r as [[|]|?]
              end ]
  end.

Ltac crunch_pass :=
  repeat (conn_eval; first [split_send | split_exn | split_result]).

Ltac pass_leaf :=
  settle_log; eexists; split; [reflexivity|];
  rewrite ?forallb_app, ?timeout_reported_app, ?request_chunk_events,
    ?timeout_reported_chunks by reflexivity;
  cbn [app]; 
  repeat (cbn [gate_run gate_step field dict_get String.eqb Ascii.eqb Bool.eqb];
          rewrite ?gate_run_chunk_events);
  repeat split; try reflexivity; try (intros; discriminate).

Lemma non_stream_pass_spec3 cid : pass_spec true (App3.non_stream_pass cid).
Proof.
  intros f w.
  unfold App3.non_stream_pass, App3.non_stream_receive,
    App3.non_stream_request, App3.non_stream_reply.
  crunch_pass; try name_rid; pass_leaf.
Qed.

Lemma non_stream_pass_spec2 cid : pass_spec false (App2.non_stream_pass cid).
Proof.
  intros f w.
  unfold App2.non_stream_pass, App2.receive_chat_request,
    App2.non_stream_request, App2.non_stream_reply.
  crunch_pass; try name_rid; pass_leaf.
Qed.

Ltac crunch_stream_pass fn spec :=
  crunch_pass; try name_rid;
  try (run_chunks fn spec; crunch_pass);
  pass_leaf.

Lemma stream_pass_spec3 cid : pass_spec true (App3.stream_pass cid).
Proof.
  intros f w.
  unfold App3.stream_pass, App3.stream_receive, App3.stream_request,
    App3.stream_reply, App3.stream_tokens.
  crunch_stream_pass App3.stream_chunks stream_chunks_spec3.
Qed.

Lemma stream_pass_spec2 cid : pass_spec false (App2.stream_pass cid).
Proof.
  intros f w.
  unfold App2.stream_pass, App2.receive_chat_request, App2.stream_request,
    App2.stream_reply, App2.stream_tokens.
  crunch_stream_pass App2.stream_chunks stream_chunks_spec2.
Qed.

(** ** The receive loop and the supervisor *)

Lemma request_events_quiet evs :
  forallb request_event evs = true ->
  received evs = [] /\ existsb is_close evs = false.
Proof.
  induction evs as [|e evs IH]; simpl; auto.
  destruct e; simpl; try discriminate; auto.
Qed.

Lemma existsb_close_app a b :
  existsb is_close (a ++ b) = orb (existsb is_close a) (existsb is_close b).
Proof. apply existsb_app. Qed.

Section Loop.
Variable closing : bool.
Variable body : result pyval -> M control.
Hypothesis body_spec : pass_spec closing body.

Lemma while_true_spec frames :
  loop_spec closing frames (while_true body frames).
Proof.
  induction frames as [|f rest IH]; intros w; simpl.
  - destruct (body_spec (Raise WebSocketDisconnect) w)
      as (evs & Hl & Hq & Hg & Ht).
    destruct (request_events_quiet _ Hq) as [Hr Hc].
    exists 1, ([EvRecv (Raise WebSocketDisconnect)] ++ evs).
    unfold bind.
    destruct (body (Raise WebSocketDisconnect) w) as [[c|e] w1];
      cbn [fst snd ret] in *.
    all: rewrite received_app, existsb_close_app, timeout_reported_app,
           gate_run_app, Hr, Hc.
    all: refine (conj Hl (conj eq_refl (conj eq_refl (conj Hg _)))).
    all: intros Hcl Hrep; destruct (Ht Hcl Hrep) as [Hb Hcc]; split;
      congruence.
  - destruct (body_spec f w) as (evs & Hl & Hq & Hg & Ht).
    destruct (request_events_quiet _ Hq) as [Hr Hc].
    unfold bind.
    destruct (body f w) as [[[|]|e] w1]; cbn [fst snd ret] in *.
    + destruct (IH w1) as (n & evs2 & Hl2 & Hr2 & Hc2 & Hg2 & Ht2).
      exists (S n), (([EvRecv f] ++ evs) ++ evs2).
      rewrite Hl2, Hl, <- !app_assoc.
      rewrite !received_app, !existsb_close_app, !timeout_reported_app,
        !gate_run_app, Hr, Hc, Hr2, Hc2.
      cbn. rewrite gate_run_app, Hg, Hg2.
      refine (conj eq_refl (conj eq_refl (conj eq_refl (conj eq_refl _)))).
      intros Hcl Hrep.
      destruct (timeout_reported evs) eqn:E;
        [destruct (Ht Hcl eq_refl); discriminate|].
      apply (Ht2 Hcl Hrep).
    + exists 1, ([EvRecv f] ++ evs).
      rewrite received_app, existsb_close_app, timeout_reported_app,
        gate_run_app, Hr, Hc.
      refine (conj Hl (conj eq_refl (conj eq_refl (conj Hg _)))).
      intros Hcl Hrep; destruct (Ht Hcl Hrep) as [Hb Hcc]; split;
        congruence.
    + exists 1, ([EvRecv f] ++ evs).
      rewrite received_app, existsb_close_app, timeout_reported_app,
        gate_run_app, Hr, Hc.
      refine (conj Hl (conj eq_refl (conj eq_refl (conj Hg _)))).
      intros Hcl Hrep; destruct (Ht Hcl Hrep) as [Hb Hcc]; split;
        congruence.
Qed.
End Loop.

Ltac run_loop closing pass_spec_lemma :=
  match goal with
  | |- context [while_true ?body ?frames ?W] =>
      let n := fresh "n" in
      let evs := fresh "evs" in
      let Hl := fresh "Hlog" in
      let Hr := fresh "Hrecv" in
      let Hc := fresh "Hclose" in
      let Hg := fresh "Hgate" in
      let Ht := fresh "Htime" in
      let r := fresh "r" in
      let w1 := fresh "w1" in
      destruct (while_true_spec closing body pass_spec_lemma frames W)
        as (n & evs & Hl & Hr & Hc & Hg & Ht);
      destruct (while_true body frames W) as [r w1];
      cbn [add_log fst snd send_script close_script invoke_script
           stream_script uuid_script close_code full_text log tl]
        in Hl, Ht;
      exists n, evs;
      destruct r as [[]|[| | |]]
  end.

Ltac connection_end :=
  do 2 eexists; settle_log;
  split; [reflexivity|]; split; [reflexivity|];
  do 3 (split; [assumption|]);
  try (intros; discriminate);
  try (intros Hcl Hrep;
       match goal with
       | Ht : _ -> _ -> _ /\ _ |- _ => destruct (Ht Hcl Hrep); congruence
       end).

Ltac connection_leaf := crunch; connection_end.

Lemma ws_chat_non_stream_spec3 frames :
  connection_spec true frames (App3.ws_chat_non_stream frames).
Proof.
  intros w. unfold App3.ws_chat_non_stream. conn_eval.
  run_loop true
    (non_stream_pass_spec3 (substring 0 8 (hd EmptyString (uuid_script w))));
    connection_leaf.
Qed.

Lemma ws_chat_stream_spec3 frames :
  connection_spec true frames (App3.ws_chat_stream frames).
Proof.
  intros w. unfold App3.ws_chat_stream. conn_eval.
  run_loop true
    (stream_pass_spec3 (substring 0 8 (hd EmptyString (uuid_script w))));
    connection_leaf.
Qed.

Lemma ws_chat_non_stream_spec2 frames :
  connection_spec false frames (App2.ws_chat_non_stream frames).
Proof.
  intros w. unfold App2.ws_chat_non_stream. conn_eval.
  run_loop false
    (non_stream_pass_spec2 (substring 0 8 (hd EmptyString (uuid_script w))));
    connection_leaf.
Qed.

Lemma ws_chat_stream_spec2 frames :
  connection_spec false frames (App2.ws_chat_stream frames).
Proof.
  intros w. unfold App2.ws_chat_stream. conn_eval.
  run_loop false
    (stream_pass_spec2 (substring 0 8 (hd EmptyString (uuid_script w))));
    connection_leaf.
Qed.

(** What follows from [connection_spec] for the events of a connection. *)
Section Connection.
Variable closing : bool.
Variable frames : list (result pyval).
Variable handler : M unit.
Hypothesis handler_spec : connection_spec closing frames handler.

Lemma connection_closes_once w :
  fst (handler w) = Ok tt /\
  exists evs code o,
    events_of handler w = evs ++ [EvClose code o] /\
    existsb is_close evs = false.
Proof.
  destruct (handler_spec w) as (n & evs & code & o & Hr & Hl & _ & Hc & _).
  split; auto. exists ([EvAccept] ++ evs), code, o.
  rewrite (events_of_eq _ _ _ Hl), <- app_assoc. split; auto.
Qed.

Lemma connection_single_flight w :
  single_flight (events_of handler w) = true /\
  exists n,
    received (events_of handler w) =
    firstn n (frames ++ [Raise WebSocketDisconnect]).
Proof.
  destruct (handler_spec w) as (n & evs & code & o & _ & Hl & Hr & _ & Hg & _).
  rewrite (events_of_eq _ _ _ Hl). unfold single_flight. split.
  - cbn [app gate_run gate_step]. rewrite gate_run_app, Hg. reflexivity.
  - exists n. rewrite !received_app, Hr. cbn. apply app_nil_r.
Qed.

Lemma connection_timeout_code w :
  closing = true ->
  timeout_reported (events_of handler w) = true ->
  exists evs o,
    events_of handler w = evs ++ [EvClose WS_1013_TRY_AGAIN_LATER o] /\
    existsb is_close evs = false.
Proof.
  intros Hcl.
  destruct (handler_spec w) as (n & evs & code & o & _ & Hl & _ & Hc & _ & Ht).
  rewrite (events_of_eq _ _ _ Hl), !timeout_reported_app.
  change (timeout_reported [EvAccept]) with false.
  change (timeout_reported [EvClose code o]) with false.
  rewrite orb_false_r. cbn [orb]. intros Hrep.
  rewrite (Ht Hcl Hrep). exists ([EvAccept] ++ evs), o.
  rewrite <- app_assoc. split; auto.
Qed.
End Connection.

(** ** Time-outs of the model, request by request *)

Ltac codes_leaf :=
  settle_log; rewrite ?timeout_reported_app;
  rewrite ?timeout_reported_chunks by reflexivity;
  unfold timeout_reported, error_codes;
  read_chunks; eval_types;
  repeat (rewrite ?filter_other_chunks by reflexivity; eval_types);
  cbn [map existsb orb field dict_get String.eqb Ascii.eqb Bool.eqb].

Lemma non_stream_timeout3 cid rid req w :
  fst (wait_for 60 (ainvoke (message req)) w) = Raise TimeoutError ->
  error_codes (sent (events_of (App3.non_stream_reply cid rid req) w)) =
    [Some (PyStr "LLM_TIMEOUT")] /\
  (timeout_reported (events_of (App3.non_stream_reply cid rid req) w) = true ->
   fst (App3.non_stream_reply cid rid req w) = Ok Break /\
   close_code (snd (App3.non_stream_reply cid rid req w)) =
     WS_1013_TRY_AGAIN_LATER).
Proof.
  unfold events_of, App3.non_stream_reply. conn_eval.
  destruct (hd (Ok LNone) (invoke_script w)) as [v|[| | |]];
    cbn [fst]; try discriminate; intros _.
  crunch; codes_leaf; split; try reflexivity; try discriminate; auto.
Qed.

Lemma non_stream_timeout2 cid rid req w :
  fst (wait_for 60 (ainvoke (message req)) w) = Raise TimeoutError ->
  error_codes (sent (events_of (App2.non_stream_reply cid rid req) w)) =
    [Some (PyStr "LLM_TIMEOUT")] /\
  (timeout_reported (events_of (App2.non_stream_reply cid rid req) w) = true ->
   fst (App2.non_stream_reply cid rid req w) = Ok Continue /\
   close_code (snd (App2.non_stream_reply cid rid req w)) = close_code w).
Proof.
  unfold events_of, App2.non_stream_reply. conn_eval.
  destruct (hd (Ok LNone) (invoke_script w)) as [v|[| | |]];
    cbn [fst]; try discriminate; intros _.
  crunch; codes_leaf; split; try reflexivity; try discriminate; auto.
Qed.

Lemma stream_timeout3 cid rid req w :
  fst (wait_for 120 (App3.stream_tokens rid req) w) = Raise TimeoutError ->
  error_codes (sent (events_of (App3.stream_reply cid rid req) w)) =
    [Some (PyStr "STREAM_TIMEOUT")] /\
  (timeout_reported (events_of (App3.stream_reply cid rid req) w) = true ->
   fst (App3.stream_reply cid rid req w) = Ok Break /\
   close_code (snd (App3.stream_reply cid rid req w)) =
     WS_1013_TRY_AGAIN_LATER).
Proof.
  unfold events_of, App3.stream_reply, App3.stream_tokens. conn_eval.
  run_chunks App3.stream_chunks stream_chunks_spec3;
    cbn [fst]; try discriminate; intros _.
  all: crunch; codes_leaf; split; try reflexivity; try discriminate; auto.
Qed.

Lemma stream_timeout2 cid rid req w :
  fst (wait_for 120 (App2.stream_tokens rid req) w) = Raise TimeoutError ->
  error_codes (sent (events_of (App2.stream_reply cid rid req) w)) =
    [Some (PyStr "STREAM_TIMEOUT")] /\
  (timeout_reported (events_of (App2.stream_reply cid rid req) w) = true ->
   fst (App2.stream_reply cid rid req w) = Ok Continue /\
   close_code (snd (App2.stream_reply cid rid req w)) = close_code w).
Proof.
  unfold events_of, App2.stream_reply, App2.stream_tokens. conn_eval.
  run_chunks App2.stream_chunks stream_chunks_spec2;
    cbn [fst]; try discriminate; intros _.
  all: crunch; codes_leaf; split; try reflexivity; try discriminate; auto.
Qed.

(** ** The close code, pass by pass *)

Lemma first_report_app a b :
  first_report (a ++ b) =
  match first_report a with Some c => Some c | None => first_report b end.
Proof.
  induction a as [|m a IH]; simpl; auto. destruct (report_code m); auto.
Qed.

Lemma terminal_report_app a b :
  terminal_report (a ++ b) =
  match terminal_report a with Some c => Some c | None => terminal_report b end.
Proof. unfold terminal_report. rewrite delivered_app. apply first_report_app. Qed.

Lemma terminal_report_chunks (msg : string -> pyval) vs :
  (forall v, msg_type (msg v) = "chunk") ->
  terminal_report (map (fun v => EvSend (msg v) None) vs) = None.
Proof.
  intros H. unfold terminal_report. rewrite delivered_chunk_events.
  induction vs; simpl; auto.
  unfold report_code, has_type. rewrite H. simpl. exact IHvs.
Qed.

Lemma terminal_report_recv f evs :
  terminal_report ([EvRecv f] ++ evs) = terminal_report evs.
Proof. reflexivity. Qed.

Ltac report_leaf :=
  settle_log; eexists; split; [reflexivity|];
  split;
  [ rewrite ?forallb_app, ?request_chunk_events; reflexivity
  | rewrite ?terminal_report_app;
    rewrite ?terminal_report_chunks by reflexivity;
    cbn [terminal_report delivered flat_map app first_report report_code
         has_type msg_type field field_is dict_get String.eqb Ascii.eqb
         Bool.eqb negb orb];
    first [ split; reflexivity
          | left; split; reflexivity
          | right; split; [discriminate | first [reflexivity | assumption]] ] ].

Lemma non_stream_report3 cid : report_pass_spec (App3.non_stream_pass cid).
Proof.
  intros f w.
  unfold App3.non_stream_pass, App3.non_stream_receive,
    App3.non_stream_request, App3.non_stream_reply.
  crunch_pass; try name_rid; report_leaf.
Qed.

Lemma stream_report3 cid : report_pass_spec (App3.stream_pass cid).
Proof.
  intros f w.
  unfold App3.stream_pass, App3.stream_receive, App3.stream_request,
    App3.stream_reply, App3.stream_tokens.
  crunch_pass; try name_rid;
    try (run_chunks App3.stream_chunks stream_chunks_spec3; crunch_pass);
    report_leaf.
Qed.

Section ReportLoop.
Variable body : result pyval -> M control.
Hypothesis body_spec : report_pass_spec body.

Lemma report_pass_end f w evs :
  forallb request_event evs = true ->
  match terminal_report evs with
  | Some c => fst (body f w) = Ok Break /\ close_code (snd (body f w)) = c
  | None =>
      (fst (body f w) = Ok Break /\
       close_code (snd (body f w)) = WS_1011_INTERNAL_ERROR) \/
      (fst (body f w) <> Ok Break /\
       close_code (snd (body f w)) = close_code w)
  end ->
  existsb is_close ([EvRecv f] ++ evs) = false /\
  match terminal_report ([EvRecv f] ++ evs) with
  | Some c => close_code (snd (body f w)) = c
  | None =>
      close_code (snd (body f w)) = WS_1011_INTERNAL_ERROR \/
      close_code (snd (body f w)) = close_code w
  end.
Proof.
  intros Hq Ht. destruct (request_events_quiet _ Hq) as [_ Hc].
  split; [exact Hc|]. rewrite terminal_report_recv.
  destruct (terminal_report evs); [tauto|]. destruct Ht; [left|right]; tauto.
Qed.

Lemma report_while_true_spec frames :
  report_loop_spec (while_true body frames).
Proof.
  induction frames as [|f rest IH]; intros w; simpl while_true.
  - destruct (body_spec (Raise WebSocketDisconnect) w) as (evs & Hl & Hq & Ht).
    destruct (report_pass_end _ _ _ Hq Ht) as [Hc Hr].
    exists ([EvRecv (Raise WebSocketDisconnect)] ++ evs).
    rewrite terminal_report_recv in *. unfold bind.
    destruct (body (Raise WebSocketDisconnect) w) as [[c|e] w1];
      cbn [fst snd ret] in *.
    all: split; [exact Hl|]; split; [exact Hc|].
    all: destruct (terminal_report evs); auto.
    all: destruct Ht as [Hb Hcc]; split; [reflexivity || discriminate|exact Hcc].
  - destruct (body_spec f w) as (evs & Hl & Hq & Ht).
    destruct (report_pass_end _ _ _ Hq Ht) as [Hc Hr].
    unfold bind.
    destruct (body f w) as [[[|]|e] w1]; cbn [fst snd ret] in *.
    + destruct (IH w1) as (evs2 & Hl2 & Hc2 & Ht2).
      exists (([EvRecv f] ++ evs) ++ evs2).
      rewrite Hl2, Hl, <- !app_assoc. split; [reflexivity|].
      rewrite !app_assoc, existsb_close_app, Hc, Hc2.
      split; [reflexivity|].
      rewrite terminal_report_app, terminal_report_recv.
      destruct (terminal_report evs) as [c|].
      * destruct Ht as [Hb _]. discriminate.
      * destruct Ht as [[Hb _]|[_ Hcc]]; [discriminate|].
        rewrite <- Hcc. exact Ht2.
    + exists ([EvRecv f] ++ evs). split; [exact Hl|]. split; [exact Hc|].
      rewrite terminal_report_recv in *.
      destruct (terminal_report evs); auto.
    + exists ([EvRecv f] ++ evs). split; [exact Hl|]. split; [exact Hc|].
      rewrite terminal_report_recv in *.
      destruct (terminal_report evs); auto.
      destruct Ht as [Hb _]. discriminate.
Qed.
End ReportLoop.

Ltac report_connection lemma :=
  match goal with
  | |- context [while_true ?body ?frames ?W] =>
      let evs := fresh "evs" in
      let Hl := fresh "Hlog" in
      let Hc := fresh "Hclose" in
      let Ht := fresh "Hrep" in
      let r := fresh "r" in
      let w1 := fresh "w1" in
      destruct (report_while_true_spec body lemma frames W)
        as (evs & Hl & Hc & Ht);
      destruct (while_true body frames W) as [r w1];
      cbn [add_log fst snd send_script close_script invoke_script
           stream_script uuid_script close_code full_text log tl]
        in Hl, Ht;
      exists ([EvAccept] ++ evs);
      destruct r as [[]|[| | |]]; crunch; settle_log;
      do 2 eexists; (split; [reflexivity|]); (split; [exact Hc|]);
      change (terminal_report ([EvAccept] ++ evs))
        with (terminal_report evs);
      destruct (terminal_report evs);
      first [ tauto
            | destruct Ht; discriminate
            | right; reflexivity
            | destruct Ht as [Ht|Ht]; rewrite Ht; auto ]
  end.

(** ** The supervisor and the recorded close code *)

(** The supervisor of app3.py, around the loop of either endpoint. *)
Lemma supervisor_executes_decision
    (pass : string -> result pyval -> M control) frames w :
  (forall cid, report_pass_spec (pass cid)) ->
  fst ((accept ;;
        conn_id <- uuid8 ;;
        set_close_code WS_1000_NORMAL_CLOSURE ;;
        finally
          (try_except
             (while_true (pass conn_id) frames)
             (fun e =>
                match e with
                | WebSocketDisconnect => ret tt
                | _ => set_close_code WS_1011_INTERNAL_ERROR
                end))
          (code <- get_close_code ;; safe_close code)) w) = Ok tt /\
  exists evs code o,
    events_of
      (accept ;;
       conn_id <- uuid8 ;;
       set_close_code WS_1000_NORMAL_CLOSURE ;;
       finally
         (try_except
            (while_true (pass conn_id) frames)
            (fun e =>
               match e with
               | WebSocketDisconnect => ret tt
               | _ => set_close_code WS_1011_INTERNAL_ERROR
               end))
         (code <- get_close_code ;; safe_close code)) w =
      evs ++ [EvClose code o] /\
    existsb is_close evs = false /\
    evs = EvAccept ::
          events_of (while_true (pass (conn_id_of w)) frames) (loop_start w) /\
    code = recorded_decision
             (while_true (pass (conn_id_of w)) frames (loop_start w)) /\
    match terminal_report evs with
    | Some c => code = c
    | None => code = WS_1000_NORMAL_CLOSURE \/ code = WS_1011_INTERNAL_ERROR
    end.
Proof.
  intros Hb.
  unfold events_of, loop_start, conn_id_of, recorded_decision. conn_eval.
  match goal with
  | |- context [while_true ?body frames ?W] =>
      destruct (report_while_true_spec body (Hb _) frames W)
        as (evs & Hl & Hc & Ht);
      destruct (while_true body frames W) as [r w1]
  end.
  cbn [add_log fst snd send_script close_script invoke_script
       stream_script uuid_script close_code full_text log tl] in Hl, Ht |- *.
  rewrite Hl, skipn_exact.
  assert (Hev : forall c o,
            skipn (List.length (log w))
              (((log w ++ [EvAccept]) ++ evs) ++ [EvClose c o]) =
            (EvAccept :: evs) ++ [EvClose c o]).
  { intros c o. rewrite <- !app_assoc. apply skipn_exact. }
  destruct r as [[]|[| | |]]; crunch; cbn [log add_log fst snd];
    rewrite ?Hl, ?Hev;
    (split; [reflexivity|]);
    do 3 eexists; (split; [reflexivity|]); (split; [exact Hc|]);
    (split; [reflexivity|]); (split; [reflexivity|]);
    change (terminal_report (EvAccept :: evs)) with (terminal_report evs);
    destruct (terminal_report evs);
    first [ tauto
          | destruct Ht; discriminate
          | right; reflexivity
          | destruct Ht as [Ht|Ht]; rewrite Ht; auto ].
Qed.

(** * The claims *)

(** ** Validation *)

(** What the validator refuses for another reason than its length is not
    classified as too big. *)
Lemma refused_is_not_too_big d :
  dict_get d "message" = None \/
  (exists v, dict_get d "message" = Some v /\ is_str v = false) \/
  dict_get d "message" = Some (PyStr EmptyString) ->
  exists errors,
    model_validate (PyDict d) = Raise (ValidationError errors) /\
    is_message_too_big_error errors = Ok false.
Proof.
  unfold model_validate.
  intros [H | [(v & H & Hv) | H]]; rewrite H.
  - eexists; split; reflexivity.
  - destruct v; try discriminate; eexists; split; reflexivity.
  - eexists; split; reflexivity.
Qed.

(** C3.  A payload object whose [message] is a string of exactly 8000
    characters validates and yields the request; one of 8001 characters or
    more is refused, the refusal is classified as too big, and both
    endpoints of app3.py report MESSAGE_TOO_BIG (not INVALID_PAYLOAD) and
    leave the loop with close code 1009. *)
Theorem message_length_boundary d s :
  dict_get d "message" = Some (PyStr s) ->
  (len s = 8000%Z ->
   model_validate (PyDict d) = Ok (mkChatRequest s) /\
   forall w,
     fst (App3.non_stream_receive (Ok (PyDict d)) w) = Ok (inl (mkChatRequest s)) /\
     fst (App3.stream_receive (Ok (PyDict d)) w) = Ok (inl (mkChatRequest s)) /\
     sent (events_of (App3.non_stream_receive (Ok (PyDict d))) w) = [] /\
     sent (events_of (App3.stream_receive (Ok (PyDict d))) w) = []) /\
  ((8001 <= len s)%Z ->
   exists errors,
     model_validate (PyDict d) = Raise (ValidationError errors) /\
     is_message_too_big_error errors = Ok true /\
     forall w,
       sent (events_of (App3.non_stream_receive (Ok (PyDict d))) w) =
         [too_big_event] /\
       sent (events_of (App3.stream_receive (Ok (PyDict d))) w) =
         [too_big_stream_event] /\
       (hd None (send_script w) = None ->
        fst (App3.non_stream_receive (Ok (PyDict d)) w) = Ok (inr Break) /\
        close_code (snd (App3.non_stream_receive (Ok (PyDict d)) w)) =
          WS_1009_MESSAGE_TOO_BIG /\
        fst (App3.stream_receive (Ok (PyDict d)) w) = Ok (inr Break) /\
        close_code (snd (App3.stream_receive (Ok (PyDict d)) w)) =
          WS_1009_MESSAGE_TOO_BIG)).
Proof.
  intros Hm. split.
  - intros Hlen.
    assert (Hv : model_validate (PyDict d) = Ok (mkChatRequest s)).
    { unfold model_validate. rewrite Hm.
      unfold min_length, max_length. rewrite Hlen. reflexivity. }
    split; auto. intros w.
    unfold events_of, App3.non_stream_receive, App3.stream_receive.
    conn_eval. rewrite Hv. conn_eval. settle_log. repeat split.
  - intros Hlen.
    assert (Hv : model_validate (PyDict d) =
      Raise (ValidationError
        [error_details "string_too_long" [PyStr "message"]
           "String should have at most 8000 characters" (PyStr s)
           [("max_length", PyInt 8000)]])).
    { unfold model_validate. rewrite Hm. unfold min_length, max_length.
      destruct (Z.ltb_spec (len s) 1); [lia|].
      destruct (Z.ltb_spec 8000 (len s)); [reflexivity|lia]. }
    eexists. split; [exact Hv|]. split; [reflexivity|]. intros w.
    unfold events_of, App3.non_stream_receive, App3.stream_receive.
    conn_eval. rewrite Hv. conn_eval.
    change (is_message_too_big_error _) with (@Ok bool true). conn_eval.
    destruct (hd None (send_script w)); settle_log; repeat split;
      discriminate.
Qed.

Lemma message_length_boundary_witness :
  (len longest_message = 8000%Z /\
   model_validate (PyDict [("message", PyStr longest_message)]) =
     Ok (mkChatRequest longest_message)) /\
  ((8001 <= len too_long_message)%Z /\
   sent (events_of
           (App3.non_stream_receive
              (Ok (PyDict [("message", PyStr too_long_message)])))
           answers_hello) = [too_big_event]).
Proof.
  split.
  - split; [vm_compute; reflexivity|].
    apply (message_length_boundary
             [("message", PyStr longest_message)] longest_message);
      [reflexivity | vm_compute; reflexivity].
  - assert (H : (8001 <= len too_long_message)%Z)
      by (vm_compute; discriminate).
    split; [exact H|].
    destruct (message_length_boundary
                [("message", PyStr too_long_message)] too_long_message
                eq_refl) as [_ Hbig].
    destruct (Hbig H) as (errors & _ & _ & Hw).
    apply (Hw answers_hello).
Defined.

(** C4 (the code departs from the claim).  A message of three spaces passes
    the validation of app2.py and app3.py and is sent to the model, while
    the check of app.py refuses it. *)
Theorem whitespace_message_is_accepted :
  model_validate blank_payload = Ok (mkChatRequest "   ") /\
  events_of (App3.ws_chat_non_stream [Ok blank_payload]) answers_hello =
    [EvAccept; EvRecv (Ok blank_payload); EvAcquire;
     EvInvoke "   " (Ok (plain_text "Hello"));
     EvSend (PyDict [("type", PyStr "response");
                     ("request_id", PyStr "9b1c2d3e");
                     ("value", PyStr "Hello")]) None;
     EvRelease; EvRecv (Raise WebSocketDisconnect);
     EvClose WS_1000_NORMAL_CLOSURE None] /\
  fst (App2.receive_chat_request (Ok blank_payload) answers_hello) =
    Ok (Some (mkChatRequest "   ")) /\
  App1.refused (PyStr "   ") = true /\
  sent (events_of (App1.pass (Ok blank_payload)) answers_hello) =
    [PyStr App1.invalid_payload_text].
Proof. repeat split. Qed.

(** The rest of C4 holds in app2.py and app3.py: a payload object without
    [message], with one that is not a string, or with the empty string is
    refused and reported as INVALID_PAYLOAD, and the loop goes on. *)
Lemma invalid_payload_is_reported d w :
  dict_get d "message" = None \/
  (exists v, dict_get d "message" = Some v /\ is_str v = false) \/
  dict_get d "message" = Some (PyStr EmptyString) ->
  map (field "code")
    (sent (events_of (App3.non_stream_receive (Ok (PyDict d))) w)) =
    [Some (PyStr "INVALID_PAYLOAD")] /\
  map (field "status")
    (sent (events_of (App3.stream_receive (Ok (PyDict d))) w)) =
    [Some (PyStr "INVALID_PAYLOAD")] /\
  map (field "code")
    (sent (events_of (App2.receive_chat_request (Ok (PyDict d))) w)) =
    [Some (PyStr "INVALID_PAYLOAD")] /\
  (hd None (send_script w) = None ->
   fst (App3.non_stream_receive (Ok (PyDict d)) w) = Ok (inr Continue) /\
   fst (App3.stream_receive (Ok (PyDict d)) w) = Ok (inr Continue) /\
   fst (App2.receive_chat_request (Ok (PyDict d)) w) = Ok None).
Proof.
  intros H. destruct (refused_is_not_too_big d H) as (errors & Hv & Hb).
  unfold events_of, App3.non_stream_receive, App3.stream_receive,
    App2.receive_chat_request.
  conn_eval. rewrite Hv. conn_eval. rewrite Hb. conn_eval.
  destruct (hd None (send_script w)); settle_log; repeat split; discriminate.
Qed.

(** ** Text normaliser *)

(** The part of C5 that holds: on [None], on an object without [content],
    and on one whose [content] is [None] or a string, [to_text] returns a
    string, the one the claim names. *)
Lemma to_text_of_text result :
  textual result ->
  exists s, to_text result = PyStr s /\
    match result with
    | LNone => s = EmptyString
    | LObject (Some PyNone) _ => s = EmptyString
    | LObject (Some (PyStr c)) _ => s = c
    | LObject (Some _) _ => True
    | LObject None str_ => s = str_
    end.
Proof.
  destruct result as [|[c|] str_]; simpl.
  - exists EmptyString. auto.
  - intros [-> | H].
    + exists EmptyString. auto.
    + destruct c; try discriminate. exists s. split; auto.
      unfold py_or. simpl. destruct (String.eqb_spec s EmptyString); subst; auto.
  - exists str_. auto.
Qed.

(** C5 (the code departs from the claim).  On a message whose [content] is
    a non-empty list of content blocks [to_text] returns that list, not a
    string; the non-streaming handler relays the list as [value], and the
    streaming handler fails on [full_text += token] and reports
    STREAM_ERROR with the text of the [TypeError]. *)
Theorem to_text_returns_non_string_content :
  to_text block_message = content_blocks /\
  is_str (to_text block_message) = false /\
  map (field "value")
    (delivered (events_of (App3.non_stream_request "5d0c7a1e" request_hi)
                  replies_with_blocks)) = [Some content_blocks] /\
  map (field "code")
    (delivered (events_of (App3.stream_request "5d0c7a1e" request_hi)
                  replies_with_blocks)) =
    [None; Some (PyStr "STREAM_ERROR")] /\
  map (field "detail")
    (delivered (events_of (App3.stream_request "5d0c7a1e" request_hi)
                  replies_with_blocks)) =
    [None;
     Some (PyStr ("can only concatenate str (not " ++ double_quote ++ "list" ++
                  double_quote ++ ") to str"))].
Proof. repeat split. Qed.

(** ** Streaming requests *)

(** C1, as amended.  The events of a streaming request that go out are, in
    order, one [start] (nothing at all when the start cannot be sent), then
    [chunk]s, then at most one terminal event, [end] or [error], and nothing
    after it.  The sequence is complete, with exactly one terminal event,
    when every send of the request goes out and the request does not end on
    a client disconnect; a request that ends by raising, as it does on a
    client disconnect, has delivered no terminal event. *)
Theorem stream_event_sequence cid req w :
  (ordered_sequence
     (event_types (events_of (App3.stream_request cid req) w)) = true /\
   (all_delivered (events_of (App3.stream_request cid req) w) = true ->
    raises_disconnect (fst (App3.stream_request cid req w)) = false ->
    complete_sequence
      (event_types (events_of (App3.stream_request cid req) w)) = true) /\
   (raises (fst (App3.stream_request cid req w)) = true ->
    existsb is_terminal
      (event_types (events_of (App3.stream_request cid req) w)) = false)) /\
  (ordered_sequence
     (event_types (events_of (App2.stream_request cid req) w)) = true /\
   (all_delivered (events_of (App2.stream_request cid req) w) = true ->
    raises_disconnect (fst (App2.stream_request cid req w)) = false ->
    complete_sequence
      (event_types (events_of (App2.stream_request cid req) w)) = true) /\
   (raises (fst (App2.stream_request cid req w)) = true ->
    existsb is_terminal
      (event_types (events_of (App2.stream_request cid req) w)) = false)).
Proof. split; [apply stream_sequence3 | apply stream_sequence2]. Qed.

Lemma stream_event_sequence_witness :
  (all_delivered (events_of (App3.stream_request "5d0c7a1e" request_hi)
                    scenario_c) = true /\
   raises_disconnect (fst (App3.stream_request "5d0c7a1e" request_hi
                             scenario_c)) = false /\
   complete_sequence
     (event_types (events_of (App3.stream_request "5d0c7a1e" request_hi)
                     scenario_c)) = true) /\
  (raises (fst (App2.stream_request "5d0c7a1e" request_hi
                  disconnect_mid_stream)) = true /\
   existsb is_terminal
     (event_types (events_of (App2.stream_request "5d0c7a1e" request_hi)
                     disconnect_mid_stream)) = false).
Proof.
  split.
  - split; [reflexivity|]. split; [reflexivity|].
    apply (stream_event_sequence "5d0c7a1e" request_hi scenario_c);
      reflexivity.
  - split; [reflexivity|].
    apply (stream_event_sequence "5d0c7a1e" request_hi disconnect_mid_stream).
    reflexivity.
Defined.

(** C1 as worded fails: when the client goes away while a chunk is sent,
    the handler re-raises the disconnect and the request has a [start] and
    no terminal event. *)
Lemma stream_disconnect_has_no_terminal_event :
  event_types (events_of (App3.stream_request "5d0c7a1e" request_hi)
                 disconnect_mid_stream) = ["start"] /\
  complete_sequence
    (event_types (events_of (App3.stream_request "5d0c7a1e" request_hi)
                    disconnect_mid_stream)) = false /\
  fst (App3.stream_request "5d0c7a1e" request_hi disconnect_mid_stream) =
    Raise WebSocketDisconnect.
Proof. repeat split. Qed.

(** C2.  The [full] field of every [end] event of a streaming request is
    the concatenation, in order, of the [value] fields of the request's
    [chunk] events, all of which went out. *)
Theorem end_full_is_concatenation_of_chunks cid req w m :
  (In m (filter (has_type "end")
           (sent (events_of (App3.stream_request cid req) w))) ->
   exists vs,
     chunk_values (sent (events_of (App3.stream_request cid req) w)) =
       map (fun v => Some (PyStr v)) vs /\
     chunk_values (delivered (events_of (App3.stream_request cid req) w)) =
       map (fun v => Some (PyStr v)) vs /\
     field "full" m = Some (PyStr (join vs))) /\
  (In m (filter (has_type "end")
           (sent (events_of (App2.stream_request cid req) w))) ->
   exists vs,
     chunk_values (sent (events_of (App2.stream_request cid req) w)) =
       map (fun v => Some (PyStr v)) vs /\
     chunk_values (delivered (events_of (App2.stream_request cid req) w)) =
       map (fun v => Some (PyStr v)) vs /\
     field "full" m = Some (PyStr (join vs))).
Proof. split; [apply end_full3 | apply end_full2]. Qed.

Lemma end_full_is_concatenation_of_chunks_witness :
  (In (PyDict [("type", PyStr "end"); ("request_id", PyStr "5d0c7a1e");
               ("full", PyStr "Hello"); ("status", PyStr "COMPLETED");
               ("status_code", PyInt HTTP_200_OK)])
      (filter (has_type "end")
         (sent (events_of (App3.stream_request "conn" request_hi)
                  scenario_c))) /\
   exists vs,
     chunk_values (sent (events_of (App3.stream_request "conn" request_hi)
                           scenario_c)) = map (fun v => Some (PyStr v)) vs /\
     chunk_values (delivered (events_of (App3.stream_request "conn" request_hi)
                                scenario_c)) =
       map (fun v => Some (PyStr v)) vs /\
     Some (PyStr "Hello") = Some (PyStr (join vs))) /\
  (In (PyDict [("type", PyStr "end"); ("request_id", PyStr "5d0c7a1e");
               ("full", PyStr "Hello")])
      (filter (has_type "end")
         (sent (events_of (App2.stream_request "conn" request_hi)
                  scenario_c))) /\
   exists vs,
     chunk_values (sent (events_of (App2.stream_request "conn" request_hi)
                           scenario_c)) = map (fun v => Some (PyStr v)) vs /\
     chunk_values (delivered (events_of (App2.stream_request "conn" request_hi)
                                scenario_c)) =
       map (fun v => Some (PyStr v)) vs /\
     Some (PyStr "Hello") = Some (PyStr (join vs))).
Proof.
  assert (H3 : In (PyDict [("type", PyStr "end");
                           ("request_id", PyStr "5d0c7a1e");
                           ("full", PyStr "Hello");
                           ("status", PyStr "COMPLETED");
                           ("status_code", PyInt HTTP_200_OK)])
                 (filter (has_type "end")
                    (sent (events_of (App3.stream_request "conn" request_hi)
                             scenario_c))))
    by (vm_compute; left; reflexivity).
  assert (H2 : In (PyDict [("type", PyStr "end");
                           ("request_id", PyStr "5d0c7a1e");
                           ("full", PyStr "Hello")])
                 (filter (has_type "end")
                    (sent (events_of (App2.stream_request "conn" request_hi)
                             scenario_c))))
    by (vm_compute; left; reflexivity).
  split.
  - split; [exact H3|].
    exact (proj1 (end_full_is_concatenation_of_chunks "conn" request_hi
                    scenario_c _) H3).
  - split; [exact H2|].
    exact (proj2 (end_full_is_concatenation_of_chunks "conn" request_hi
                    scenario_c _) H2).
Defined.

(** C10.  When the stream ends after chunks that all normalise to the empty
    string (or after none) and the two sends go out, the request sends
    [start] and then [end] with the empty [full], and its pass ends with
    [Continue]: the close code is untouched and the loop goes on to the
    next frame. *)
Theorem empty_stream_start_then_end cid req w chunks :
  hd ([], None) (stream_script w) = (chunks, None) ->
  Forall (fun c => to_text c = PyStr EmptyString) chunks ->
  hd None (send_script w) = None ->
  hd None (tl (send_script w)) = None ->
  (event_types (events_of (App3.stream_request cid req) w) = ["start"; "end"] /\
   map (field "full") (delivered (events_of (App3.stream_request cid req) w)) =
     [None; Some (PyStr EmptyString)] /\
   fst (App3.stream_request cid req w) = Ok Continue /\
   close_code (snd (App3.stream_request cid req w)) = close_code w) /\
  (event_types (events_of (App2.stream_request cid req) w) = ["start"; "end"] /\
   map (field "full") (delivered (events_of (App2.stream_request cid req) w)) =
     [None; Some (PyStr EmptyString)] /\
   fst (App2.stream_request cid req w) = Ok Continue /\
   close_code (snd (App2.stream_request cid req w)) = close_code w).
Proof.
  intros. split; [eapply empty_stream3 | eapply empty_stream2]; eassumption.
Qed.

Lemma empty_stream_start_then_end_witness :
  event_types (events_of (App3.stream_request "5d0c7a1e" request_hi)
                 silent_stream) = ["start"; "end"] /\
  map (field "full")
    (delivered (events_of (App3.stream_request "5d0c7a1e" request_hi)
                  silent_stream)) = [None; Some (PyStr EmptyString)] /\
  fst (App3.stream_request "5d0c7a1e" request_hi silent_stream) =
    Ok Continue /\
  close_code (snd (App3.stream_request "5d0c7a1e" request_hi silent_stream)) =
    close_code silent_stream.
Proof.
  refine (proj1 (empty_stream_start_then_end "5d0c7a1e" request_hi
                   silent_stream
                   [LNone; LObject (Some PyNone) "content=None";
                    LObject (Some (PyStr EmptyString)) "content=''";
                    plain_text EmptyString]
                   _ _ _ _)).
  - reflexivity.
  - repeat constructor.
  - reflexivity.
  - reflexivity.
Defined.

(** ** The connection *)

(** C7.  On every connection of app3.py, however the receive loop ends,
    the handler returns normally after exactly one close attempt, the last
    thing it does, whatever that attempt raises, and nothing before it
    closes the transport.  The attempt carries the decision that was
    recorded: the close code the loop left behind, or the supervisor's 1011
    after an unexpected exception; that is the code of the report that went
    out (1009, 1013 or 1011) and, when none did, 1000 or 1011.  A pass of
    either loop makes no close attempt itself: after its receive it only
    sends, talks to the model and takes or releases the lock, and once its
    report has gone out it records the code and leaves the loop. *)
Theorem one_close_attempt_per_connection frames w :
  (fst (App3.ws_chat_non_stream frames w) = Ok tt /\
   exists evs code o,
     events_of (App3.ws_chat_non_stream frames) w = evs ++ [EvClose code o] /\
     existsb is_close evs = false /\
     evs = EvAccept ::
           events_of (while_true (App3.non_stream_pass (conn_id_of w)) frames)
             (loop_start w) /\
     code = recorded_decision
              (while_true (App3.non_stream_pass (conn_id_of w)) frames
                 (loop_start w)) /\
     match terminal_report evs with
     | Some c => code = c
     | None => code = WS_1000_NORMAL_CLOSURE \/ code = WS_1011_INTERNAL_ERROR
     end) /\
  (fst (App3.ws_chat_stream frames w) = Ok tt /\
   exists evs code o,
     events_of (App3.ws_chat_stream frames) w = evs ++ [EvClose code o] /\
     existsb is_close evs = false /\
     evs = EvAccept ::
           events_of (while_true (App3.stream_pass (conn_id_of w)) frames)
             (loop_start w) /\
     code = recorded_decision
              (while_true (App3.stream_pass (conn_id_of w)) frames
                 (loop_start w)) /\
     match terminal_report evs with
     | Some c => code = c
     | None => code = WS_1000_NORMAL_CLOSURE \/ code = WS_1011_INTERNAL_ERROR
     end) /\
  (forall cid,
     report_pass_spec (App3.non_stream_pass cid) /\
     report_pass_spec (App3.stream_pass cid)).
Proof.
  split; [|split].
  - exact (supervisor_executes_decision App3.non_stream_pass frames w
             non_stream_report3).
  - exact (supervisor_executes_decision App3.stream_pass frames w
             stream_report3).
  - intros cid. split; [apply non_stream_report3 | apply stream_report3].
Qed.

(** The same holds in app2.py, whose close code is always 1000. *)
Lemma app2_closes_once frames w :
  (fst (App2.ws_chat_non_stream frames w) = Ok tt /\
   exists evs code o,
     events_of (App2.ws_chat_non_stream frames) w = evs ++ [EvClose code o] /\
     existsb is_close evs = false) /\
  (fst (App2.ws_chat_stream frames w) = Ok tt /\
   exists evs code o,
     events_of (App2.ws_chat_stream frames) w = evs ++ [EvClose code o] /\
     existsb is_close evs = false).
Proof.
  split.
  - apply (connection_closes_once _ _ _ (ws_chat_non_stream_spec2 frames)).
  - apply (connection_closes_once _ _ _ (ws_chat_stream_spec2 frames)).
Qed.

(** The handler of app.py closes nothing when the client disconnects. *)
Example app1_disconnect_without_close :
  events_of (App1.ws_chat []) answers_hello =
    [EvAccept; EvRecv (Raise WebSocketDisconnect)].
Proof. reflexivity. Qed.

(** C9.  On every connection the log respects the lock: the handler
    receives only while the lock is free, takes it only when it is free,
    starts at most one model request while it holds it, sends the events of
    a request under it and releases it before the next receive; and the
    frames are received in their order of arrival. *)
Theorem single_flight_in_arrival_order frames w :
  (single_flight (events_of (App3.ws_chat_stream frames) w) = true /\
   exists n, received (events_of (App3.ws_chat_stream frames) w) =
             firstn n (frames ++ [Raise WebSocketDisconnect])) /\
  (single_flight (events_of (App3.ws_chat_non_stream frames) w) = true /\
   exists n, received (events_of (App3.ws_chat_non_stream frames) w) =
             firstn n (frames ++ [Raise WebSocketDisconnect])) /\
  (single_flight (events_of (App2.ws_chat_stream frames) w) = true /\
   exists n, received (events_of (App2.ws_chat_stream frames) w) =
             firstn n (frames ++ [Raise WebSocketDisconnect])) /\
  (single_flight (events_of (App2.ws_chat_non_stream frames) w) = true /\
   exists n, received (events_of (App2.ws_chat_non_stream frames) w) =
             firstn n (frames ++ [Raise WebSocketDisconnect])).
Proof.
  repeat split.
  all: first
    [ apply (connection_single_flight _ _ _ (ws_chat_stream_spec3 frames))
    | apply (connection_single_flight _ _ _ (ws_chat_non_stream_spec3 frames))
    | apply (connection_single_flight _ _ _ (ws_chat_stream_spec2 frames))
    | apply (connection_single_flight _ _ _ (ws_chat_non_stream_spec2 frames)) ].
Qed.

(** [single_flight] refuses a second model request under the lock, a
    receive under the lock, and an event of a request outside it. *)
Example single_flight_refuses :
  single_flight [EvAcquire; EvInvoke "a" (Ok LNone); EvInvoke "b" (Ok LNone);
                 EvRelease] = false /\
  single_flight [EvAcquire; EvStreamOpen "a"; EvRecv (Ok PyNone); EvRelease]
    = false /\
  single_flight [EvAcquire; EvAcquire] = false /\
  single_flight [EvSend (PyDict [("type", PyStr "chunk");
                                 ("request_id", PyStr "r")]) None] = false /\
  single_flight [EvAcquire; EvInvoke "a" (Ok LNone)] = false.
Proof. repeat split. Qed.

(** C6, as amended.  In app3.py, when the model call times out within its
    60 seconds, or the stream within its 120 seconds, the request sends
    exactly one error event, with code LLM_TIMEOUT or STREAM_TIMEOUT; once
    that event has gone out the pass ends the loop with close code 1013,
    and the one close attempt of the connection carries 1013.  In app2.py
    the same error event is sent and the pass ends with [Continue]. *)
Theorem timeout_closes_with_try_again_later cid rid req frames w :
  (fst (wait_for 60 (ainvoke (message req)) w) = Raise TimeoutError ->
   error_codes (sent (events_of (App3.non_stream_reply cid rid req) w)) =
     [Some (PyStr "LLM_TIMEOUT")] /\
   (timeout_reported (events_of (App3.non_stream_reply cid rid req) w) = true ->
    fst (App3.non_stream_reply cid rid req w) = Ok Break /\
    close_code (snd (App3.non_stream_reply cid rid req w)) =
      WS_1013_TRY_AGAIN_LATER)) /\
  (fst (wait_for 120 (App3.stream_tokens rid req) w) = Raise TimeoutError ->
   error_codes (sent (events_of (App3.stream_reply cid rid req) w)) =
     [Some (PyStr "STREAM_TIMEOUT")] /\
   (timeout_reported (events_of (App3.stream_reply cid rid req) w) = true ->
    fst (App3.stream_reply cid rid req w) = Ok Break /\
    close_code (snd (App3.stream_reply cid rid req w)) =
      WS_1013_TRY_AGAIN_LATER)) /\
  (timeout_reported (events_of (App3.ws_chat_non_stream frames) w) = true ->
   exists evs o,
     events_of (App3.ws_chat_non_stream frames) w =
       evs ++ [EvClose WS_1013_TRY_AGAIN_LATER o] /\
     existsb is_close evs = false) /\
  (timeout_reported (events_of (App3.ws_chat_stream frames) w) = true ->
   exists evs o,
     events_of (App3.ws_chat_stream frames) w =
       evs ++ [EvClose WS_1013_TRY_AGAIN_LATER o] /\
     existsb is_close evs = false) /\
  (fst (wait_for 60 (ainvoke (message req)) w) = Raise TimeoutError ->
   error_codes (sent (events_of (App2.non_stream_reply cid rid req) w)) =
     [Some (PyStr "LLM_TIMEOUT")] /\
   (timeout_reported (events_of (App2.non_stream_reply cid rid req) w) = true ->
    fst (App2.non_stream_reply cid rid req w) = Ok Continue /\
    close_code (snd (App2.non_stream_reply cid rid req w)) = close_code w)) /\
  (fst (wait_for 120 (App2.stream_tokens rid req) w) = Raise TimeoutError ->
   error_codes (sent (events_of (App2.stream_reply cid rid req) w)) =
     [Some (PyStr "STREAM_TIMEOUT")] /\
   (timeout_reported (events_of (App2.stream_reply cid rid req) w) = true ->
    fst (App2.stream_reply cid rid req w) = Ok Continue /\
    close_code (snd (App2.stream_reply cid rid req w)) = close_code w)).
Proof.
  split; [apply non_stream_timeout3|].
  split; [apply stream_timeout3|].
  split; [apply (connection_timeout_code _ _ _
                   (ws_chat_non_stream_spec3 frames)); reflexivity|].
  split; [apply (connection_timeout_code _ _ _
                   (ws_chat_stream_spec3 frames)); reflexivity|].
  split; [apply non_stream_timeout2 | apply stream_timeout2].
Qed.

Lemma timeout_closes_with_try_again_later_witness :
  (fst (wait_for 60 (ainvoke "Hi") timeout_then_reply) = Raise TimeoutError /\
   error_codes (sent (events_of
                        (App3.non_stream_reply "5d0c7a1e" "9b1c2d3e" request_hi)
                        timeout_then_reply)) =
     [Some (PyStr "LLM_TIMEOUT")]) /\
  (fst (wait_for 120 (App3.stream_tokens "9b1c2d3e" request_hi)
          stream_times_out) = Raise TimeoutError /\
   error_codes (sent (events_of
                        (App3.stream_reply "5d0c7a1e" "9b1c2d3e" request_hi)
                        stream_times_out)) =
     [Some (PyStr "STREAM_TIMEOUT")]) /\
  (timeout_reported
     (events_of (App3.ws_chat_non_stream [Ok example_message; Ok example_message])
        timeout_then_reply) = true /\
   exists evs o,
     events_of (App3.ws_chat_non_stream [Ok example_message; Ok example_message])
       timeout_then_reply = evs ++ [EvClose WS_1013_TRY_AGAIN_LATER o] /\
     existsb is_close evs = false) /\
  (timeout_reported
     (events_of (App3.ws_chat_stream [Ok example_message]) stream_times_out) =
     true /\
   exists evs o,
     events_of (App3.ws_chat_stream [Ok example_message]) stream_times_out =
       evs ++ [EvClose WS_1013_TRY_AGAIN_LATER o] /\
     existsb is_close evs = false) /\
  (timeout_reported
     (events_of (App2.non_stream_reply "5d0c7a1e" "9b1c2d3e" request_hi)
        timeout_then_reply) = true /\
   fst (App2.non_stream_reply "5d0c7a1e" "9b1c2d3e" request_hi
          timeout_then_reply) = Ok Continue) /\
  (timeout_reported
     (events_of (App2.stream_reply "5d0c7a1e" "9b1c2d3e" request_hi)
        stream_times_out) = true /\
   fst (App2.stream_reply "5d0c7a1e" "9b1c2d3e" request_hi
          stream_times_out) = Ok Continue).
Proof.
  pose proof (timeout_closes_with_try_again_later
                "5d0c7a1e" "9b1c2d3e" request_hi
                [Ok example_message; Ok example_message] timeout_then_reply)
    as (Hns & _ & Hc & _ & Hns2 & _).
  pose proof (timeout_closes_with_try_again_later
                "5d0c7a1e" "9b1c2d3e" request_hi
                [Ok example_message] stream_times_out)
    as (_ & Hs & _ & Hcs & _ & Hs2).
  split; [split; [reflexivity | exact (proj1 (Hns eq_refl))]|].
  split; [split; [reflexivity | exact (proj1 (Hs eq_refl))]|].
  split; [split; [reflexivity | exact (Hc eq_refl)]|].
  split; [split; [reflexivity | exact (Hcs eq_refl)]|].
  split; [split; [reflexivity
                 | exact (proj1 (proj2 (Hns2 eq_refl) eq_refl))]|].
  split; [reflexivity | exact (proj1 (proj2 (Hs2 eq_refl) eq_refl))].
Defined.

(** C6 as worded fails in app2.py: the model times out, the time-out is
    reported, the handler serves the next frame, and the connection is
    closed with 1000 when the client leaves. *)
Lemma app2_timeout_leaves_connection_open :
  In (EvInvoke "Hi" (Raise TimeoutError))
     (events_of (App2.ws_chat_non_stream [Ok example_message; Ok example_message])
        timeout_then_reply) /\
  timeout_reported
    (events_of (App2.ws_chat_non_stream [Ok example_message; Ok example_message])
       timeout_then_reply) = true /\
  event_types
    (events_of (App2.ws_chat_non_stream [Ok example_message; Ok example_message])
       timeout_then_reply) = ["error"; "response"] /\
  filter is_close
    (events_of (App2.ws_chat_non_stream [Ok example_message; Ok example_message])
       timeout_then_reply) = [EvClose WS_1000_NORMAL_CLOSURE None].
Proof. vm_compute. repeat split. right. right. right. left. reflexivity. Qed.

(** C8 (the code departs from the claim).  The model times out and the
    transport refuses the LLM_TIMEOUT report: the failure leaves the
    request, reaches the supervisor as an unexpected exception and turns
    the close code from 1013 into 1011.  The STREAM_ERROR report is the
    one whose failure is swallowed. *)
Theorem failed_timeout_report_escapes :
  fst (App3.non_stream_request "5d0c7a1e" request_hi timeout_report_fails) =
    Raise (OtherException "RuntimeError") /\
  events_of (App3.ws_chat_non_stream [Ok example_message])
    timeout_report_fails =
    [EvAccept; EvRecv (Ok example_message); EvAcquire;
     EvInvoke "Hi" (Raise TimeoutError);
     EvSend (PyDict [("type", PyStr "error"); ("code", PyStr "LLM_TIMEOUT");
                     ("request_id", PyStr "9b1c2d3e");
                     ("detail", PyStr "LLM call exceeded 60 seconds.")])
       (Some (OtherException "RuntimeError"));
     EvRelease; EvClose WS_1011_INTERNAL_ERROR None] /\
  fst (App3.stream_request "5d0c7a1e" request_hi stream_error_report_fails) =
    Ok Break /\
  close_code (snd (App3.stream_request "5d0c7a1e" request_hi
                     stream_error_report_fails)) = WS_1011_INTERNAL_ERROR.
Proof. repeat split. Qed.

(** * Further properties *)

(** ** Text normaliser *)

(** X1.  [to_text] gives a falsy value exactly when it gives the empty
    string: the chunk loop ([if not token: continue]) skips the chunks that
    normalise to the empty string and no others. *)
Theorem to_text_falsy_iff_empty result :
  truthy (to_text result) = false <-> to_text result = PyStr EmptyString.
Proof.
  split.
  - destruct result as [|[c|] s]; simpl; auto.
    + unfold py_or. destruct (truthy c) eqn:E; auto. congruence.
    + destruct (String.eqb_spec s EmptyString); subst; auto. discriminate.
  - intros ->. reflexivity.
Qed.

Lemma to_text_falsy_iff_empty_witness :
  truthy (to_text (LObject (Some PyNone) "content=None")) = false /\
  to_text (LObject (Some PyNone) "content=None") = PyStr EmptyString.
Proof.
  split; [reflexivity|].
  apply (proj1 (to_text_falsy_iff_empty (LObject (Some PyNone) "content=None"))).
  reflexivity.
Defined.

(** X2.  [to_text] and the inline conversion of app.py agree on every value
    but [None] and a value whose [content] is falsy; there app.py gives the
    text [None] and the content itself, where [to_text] gives the empty
    string. *)
Theorem to_text_refines_inline_conversion result :
  (result <> LNone ->
   (forall c s, result = LObject (Some c) s -> truthy c = true) ->
   to_text result = App1.reply_text result) /\
  (to_text LNone = PyStr EmptyString /\ App1.reply_text LNone = PyStr "None") /\
  (forall c s, truthy c = false ->
     to_text (LObject (Some c) s) = PyStr EmptyString /\
     App1.reply_text (LObject (Some c) s) = c).
Proof.
  split; [|split].
  - intros Hn Hc. destruct result as [|[c|] s]; simpl; auto.
    + congruence.
    + unfold py_or. rewrite (Hc c s eq_refl). reflexivity.
  - split; reflexivity.
  - intros c s Hc. simpl. unfold py_or. rewrite Hc. auto.
Qed.

Lemma to_text_refines_inline_conversion_witness :
  LObject (Some (PyStr "Hi")) "content='Hi'" <> LNone /\
  to_text (LObject (Some (PyStr "Hi")) "content='Hi'") =
    App1.reply_text (LObject (Some (PyStr "Hi")) "content='Hi'").
Proof.
  split; [discriminate|].
  apply (to_text_refines_inline_conversion
           (LObject (Some (PyStr "Hi")) "content='Hi'")).
  - discriminate.
  - intros c s H. inversion H. reflexivity.
Defined.

(** ** Validation *)

(** What the schema accepts: a request is made of exactly the objects whose
    [message] is a string of 1 to 8000 characters. *)
Lemma model_validate_ok data req :
  model_validate data = Ok req <->
  exists d, data = PyDict d /\
            dict_get d "message" = Some (PyStr (message req)) /\
            (1 <= len (message req) <= 8000)%Z.
Proof.
  unfold model_validate, min_length, max_length. split.
  - destruct data as [| | | | | |d]; try discriminate.
    destruct (dict_get d "message") as [[| | |s| | |]|] eqn:E;
      try discriminate.
    destruct (Z.ltb_spec (len s) 1); try discriminate.
    destruct (Z.ltb_spec 8000 (len s)); try discriminate.
    intros Hq. inversion Hq. subst. exists d. simpl. repeat split; auto; lia.
  - intros (d & -> & Hm & Hlo & Hhi). rewrite Hm.
    destruct (Z.ltb_spec (len (message req)) 1); [lia|].
    destruct (Z.ltb_spec 8000 (len (message req))); [lia|].
    destruct req; reflexivity.
Qed.

(** X3.  The receive step of the handlers of app3.py and
    [receive_chat_request] of app2.py produce a request for exactly the
    frames that carry an object whose [message] is a string of 1 to 8000
    characters: the request holds that string unchanged, and nothing else
    (a failed receive, a refused payload, the classification of its errors)
    yields one.  For such a frame the step does nothing but receive: it
    sends nothing and leaves the close code as it was. *)
Theorem request_is_produced_exactly_for_valid_payloads f w req :
  (fst (App3.non_stream_receive f w) = Ok (inl req) <-> valid_frame f req) /\
  (fst (App3.stream_receive f w) = Ok (inl req) <-> valid_frame f req) /\
  (fst (App2.receive_chat_request f w) = Ok (Some req) <->
   valid_frame f req) /\
  (valid_frame f req ->
   events_of (App3.non_stream_receive f) w = [EvRecv f] /\
   events_of (App3.stream_receive f) w = [EvRecv f] /\
   events_of (App2.receive_chat_request f) w = [EvRecv f] /\
   close_code (snd (App3.non_stream_receive f w)) = close_code w /\
   close_code (snd (App3.stream_receive f w)) = close_code w).
Proof.
  assert (Hvalid : valid_frame f req ->
            exists data, f = Ok data /\ model_validate data = Ok req).
  { intros (d & -> & Hd & Hlen). exists (PyDict d). split; [reflexivity|].
    apply model_validate_ok. exists d. auto. }
  assert (Hmade : forall data,
            f = Ok data -> model_validate data = Ok req -> valid_frame f req).
  { intros data -> Hv. apply model_validate_ok in Hv.
    destruct Hv as (d & -> & Hd & Hlen). exists d. auto. }
  unfold events_of, App3.non_stream_receive, App3.stream_receive,
    App2.receive_chat_request.
  repeat split.
  1, 3, 5:
    destruct f as [data|e];
    [ destruct (model_validate data) as [r|e] eqn:E;
      [ conn_eval; rewrite E; conn_eval; intros H; inversion H; subst;
        exact (Hmade data eq_refl E)
      | conn_eval; rewrite E; crunch_pass; cbn [fst]; discriminate ]
    | crunch_pass; cbn [fst]; discriminate ].
  1, 2, 3:
    intros Hf; destruct (Hvalid Hf) as (data & -> & Hv);
    conn_eval; rewrite Hv; reflexivity.
  all: destruct (Hvalid H) as (data & -> & Hv);
    conn_eval; rewrite Hv; settle_log; reflexivity.
Qed.

Lemma request_is_produced_exactly_for_valid_payloads_witness :
  valid_frame (Ok example_message) request_hi /\
  fst (App3.non_stream_receive (Ok example_message) answers_hello) =
    Ok (inl request_hi) /\
  events_of (App3.stream_receive (Ok example_message)) answers_hello =
    [EvRecv (Ok example_message)].
Proof.
  assert (H : valid_frame (Ok example_message) request_hi).
  { exists [("message", PyStr "Hi")].
    split; [reflexivity|]. split; [reflexivity|]. vm_compute.
    split; discriminate. }
  split; [exact H|]. split.
  - exact (proj2 (proj1 (request_is_produced_exactly_for_valid_payloads
                           (Ok example_message) answers_hello request_hi)) H).
  - destruct (request_is_produced_exactly_for_valid_payloads
                (Ok example_message) answers_hello request_hi)
      as (_ & _ & _ & Hq).
    exact (proj1 (proj2 (Hq H))).
Defined.

(** X4.  Whatever the payload, validation either yields a request or raises
    a validation error, and [is_message_too_big_error] on its errors returns
    without raising, [True] exactly when the payload is an object whose
    [message] is a string of more than 8000 characters. *)
Theorem too_big_classification_is_exact data :
  match model_validate data with
  | Ok _ => oversized data = false
  | Raise (ValidationError errors) =>
      is_message_too_big_error errors = Ok (oversized data)
  | Raise _ => False
  end.
Proof.
  unfold model_validate, oversized, min_length, max_length.
  destruct data as [| | | | | |d]; try reflexivity.
  destruct (dict_get d "message") as [[| | |s| | |]|]; try reflexivity.
  destruct (Z.ltb_spec (len s) 1).
  - destruct (Z.ltb_spec 8000 (len s)); [lia|reflexivity].
  - destruct (Z.ltb 8000 (len s)); reflexivity.
Qed.

(** X5.  [is_message_too_big_error] scans the entries in order and stops at
    the first that matches or that it cannot read: on two lists put end to
    end it gives what it gives on the first, unless that is [False], and
    then what it gives on the second. *)
Theorem too_big_scan_composes a b :
  is_message_too_big_error (a ++ b) =
  match is_message_too_big_error a with
  | Ok false => is_message_too_big_error b
  | r => r
  end.
Proof.
  induction a as [|err a IH]; simpl; auto.
  destruct (lowered_field err "type"); auto.
  destruct (lowered_field err "msg"); auto.
  destruct (_ || _); auto.
  destruct (match dict_get err "loc" with Some v => v | None => PyTuple [] end);
    auto; destruct (str_in "message" l); auto.
Qed.

(** What validation and the classification of its errors give together, for
    the passes of the loops below. *)
Lemma model_validate_outcome data :
  match model_validate data with
  | Ok _ => oversized data = false
  | Raise (ValidationError errors) =>
      is_message_too_big_error errors = Ok (oversized data)
  | Raise _ => False
  end.
Proof.
  unfold model_validate, oversized, min_length, max_length.
  destruct data as [| | | | | |d]; try reflexivity.
  destruct (dict_get d "message") as [[| | |s| | |]|]; try reflexivity.
  destruct (Z.ltb_spec (len s) 1).
  - destruct (Z.ltb_spec 8000 (len s)); [lia|reflexivity].
  - destruct (Z.ltb 8000 (len s)); reflexivity.
Qed.

(** ** Validation in app.py *)

Lemma lstrip_all_space s : all_space s = true -> lstrip s = EmptyString.
Proof.
  induction s as [|c t IH]; simpl; auto.
  destruct (isspace c); simpl; auto. discriminate.
Qed.

Lemma lstrip_keeps_text s :
  all_space s = false ->
  exists c t, lstrip s = String c t /\ isspace c = false.
Proof.
  induction s as [|c t IH]; simpl; [discriminate|].
  destruct (isspace c) eqn:E; simpl; auto. exists c, t. auto.
Qed.

Lemma rstrip_keeps_text c t :
  isspace c = false -> rstrip (String c t) <> EmptyString.
Proof.
  intros H. simpl. rewrite H. destruct (rstrip t); discriminate.
Qed.

Lemma strip_empty_iff s : strip s = EmptyString <-> all_space s = true.
Proof.
  unfold strip. split.
  - intros H. destruct (all_space s) eqn:E; auto.
    destruct (lstrip_keeps_text s E) as (c & t & Hl & Hc).
    rewrite Hl in H. destruct (rstrip_keeps_text c t Hc H).
  - intros H. rewrite (lstrip_all_space s H). reflexivity.
Qed.

Lemma refused_iff v :
  App1.refused v = match v with PyStr s => all_space s | _ => true end.
Proof.
  destruct v; simpl; auto.
  destruct (all_space s) eqn:E.
  - rewrite (proj2 (strip_empty_iff s) E). reflexivity.
  - destruct (String.eqb_spec (strip s) EmptyString) as [H|H]; auto.
    rewrite (proj1 (strip_empty_iff s) H) in E. discriminate.
Qed.



(** ** The supervisor of app.py *)

Lemma last_request_event l d :
  forallb request_event l = true -> l <> [] ->
  request_event (last l d) = true.
Proof.
  induction l as [|e l IH]; [congruence|].
  intros H _. simpl in H. apply andb_prop in H. destruct H as [He Hl].
  destruct l as [|e' l']; [exact He|]. apply IH; [exact Hl|discriminate].
Qed.

Lemma last_after_recv f evs :
  forallb request_event evs = true ->
  last (EvRecv f :: evs) EvAccept = EvRecv (Raise WebSocketDisconnect) ->
  evs = [] /\ f = Raise WebSocketDisconnect.
Proof.
  intros Hq Hl. destruct evs as [|e evs].
  - simpl in Hl. inversion Hl. auto.
  - change (last (EvRecv f :: e :: evs) EvAccept)
      with (last (e :: evs) EvAccept) in Hl.
    assert (H : request_event (last (e :: evs) EvAccept) = true)
      by (apply last_request_event; [exact Hq|discriminate]).
    rewrite Hl in H. discriminate.
Qed.

Lemma last_app_cons {A} (a : list A) x b d :
  last (a ++ x :: b) d = last (x :: b) d.
Proof.
  induction a as [|y a IH]; [reflexivity|].
  rewrite <- IH. simpl app. remember (a ++ x :: b) as l eqn:E.
  destruct l; [destruct a; discriminate | reflexivity].
Qed.

Section PlainLoop.
Variable body : result pyval -> M control.
Hypothesis body_spec : plain_pass_spec body.

Lemma plain_while_true_spec frames : plain_loop_spec (while_true body frames).
Proof.
  induction frames as [|f rest IH]; intros w; simpl.
  - destruct (body_spec (Raise WebSocketDisconnect) w) as (evs & Hl & Hq & Hd).
    destruct (request_events_quiet _ Hq) as [_ Hc].
    exists (Raise WebSocketDisconnect), evs. unfold bind.
    specialize (Hd eq_refl).
    destruct (body (Raise WebSocketDisconnect) w) as [[c|e] w1];
      cbn [fst snd ret] in *; try discriminate.
    split; [exact Hl|]. split; [exact Hc|]. intros _. congruence.
  - destruct (body_spec f w) as (evs & Hl & Hq & Hd).
    destruct (request_events_quiet _ Hq) as [_ Hc].
    unfold bind.
    destruct (body f w) as [[[|]|e] w1]; cbn [fst snd ret] in *.
    + destruct (IH w1) as (f2 & evs2 & Hl2 & Hc2 & Hd2).
      exists f, (evs ++ EvRecv f2 :: evs2).
      rewrite Hl2, Hl, <- !app_assoc. split; [reflexivity|]. split.
      * change (EvRecv f :: evs ++ EvRecv f2 :: evs2)
          with ((EvRecv f :: evs) ++ EvRecv f2 :: evs2).
        rewrite existsb_close_app. simpl. rewrite Hc. exact Hc2.
      * intros Hlast. apply Hd2. rewrite <- Hlast. symmetry.
        apply (last_app_cons (EvRecv f :: evs)).
    + exists f, evs. split; [exact Hl|]. split; [exact Hc|].
      intros Hlast. destruct (last_after_recv _ _ Hq Hlast) as [_ Hf].
      specialize (Hd Hf). discriminate.
    + exists f, evs. split; [exact Hl|]. split; [exact Hc|].
      intros Hlast. destruct (last_after_recv _ _ Hq Hlast) as [_ Hf].
      specialize (Hd Hf). congruence.
Qed.
End PlainLoop.

Lemma app1_stream_chunks_quiet chunks stop : forall w,
  exists evs,
    log (snd (App1Stream.stream_chunks chunks stop w)) = log w ++ evs /\
    forallb request_event evs = true.
Proof.
  induction chunks as [|chunk rest IH]; intros w; simpl.
  - exists []. rewrite app_nil_r. destruct stop; auto.
  - destruct (truthy (App1.reply_text chunk)); simpl; [|apply IH].
    unfold bind at 1. unfold iadd_full_text.
    destruct (App1.reply_text chunk) as [| | |s| | |];
      try (exists []; simpl; rewrite ?app_nil_r; auto; fail).
    conn_eval. destruct (hd None (send_script w)) as [e|].
    + eexists. cbn. split; reflexivity.
    + match goal with
      | |- context [App1Stream.stream_chunks _ _ ?w'] =>
          destruct (IH w') as (evs & Hl & Hq)
      end.
      eexists. rewrite Hl. cbn. rewrite <- app_assoc.
      split; [reflexivity|]. exact Hq.
Qed.

Lemma app1_pass_spec : plain_pass_spec App1.pass.
Proof.
  intros f w. unfold App1.pass. conn_eval.
  destruct f as [data|e]; conn_eval.
  2:{ exists []. settle_log. repeat split. congruence. }
  destruct (App1.get_message data) as [v|e]; conn_eval.
  2:{ exists []. settle_log. repeat split. discriminate. }
  destruct (App1.refused v); conn_eval.
  - destruct (hd None (send_script w)); settle_log; eexists;
      (split; [reflexivity|]); split; auto; discriminate.
  - destruct (hd (Ok LNone) (invoke_script w)); conn_eval;
      [destruct (hd None (send_script w))|]; settle_log; eexists;
      (split; [reflexivity|]); split; auto; discriminate.
Qed.

Lemma app1_stream_pass_spec : plain_pass_spec App1Stream.pass.
Proof.
  intros f w. unfold App1Stream.pass. conn_eval.
  destruct f as [data|e]; conn_eval.
  2:{ exists []. settle_log. repeat split. congruence. }
  destruct (App1.get_message data) as [v|e]; conn_eval.
  2:{ exists []. settle_log. repeat split. discriminate. }
  destruct (App1.refused v); conn_eval.
  - destruct (hd None (send_script w)); settle_log; eexists;
      (split; [reflexivity|]); split; auto; discriminate.
  - destruct (hd None (send_script w)); conn_eval.
    + settle_log; eexists; (split; [reflexivity|]); split; auto;
        discriminate.
    + match goal with
      | |- context [App1Stream.stream_chunks ?c ?s ?W] =>
          destruct (app1_stream_chunks_quiet c s W) as (evs & Hl & Hq);
          destruct (App1Stream.stream_chunks c s W) as [[[]|e] w1]
      end; cbn [fst snd log add_log] in Hl; conn_eval.
      * destruct (hd None (send_script w1)); settle_log; eexists;
          (split; [reflexivity|]); cbn; rewrite forallb_app, Hq;
          split; auto; discriminate.
      * settle_log. eexists. split; [reflexivity|]. cbn. rewrite Hq.
        split; auto; discriminate.
Qed.

Lemma plain_connection body frames w :
  plain_pass_spec body ->
  plain_connection_spec
    (accept ;;
     try_except
       (while_true body frames)
       (fun e =>
          match e with
          | WebSocketDisconnect => ret tt
          | _ => try_except (close WS_1011_INTERNAL_ERROR) (fun _ => ret tt)
          end)) w.
Proof.
  intros Hb. unfold plain_connection_spec, events_of. conn_eval.
  match goal with
  | |- context [while_true body frames ?W] =>
      destruct (plain_while_true_spec body Hb frames W)
        as (f0 & evs & Hl & Hc & Hd);
      destruct (while_true body frames W) as [[[]|e] w1]
  end; cbn [fst snd log add_log] in Hl, Hd.
  - conn_eval. split; [reflexivity|]. exists (EvRecv f0 :: evs).
    split; [exact Hc|]. settle_log. left. reflexivity.
  - destruct e; conn_eval;
      try (destruct (hd None (close_script w1)); conn_eval);
      (split; [reflexivity|]); exists (EvRecv f0 :: evs);
      (split; [exact Hc|]); settle_log;
      first [ left; reflexivity
            | right; split; [eexists; reflexivity|];
              intros Hlast; specialize (Hd Hlast); discriminate ].
Qed.

(** X7.  Both handlers of app.py return normally on every connection and
    either make no close attempt, or make one, as their last action and
    with code 1011; when their loop ended on the client's disconnect at a
    receive they make none. *)
Theorem app1_closes_only_after_failure frames w :
  plain_connection_spec (App1.ws_chat frames) w /\
  plain_connection_spec (App1Stream.ws_chat frames) w.
Proof.
  split.
  - exact (plain_connection App1.pass frames w app1_pass_spec).
  - exact (plain_connection App1Stream.pass frames w app1_stream_pass_spec).
Qed.

(** ** The streaming endpoint of app.py *)

Lemma app1_stream_chunks_spec : forall chunks stop w,
  chunk_loop_spec chunk_msg1 (App1Stream.stream_chunks chunks stop) w.
Proof.
  intros chunks stop.
  induction chunks as [|chunk rest IH]; intros w; unfold chunk_loop_spec.
  - exists [], []. simpl. rewrite app_nil_r, append_nil_r.
    destruct stop; simpl; auto.
  - simpl. destruct (truthy (App1.reply_text chunk)); simpl; [|apply IH].
    unfold bind at 1. unfold iadd_full_text.
    destruct (App1.reply_text chunk) as [| | |s| | |];
      try (exists [], []; simpl; rewrite ?app_nil_r; auto; fail).
    destruct w as [ss cs iv st us cc ft lg].
    destruct ss as [|[e|] ss]; cbn.
    2:{ exists [], [EvSend (chunk_msg1 s) (Some e)].
        cbn. repeat split; eauto. }
    all: match goal with
         | |- context [App1Stream.stream_chunks _ _ ?w'] =>
             destruct (IH w') as (vs & tail & Hl & Hc & Hr)
         end;
      exists (s :: vs), tail; cbn in *; rewrite Hl, Hc;
      rewrite <- !app_assoc; cbn; repeat split; auto;
      destruct (fst _); auto; destruct Hr as [? Hr]; split; auto;
      rewrite Hr; apply append_assoc.
Qed.

Lemma chunk_values1 vs :
  map (field "value") (map chunk_msg1 vs) = map (fun v => Some (PyStr v)) vs.
Proof. induction vs; simpl; congruence. Qed.

(** X8.  In the streaming endpoint of app.py too, the [full] field of every
    [end] event of a pass is the concatenation, in order, of the [value]
    fields of the pass's [chunk] events, all of which went out. *)
Theorem app1_end_full_is_concatenation f w m :
  In m (filter (has_type "end") (sent (events_of (App1Stream.pass f) w))) ->
  exists vs,
    chunk_values (sent (events_of (App1Stream.pass f) w)) =
      map (fun v => Some (PyStr v)) vs /\
    chunk_values (delivered (events_of (App1Stream.pass f) w)) =
      map (fun v => Some (PyStr v)) vs /\
    field "full" m = Some (PyStr (join vs)).
Proof.
  unfold events_of, App1Stream.pass. conn_eval.
  destruct f as [data|e]; conn_eval; [|settle_log; intros []].
  destruct (App1.get_message data) as [v|e]; conn_eval;
    [|settle_log; intros []].
  destruct (App1.refused v); conn_eval.
  { destruct (hd None (send_script w)); settle_log; cbn; intros []. }
  destruct (hd None (send_script w)); conn_eval.
  { settle_log; cbn; intros []. }
  match goal with
  | |- context [App1Stream.stream_chunks ?c ?s ?W] =>
      destruct (app1_stream_chunks_spec c s W) as (vs & tail & Hl & Hc & Hr);
      destruct (App1Stream.stream_chunks c s W) as [[[]|e] w1]
  end; cbn [fst snd log add_log full_text] in Hl, Hr; conn_eval.
  - destruct Hr as [-> Hr].
    destruct (hd None (send_script w1)); settle_log; read_chunks;
      unfold chunk_values; eval_types;
      repeat (rewrite ?filter_other_chunks, ?filter_chunk_chunks
                by reflexivity; eval_types);
      rewrite ?map_app, ?chunk_values1, ?app_nil_r;
      intros [<-|[]]; exists vs; rewrite Hr; repeat split; reflexivity.
  - destruct Hr as [-> | [? ->]]; settle_log; read_chunks;
      eval_types;
      repeat (rewrite ?filter_other_chunks by reflexivity; eval_types);
      intros [].
Qed.

Lemma app1_end_full_is_concatenation_witness :
  In (PyDict [("type", PyStr "end"); ("full", PyStr "Hello")])
     (filter (has_type "end")
        (sent (events_of (App1Stream.pass (Ok example_message)) scenario_c))) /\
  exists vs,
    chunk_values
      (sent (events_of (App1Stream.pass (Ok example_message)) scenario_c)) =
      map (fun v => Some (PyStr v)) vs /\
    chunk_values
      (delivered (events_of (App1Stream.pass (Ok example_message)) scenario_c)) =
      map (fun v => Some (PyStr v)) vs /\
    Some (PyStr "Hello") = Some (PyStr (join vs)).
Proof.
  assert (H : In (PyDict [("type", PyStr "end"); ("full", PyStr "Hello")])
                (filter (has_type "end")
                   (sent (events_of (App1Stream.pass (Ok example_message))
                            scenario_c))))
    by (vm_compute; left; reflexivity).
  split; [exact H|].
  exact (app1_end_full_is_concatenation (Ok example_message) scenario_c _ H).
Defined.

(** ** The request id *)

Lemma chunks_carry_rid (msg : string -> pyval) rid vs :
  (forall v, field_is "request_id" rid (msg v) = true) ->
  forallb (field_is "request_id" rid) (map msg vs) = true.
Proof. intros H. induction vs; simpl; auto. rewrite H. exact IHvs. Qed.

Lemma chunk_msg3_rid rid v : field_is "request_id" rid (chunk_msg3 rid v) = true.
Proof. unfold field_is. simpl. apply String.eqb_refl. Qed.

Lemma chunk_msg2_rid rid v : field_is "request_id" rid (chunk_msg2 rid v) = true.
Proof. unfold field_is. simpl. apply String.eqb_refl. Qed.

Ltac rid_leaf :=
  settle_log; read_chunks;
  rewrite ?forallb_app;
  rewrite ?(chunks_carry_rid _ _ _ (chunk_msg3_rid _)),
    ?(chunks_carry_rid _ _ _ (chunk_msg2_rid _));
  rewrite ?chunk_msg3_rid, ?chunk_msg2_rid;
  cbn [forallb field_is field dict_get String.eqb Ascii.eqb Bool.eqb andb];
  rewrite ?String.eqb_refl; reflexivity.

(** X9.  Every event a request sends, in either endpoint of app3.py and of
    app2.py and whatever the model and the transport do, carries as
    [request_id] the first eight characters of the identifier drawn when the
    request took the lock. *)
Theorem request_events_carry_request_id cid req w :
  forallb (field_is "request_id" (substring 0 8 (hd EmptyString (uuid_script w))))
    (sent (events_of (App3.non_stream_request cid req) w)) = true /\
  forallb (field_is "request_id" (substring 0 8 (hd EmptyString (uuid_script w))))
    (sent (events_of (App3.stream_request cid req) w)) = true /\
  forallb (field_is "request_id" (substring 0 8 (hd EmptyString (uuid_script w))))
    (sent (events_of (App2.non_stream_request cid req) w)) = true /\
  forallb (field_is "request_id" (substring 0 8 (hd EmptyString (uuid_script w))))
    (sent (events_of (App2.stream_request cid req) w)) = true.
Proof.
  repeat split.
  - unfold events_of, App3.non_stream_request, App3.non_stream_reply.
    conn_eval. name_rid.
    destruct (hd (Ok LNone) (invoke_script w)) as [v|e]; crunch; rid_leaf.
  - unfold events_of, App3.stream_request, App3.stream_reply,
      App3.stream_tokens.
    conn_eval. name_rid. split_send; conn_eval; [rid_leaf|].
    run_chunks App3.stream_chunks stream_chunks_spec3; crunch; rid_leaf.
  - unfold events_of, App2.non_stream_request, App2.non_stream_reply.
    conn_eval. name_rid.
    destruct (hd (Ok LNone) (invoke_script w)) as [v|e]; crunch; rid_leaf.
  - unfold events_of, App2.stream_request, App2.stream_reply,
      App2.stream_tokens.
    conn_eval. name_rid. split_send; conn_eval; [rid_leaf|].
    run_chunks App2.stream_chunks stream_chunks_spec2; crunch; rid_leaf.
Qed.

(** ** The relay of a stream *)

Lemma tokens_cons_falsy chunk rest :
  truthy (to_text chunk) = false -> tokens (chunk :: rest) = tokens rest.
Proof. unfold tokens. simpl. intros ->. reflexivity. Qed.

Lemma tokens_cons_truthy chunk rest :
  truthy (to_text chunk) = true ->
  tokens (chunk :: rest) = to_text chunk :: tokens rest.
Proof. unfold tokens. simpl. intros ->. reflexivity. Qed.

Lemma stream_chunks_relay3 : forall rid chunks stop w,
  exists vs tail,
    log (snd (App3.stream_chunks rid chunks stop w)) =
      log w ++ map (fun v => EvSend (chunk_msg3 rid v) None) vs ++ tail /\
    (exists n, map PyStr vs = firstn n (tokens chunks)) /\
    match fst (App3.stream_chunks rid chunks stop w) with
    | Ok _ => tail = [] /\ map PyStr vs = tokens chunks
    | Raise e => tail = [] \/ exists v, tail = [EvSend (chunk_msg3 rid v) (Some e)]
    end.
Proof.
  intros rid chunks stop.
  induction chunks as [|chunk rest IH]; intros w.
  - exists [], []. simpl. rewrite app_nil_r.
    split; [destruct stop; reflexivity|]. split; [exists 0; reflexivity|].
    destruct stop; simpl; auto.
  - simpl. destruct (truthy (to_text chunk)) eqn:Et; simpl.
    2:{ rewrite (tokens_cons_falsy _ _ Et). apply IH. }
    rewrite (tokens_cons_truthy _ _ Et).
    unfold bind at 1. unfold iadd_full_text.
    destruct (to_text chunk) as [| | |s| | |];
      try (exists [], []; simpl; rewrite ?app_nil_r;
           split; [reflexivity|]; split; [exists 0; reflexivity|]; auto; fail).
    conn_eval. destruct (hd None (send_script w)) as [e|].
    + exists [], [EvSend (chunk_msg3 rid s) (Some e)]. cbn.
      split; [reflexivity|]. split; [exists 0; reflexivity|]. eauto.
    + match goal with
      | |- context [App3.stream_chunks _ _ _ ?w'] =>
          destruct (IH w') as (vs & tail & Hl & [n Hn] & Hr)
      end.
      exists (s :: vs), tail. cbn in Hl |- *. rewrite Hl, <- !app_assoc.
      split; [reflexivity|]. split; [exists (S n); simpl; congruence|].
      destruct (fst _); auto. destruct Hr as [? Hr]. split; congruence.
Qed.

Lemma stream_chunks_relay2 : forall rid chunks stop w,
  exists vs tail,
    log (snd (App2.stream_chunks rid chunks stop w)) =
      log w ++ map (fun v => EvSend (chunk_msg2 rid v) None) vs ++ tail /\
    (exists n, map PyStr vs = firstn n (tokens chunks)) /\
    match fst (App2.stream_chunks rid chunks stop w) with
    | Ok _ => tail = [] /\ map PyStr vs = tokens chunks
    | Raise e => tail = [] \/ exists v, tail = [EvSend (chunk_msg2 rid v) (Some e)]
    end.
Proof.
  intros rid chunks stop.
  induction chunks as [|chunk rest IH]; intros w.
  - exists [], []. simpl. rewrite app_nil_r.
    split; [destruct stop; reflexivity|]. split; [exists 0; reflexivity|].
    destruct stop; simpl; auto.
  - simpl. destruct (truthy (to_text chunk)) eqn:Et; simpl.
    2:{ rewrite (tokens_cons_falsy _ _ Et). apply IH. }
    rewrite (tokens_cons_truthy _ _ Et).
    unfold bind at 1. unfold iadd_full_text.
    destruct (to_text chunk) as [| | |s| | |];
      try (exists [], []; simpl; rewrite ?app_nil_r;
           split; [reflexivity|]; split; [exists 0; reflexivity|]; auto; fail).
    conn_eval. destruct (hd None (send_script w)) as [e|].
    + exists [], [EvSend (chunk_msg2 rid s) (Some e)]. cbn.
      split; [reflexivity|]. split; [exists 0; reflexivity|]. eauto.
    + match goal with
      | |- context [App2.stream_chunks _ _ _ ?w'] =>
          destruct (IH w') as (vs & tail & Hl & [n Hn] & Hr)
      end.
      exists (s :: vs), tail. cbn in Hl |- *. rewrite Hl, <- !app_assoc.
      split; [reflexivity|]. split; [exists (S n); simpl; congruence|].
      destruct (fst _); auto. destruct Hr as [? Hr]. split; congruence.
Qed.

Lemma some_values vs :
  map (fun v => Some (PyStr v)) vs = map Some (map PyStr vs).
Proof. rewrite map_map. reflexivity. Qed.

Lemma no_such_chunk (msg : string -> pyval) t vs :
  (forall v, msg_type (msg v) = "chunk") -> String.eqb "chunk" t = false ->
  existsb (has_type t) (map msg vs) = false.
Proof.
  intros H Ht. induction vs; simpl; auto.
  unfold has_type at 1. rewrite H, Ht. exact IHvs.
Qed.

Ltac relay_leaf :=
  settle_log; read_chunks; filter_chunks;
  do 2 (cbn [existsb has_type msg_type field dict_get String.eqb Ascii.eqb
              Bool.eqb orb];
        rewrite ?existsb_app;
        rewrite ?no_such_chunk by reflexivity);
  rewrite ?some_values.

(** X10.  A streaming request relays the tokens of the model's stream (its
    chunks normalised by [to_text], the falsy ones left out) in the order
    of the stream and without gaps: the [value]s of the chunk events that
    went out are a prefix of the tokens, and all of them once an [end] event
    has gone out. *)
Theorem chunks_relay_the_stream_in_order cid req w :
  ((exists n,
      chunk_values (delivered (events_of (App3.stream_request cid req) w)) =
      map Some (firstn n (tokens (fst (hd ([], None) (stream_script w)))))) /\
   (existsb (has_type "end")
      (delivered (events_of (App3.stream_request cid req) w)) = true ->
    chunk_values (delivered (events_of (App3.stream_request cid req) w)) =
    map Some (tokens (fst (hd ([], None) (stream_script w)))))) /\
  ((exists n,
      chunk_values (delivered (events_of (App2.stream_request cid req) w)) =
      map Some (firstn n (tokens (fst (hd ([], None) (stream_script w)))))) /\
   (existsb (has_type "end")
      (delivered (events_of (App2.stream_request cid req) w)) = true ->
    chunk_values (delivered (events_of (App2.stream_request cid req) w)) =
    map Some (tokens (fst (hd ([], None) (stream_script w)))))).
Proof.
  split.
  - unfold events_of, App3.stream_request, App3.stream_reply,
      App3.stream_tokens.
    conn_eval. name_rid. split_send; conn_eval.
    1:{ settle_log. cbn. split; [exists 0; reflexivity|discriminate]. }
    run_chunks App3.stream_chunks stream_chunks_relay3; crunch; relay_leaf.
    all: destruct Hcode as [n Hn].
    all: split; [exists n; congruence|].
    all: first [discriminate | intros _; congruence].
  - unfold events_of, App2.stream_request, App2.stream_reply,
      App2.stream_tokens.
    conn_eval. name_rid. split_send; conn_eval.
    1:{ settle_log. cbn. split; [exists 0; reflexivity|discriminate]. }
    run_chunks App2.stream_chunks stream_chunks_relay2; crunch; relay_leaf.
    all: destruct Hcode as [n Hn].
    all: split; [exists n; congruence|].
    all: first [discriminate | intros _; congruence].
Qed.

(** Scenario C: the stream yields [He] and [llo], and both are relayed. *)
Lemma chunks_relay_the_stream_in_order_witness :
  existsb (has_type "end")
    (delivered (events_of (App3.stream_request "5d0c7a1e" request_hi)
                  scenario_c)) = true /\
  chunk_values
    (delivered (events_of (App3.stream_request "5d0c7a1e" request_hi)
                  scenario_c)) =
    map Some (tokens (fst (hd ([], None) (stream_script scenario_c)))).
Proof.
  assert (H : existsb (has_type "end")
                (delivered (events_of (App3.stream_request "5d0c7a1e" request_hi)
                              scenario_c)) = true)
    by (vm_compute; reflexivity).
  split; [exact H|].
  exact (proj2 (proj1 (chunks_relay_the_stream_in_order
                         "5d0c7a1e" request_hi scenario_c)) H).
Defined.

(** ** One answer per frame *)

Lemma delivered_after_recv f evs :
  delivered ([EvRecv f] ++ evs) = delivered evs.
Proof. reflexivity. Qed.

Lemma all_delivered_after_recv f evs :
  all_delivered ([EvRecv f] ++ evs) = all_delivered evs.
Proof. reflexivity. Qed.

Lemma received_after_recv f evs :
  received evs = [] -> received ([EvRecv f] ++ evs) = [f].
Proof. intros H. simpl. rewrite H. reflexivity. Qed.

Section AnswerLoop.
Variable answered : result pyval -> bool.
Variable keeps : bool.
Variable body : result pyval -> M control.
Hypothesis body_spec : answer_pass_spec answered keeps body.

Lemma answer_pass_end f w evs :
  received evs = [] ->
  (all_delivered evs = true ->
   List.length (delivered evs) = (if answered f then 1 else 0) /\
   (keeps = true -> f <> Raise WebSocketDisconnect ->
    fst (body f w) = Ok Continue)) ->
  fst (body f w) <> Ok Continue ->
  forall rest,
  received ([EvRecv f] ++ evs) =
    firstn 1 ((f :: rest) ++ [Raise WebSocketDisconnect]) /\
  (all_delivered ([EvRecv f] ++ evs) = true ->
   List.length (delivered ([EvRecv f] ++ evs)) =
     List.length (filter answered (received ([EvRecv f] ++ evs))) /\
   (keeps = true -> forallb answered2 (f :: rest) = true ->
    received ([EvRecv f] ++ evs) =
      (f :: rest) ++ [Raise WebSocketDisconnect])).
Proof.
  intros Hr Ha Hne rest.
  rewrite (received_after_recv f evs Hr), delivered_after_recv,
    all_delivered_after_recv.
  split; [reflexivity|]. intros Hall. destruct (Ha Hall) as [Hn Hk].
  rewrite Hn. split.
  - simpl. destruct (answered f); reflexivity.
  - intros Hkeep Hf. simpl in Hf. apply andb_prop in Hf. destruct Hf as [Hf _].
    assert (Hd : f <> Raise WebSocketDisconnect) by (intros ->; discriminate).
    destruct (Hne (Hk Hkeep Hd)).
Qed.

Lemma answer_while_true_spec frames :
  answer_loop_spec answered keeps frames (while_true body frames).
Proof.
  induction frames as [|f rest IH]; intros w; simpl while_true.
  - destruct (body_spec (Raise WebSocketDisconnect) w)
      as (evs & Hl & Hr & Ha).
    exists 1, ([EvRecv (Raise WebSocketDisconnect)] ++ evs).
    assert (Hlog : log (snd ((body (Raise WebSocketDisconnect) ;; ret tt) w)) =
                   log w ++ [EvRecv (Raise WebSocketDisconnect)] ++ evs).
    { unfold bind.
      destruct (body (Raise WebSocketDisconnect) w) as [[c|e] w1]; exact Hl. }
    split; [exact Hlog|].
    rewrite (received_after_recv _ evs Hr), delivered_after_recv,
      all_delivered_after_recv.
    split; [reflexivity|]. intros Hall. destruct (Ha Hall) as [Hn _].
    rewrite Hn. split; [|reflexivity].
    simpl. destruct (answered (Raise WebSocketDisconnect)) eqn:E; reflexivity.
  - destruct (body_spec f w) as (evs & Hl & Hr & Ha).
    unfold bind.
    destruct (body f w) as [[[|]|e] w1] eqn:Eb; cbn [fst snd ret] in *.
    + destruct (IH w1) as (n & evs2 & Hl2 & Hr2 & Ha2).
      exists (S n), (([EvRecv f] ++ evs) ++ evs2).
      rewrite Hl2, Hl, <- !app_assoc.
      split; [reflexivity|].
      rewrite !app_assoc, received_app, delivered_app, all_delivered_app.
      rewrite (received_after_recv f evs Hr), delivered_after_recv,
        all_delivered_after_recv, length_app.
      split; [rewrite Hr2; reflexivity|].
      intros Hall. apply andb_prop in Hall. destruct Hall as [H1 H2].
      destruct (Ha H1) as [Hn _]. destruct (Ha2 H2) as [Hn2 Hk2].
      rewrite Hn, Hn2. split.
      * simpl. destruct (answered f); reflexivity.
      * intros Hk Hf. simpl in Hf. apply andb_prop in Hf.
        destruct Hf as [_ Hf].
        rewrite (Hk2 Hk Hf). reflexivity.
    + exists 1, ([EvRecv f] ++ evs). split; [exact Hl|].
      apply (answer_pass_end f w evs Hr); rewrite Eb; [exact Ha|discriminate].
    + exists 1, ([EvRecv f] ++ evs). split; [exact Hl|].
      apply (answer_pass_end f w evs Hr); rewrite Eb; [exact Ha|discriminate].
Qed.
End AnswerLoop.

Ltac answer_leaf :=
  settle_log; eexists; split; [reflexivity|]; split; [reflexivity|];
  cbn [all_delivered forallb delivered flat_map app List.length answered2
       answered3 raises raises_disconnect negb andb fst];
  intros Hall;
  first [ discriminate Hall
        | split; [reflexivity|];
          intros Hkeep Hf;
          first [reflexivity | discriminate Hkeep | congruence] ].

Lemma non_stream_answers2 cid :
  answer_pass_spec answered2 true (App2.non_stream_pass cid).
Proof.
  intros f w.
  unfold App2.non_stream_pass, App2.receive_chat_request,
    App2.non_stream_request, App2.non_stream_reply.
  destruct f as [data|e].
  - pose proof (model_validate_outcome data) as Hv. conn_eval.
    destruct (model_validate data) as [req|[| |errors|]]; try contradiction;
      crunch_pass; try name_rid; answer_leaf.
  - destruct e; crunch_pass; answer_leaf.
Qed.

Lemma non_stream_answers3 cid :
  answer_pass_spec answered3 false (App3.non_stream_pass cid).
Proof.
  intros f w.
  unfold App3.non_stream_pass, App3.non_stream_receive,
    App3.non_stream_request, App3.non_stream_reply.
  destruct f as [data|e].
  - pose proof (model_validate_outcome data) as Hv. conn_eval.
    destruct (model_validate data) as [req|[| |errors|]]; try contradiction.
    + crunch_pass; try name_rid; answer_leaf.
    + rewrite Hv. destruct (oversized data); crunch_pass; answer_leaf.
  - destruct e as [| |errors|what]; try (crunch_pass; answer_leaf).
    conn_eval. cbn [answered3].
    destruct (is_message_too_big_error errors) as [[|]|e']; crunch_pass;
      answer_leaf.
Qed.

Lemma readers_of_connection evs code o :
  all_delivered ([EvAccept] ++ evs ++ [EvClose code o]) = all_delivered evs /\
  delivered ([EvAccept] ++ evs ++ [EvClose code o]) = delivered evs /\
  received ([EvAccept] ++ evs ++ [EvClose code o]) = received evs.
Proof.
  rewrite !all_delivered_app, !delivered_app, !received_app. cbn.
  rewrite andb_true_r, !app_nil_r. auto.
Qed.

Ltac answer_connection lemma :=
  match goal with
  | |- context [while_true ?body ?frames ?W] =>
      let n := fresh "n" in
      let evs := fresh "evs" in
      let Hl := fresh "Hlog" in
      let Hr := fresh "Hrecv" in
      let Ha := fresh "Hans" in
      let Hall := fresh "Hall" in
      let Hn := fresh "Hn" in
      let Hk := fresh "Hk" in
      let r := fresh "r" in
      let w1 := fresh "w1" in
      destruct (lemma frames W) as (n & evs & Hl & Hr & Ha);
      destruct (while_true body frames W) as [r w1];
      cbn [add_log fst snd send_script close_script invoke_script
           stream_script uuid_script close_code full_text log tl] in Hl;
      destruct r as [[]|[| | |]]; crunch; settle_log;
      match goal with
      | |- context [evs ++ [EvClose ?code ?o]] =>
          destruct (readers_of_connection evs code o) as (-> & -> & ->)
      end;
      intros Hall; destruct (Ha Hall) as [Hn Hk];
      first [exact Hn | split; [exact Hn | exact (Hk eq_refl)]]
  end.

(** X11.  The non-streaming endpoints answer each frame with exactly one
    event.  On a connection whose sends all went out, the events delivered
    are as many as the frames the loop answers among those it received: in
    app2.py every frame but the disconnect, in app3.py every payload
    received (a failure of the receive ends the loop there).  And app2.py keeps
    serving: when no frame is a disconnect, it receives every frame and
    then the disconnect that ends the connection. *)
Theorem non_stream_answers_each_frame_once frames w :
  (all_delivered (events_of (App2.ws_chat_non_stream frames) w) = true ->
   List.length (delivered (events_of (App2.ws_chat_non_stream frames) w)) =
     List.length
       (filter answered2
          (received (events_of (App2.ws_chat_non_stream frames) w))) /\
   (forallb answered2 frames = true ->
    received (events_of (App2.ws_chat_non_stream frames) w) =
      frames ++ [Raise WebSocketDisconnect])) /\
  (all_delivered (events_of (App3.ws_chat_non_stream frames) w) = true ->
   List.length (delivered (events_of (App3.ws_chat_non_stream frames) w)) =
     List.length
       (filter answered3
          (received (events_of (App3.ws_chat_non_stream frames) w)))).
Proof.
  split.
  - unfold events_of, App2.ws_chat_non_stream. conn_eval.
    assert (Hloop := fun fr W =>
      answer_while_true_spec answered2 true _
        (non_stream_answers2 (substring 0 8 (hd EmptyString (uuid_script w))))
        fr W).
    answer_connection Hloop.
  - unfold events_of, App3.ws_chat_non_stream. conn_eval.
    assert (Hloop := fun fr W =>
      answer_while_true_spec answered3 false _
        (non_stream_answers3 (substring 0 8 (hd EmptyString (uuid_script w))))
        fr W).
    answer_connection Hloop.
Qed.

(** One valid frame, answered by the model's reply. *)
Lemma non_stream_answers_each_frame_once_witness :
  (all_delivered
     (events_of (App2.ws_chat_non_stream [Ok example_message]) answers_hello) =
     true /\
   forallb answered2 [Ok example_message] = true /\
   received
     (events_of (App2.ws_chat_non_stream [Ok example_message]) answers_hello) =
     [Ok example_message] ++ [Raise WebSocketDisconnect]) /\
  (all_delivered
     (events_of (App3.ws_chat_non_stream [Ok example_message]) answers_hello) =
     true /\
   List.length
     (delivered
        (events_of (App3.ws_chat_non_stream [Ok example_message])
           answers_hello)) =
   List.length
     (filter answered3
        (received
           (events_of (App3.ws_chat_non_stream [Ok example_message])
              answers_hello)))).
Proof.
  assert (H2 : all_delivered
                 (events_of (App2.ws_chat_non_stream [Ok example_message])
                    answers_hello) = true)
    by (vm_compute; reflexivity).
  assert (H3 : all_delivered
                 (events_of (App3.ws_chat_non_stream [Ok example_message])
                    answers_hello) = true)
    by (vm_compute; reflexivity).
  split.
  - split; [exact H2|]. split; [reflexivity|].
    exact (proj2 (proj1 (non_stream_answers_each_frame_once
                           [Ok example_message] answers_hello) H2) eq_refl).
  - split; [exact H3|].
    exact (proj2 (non_stream_answers_each_frame_once
                    [Ok example_message] answers_hello) H3).
Defined.

(** ** A response that cannot be sent *)

(** X12.  In the non-streaming endpoints the response is sent inside the
    [try] that guards the model call, so a failure of that send is handled
    as a failure of the model: the request sends a second event, LLM_ERROR
    with the text of the exception (LLM_TIMEOUT when the send raised a
    time-out), also when the exception is the client's disconnect.  When
    that event goes out, app3.py leaves the loop with the close code of the
    report and app2.py goes on to the next frame. *)
Theorem failed_response_send_is_reported_as_model_failure cid req w r e :
  hd (Ok LNone) (invoke_script w) = Ok r ->
  hd None (send_script w) = Some e ->
  (map msg_type (sent (events_of (App3.non_stream_request cid req) w)) =
     ["response"; "error"] /\
   map (field "code") (sent (events_of (App3.non_stream_request cid req) w)) =
     [None; Some (PyStr match e with
                        | TimeoutError => "LLM_TIMEOUT"
                        | _ => "LLM_ERROR"
                        end)] /\
   (hd None (tl (send_script w)) = None ->
    fst (App3.non_stream_request cid req w) = Ok Break /\
    close_code (snd (App3.non_stream_request cid req w)) =
      match e with
      | TimeoutError => WS_1013_TRY_AGAIN_LATER
      | _ => WS_1011_INTERNAL_ERROR
      end)) /\
  (map msg_type (sent (events_of (App2.non_stream_request cid req) w)) =
     ["response"; "error"] /\
   map (field "code") (sent (events_of (App2.non_stream_request cid req) w)) =
     [None; Some (PyStr match e with
                        | TimeoutError => "LLM_TIMEOUT"
                        | _ => "LLM_ERROR"
                        end)] /\
   (hd None (tl (send_script w)) = None ->
    fst (App2.non_stream_request cid req w) = Ok Continue /\
    close_code (snd (App2.non_stream_request cid req w)) = close_code w)).
Proof.
  intros Hi Hs. split.
  - unfold events_of, App3.non_stream_request, App3.non_stream_reply.
    conn_eval. rewrite Hi. conn_eval. rewrite Hs. conn_eval.
    destruct e; conn_eval;
      destruct (hd None (tl (send_script w))); settle_log;
      repeat split; try reflexivity; discriminate.
  - unfold events_of, App2.non_stream_request, App2.non_stream_reply.
    conn_eval. rewrite Hi. conn_eval. rewrite Hs. conn_eval.
    destruct e; conn_eval;
      destruct (hd None (tl (send_script w))); settle_log;
      repeat split; try reflexivity; discriminate.
Qed.

(** The client goes away while the response is sent. *)
Lemma failed_response_send_is_reported_as_model_failure_witness :
  map (field "code")
    (sent (events_of (App3.non_stream_request "5d0c7a1e" request_hi)
             (connect [Some WebSocketDisconnect] [] [Ok (plain_text "Hello")]
                [] uuids))) =
    [None; Some (PyStr "LLM_ERROR")] /\
  fst (App3.non_stream_request "5d0c7a1e" request_hi
         (connect [Some WebSocketDisconnect] [] [Ok (plain_text "Hello")]
            [] uuids)) = Ok Break.
Proof.
  destruct (failed_response_send_is_reported_as_model_failure
              "5d0c7a1e" request_hi
              (connect [Some WebSocketDisconnect] [] [Ok (plain_text "Hello")]
                 [] uuids)
              (plain_text "Hello") WebSocketDisconnect eq_refl eq_refl)
    as [(_ & Hc & Hb) _].
  split; [exact Hc|]. exact (proj1 (Hb eq_refl)).
Defined.

(** ** The close code of app3.py *)

(** X13.  On every connection of app3.py the close code follows what the
    client was told.  When an event that reports MESSAGE_TOO_BIG, a time-out
    (LLM_TIMEOUT, STREAM_TIMEOUT) or a failure of the model (LLM_ERROR,
    STREAM_ERROR) has gone out, the close attempt carries the code of that
    report: 1009, 1013 or 1011.  When none has gone out it carries 1000 or
    1011. *)
Theorem close_code_follows_the_report frames w :
  close_follows_report (App3.ws_chat_non_stream frames) w /\
  close_follows_report (App3.ws_chat_stream frames) w.
Proof.
  split.
  - unfold close_follows_report, events_of, App3.ws_chat_non_stream.
    conn_eval.
    report_connection
      (non_stream_report3 (substring 0 8 (hd EmptyString (uuid_script w)))).
  - unfold close_follows_report, events_of, App3.ws_chat_stream.
    conn_eval.
    report_connection
      (stream_report3 (substring 0 8 (hd EmptyString (uuid_script w)))).
Qed.

(** ** The loops of app2.py *)

Lemma non_stream_pass_never_breaks2 cid f w :
  fst (App2.non_stream_pass cid f w) <> Ok Break /\
  (f = Raise WebSocketDisconnect ->
   raises (fst (App2.non_stream_pass cid f w)) = true).
Proof.
  unfold App2.non_stream_pass, App2.receive_chat_request,
    App2.non_stream_request, App2.non_stream_reply.
  split; [|intros ->; reflexivity].
  crunch_pass; cbn [fst]; discriminate.
Qed.

Lemma stream_pass_never_breaks2 cid f w :
  fst (App2.stream_pass cid f w) <> Ok Break /\
  (f = Raise WebSocketDisconnect ->
   raises (fst (App2.stream_pass cid f w)) = true).
Proof.
  unfold App2.stream_pass, App2.receive_chat_request, App2.stream_request,
    App2.stream_reply, App2.stream_tokens.
  split; [|intros ->; reflexivity].
  crunch_pass; try name_rid;
    try (run_chunks App2.stream_chunks stream_chunks_spec2; crunch_pass);
    cbn [fst]; discriminate.
Qed.

Lemma loop_without_break_raises body frames :
  (forall f w,
     fst (body f w) <> Ok Break /\
     (f = Raise WebSocketDisconnect -> raises (fst (body f w)) = true)) ->
  forall w, raises (fst (while_true body frames w)) = true.
Proof.
  intros Hb. induction frames as [|f rest IH]; intros w; simpl; unfold bind.
  - destruct (Hb (Raise WebSocketDisconnect) w) as [_ Hr].
    specialize (Hr eq_refl).
    destruct (body (Raise WebSocketDisconnect) w) as [[c|e] w1];
      [discriminate|reflexivity].
  - destruct (Hb f w) as [Hn _].
    destruct (body f w) as [[[|]|e] w1]; cbn [fst] in *;
      [apply IH | congruence | reflexivity].
Qed.

Ltac closes_normally lemma :=
  match goal with
  | |- context [while_true ?body ?frames ?W] =>
      let n := fresh "n" in
      let evs := fresh "evs" in
      let Hl := fresh "Hlog" in
      let Hr := fresh "Hrecv" in
      let Hc := fresh "Hclose" in
      let Hg := fresh "Hgate" in
      let Ht := fresh "Htime" in
      let r := fresh "r" in
      let w1 := fresh "w1" in
      destruct (while_true_spec false body lemma frames W)
        as (n & evs & Hl & Hr & Hc & Hg & Ht);
      destruct (while_true body frames W) as [r w1];
      cbn [add_log fst snd send_script close_script invoke_script
           stream_script uuid_script close_code full_text log tl] in Hl;
      exists ([EvAccept] ++ evs);
      destruct r as [[]|[| | |]]; crunch; settle_log;
      eexists; (split; [reflexivity|]); exact Hc
  end.

(** X14.  The loops of app2.py have no [break]: whatever is reported, a
    loop ends only when an exception leaves it (the client's disconnect, or
    a failure of a send), and the one close attempt of the connection
    carries 1000. *)
Theorem app2_ends_on_an_exception_and_closes_normally cid frames w :
  raises (fst (while_true (App2.non_stream_pass cid) frames w)) = true /\
  raises (fst (while_true (App2.stream_pass cid) frames w)) = true /\
  (exists evs o,
     events_of (App2.ws_chat_non_stream frames) w =
       evs ++ [EvClose WS_1000_NORMAL_CLOSURE o] /\
     existsb is_close evs = false) /\
  (exists evs o,
     events_of (App2.ws_chat_stream frames) w =
       evs ++ [EvClose WS_1000_NORMAL_CLOSURE o] /\
     existsb is_close evs = false).
Proof.
  split; [|split; [|split]].
  - apply loop_without_break_raises. apply non_stream_pass_never_breaks2.
  - apply loop_without_break_raises. apply stream_pass_never_breaks2.
  - unfold events_of, App2.ws_chat_non_stream. conn_eval.
    closes_normally
      (non_stream_pass_spec2 (substring 0 8 (hd EmptyString (uuid_script w)))).
  - unfold events_of, App2.ws_chat_stream. conn_eval.
    closes_normally
      (stream_pass_spec2 (substring 0 8 (hd EmptyString (uuid_script w)))).
Qed.

(** ** The contract of [receive_chat_request] *)

(** X15.  [receive_chat_request] keeps what its docstring says, and a little
    less.  It returns a request only for a payload that validates to it, and
    then has sent nothing.  It returns [None] only after one error event,
    INVALID_PAYLOAD or BAD_REQUEST, has gone out.  It raises only the
    disconnect of the receive, having sent nothing, or the exception that
    kept its error event from going out; it never lets the validation error
    through.  The copy in app3.py is the same function. *)
Theorem receive_chat_request_contract f w :
  match fst (App2.receive_chat_request f w) with
  | Ok (Some req) =>
      (exists data, f = Ok data /\ model_validate data = Ok req) /\
      events_of (App2.receive_chat_request f) w = [EvRecv f]
  | Ok None =>
      exists m,
        events_of (App2.receive_chat_request f) w = [EvRecv f; EvSend m None] /\
        ((exists errors, m = invalid_payload_report errors) \/
         (exists e, f = Raise e /\ m = bad_request_report (exn_text e)))
  | Raise e =>
      (f = Raise WebSocketDisconnect /\ e = WebSocketDisconnect /\
       events_of (App2.receive_chat_request f) w = [EvRecv f]) \/
      (exists m,
         events_of (App2.receive_chat_request f) w =
           [EvRecv f; EvSend m (Some e)] /\
         has_type "error" m = true)
  end /\
  App3.receive_chat_request f w = App2.receive_chat_request f w.
Proof.
  split; [|reflexivity].
  unfold events_of, App2.receive_chat_request.
  destruct f as [data|e].
  - pose proof (model_validate_outcome data) as Hv. conn_eval.
    destruct (model_validate data) as [req|[| |errors|]] eqn:E;
      try contradiction; crunch; settle_log; cbn [fst].
    all: first [ split; [exists data; auto|reflexivity]
               | right; eexists; split; reflexivity
               | eexists; split; [reflexivity|]; left; eexists; reflexivity ].
  - destruct e; crunch; settle_log; cbn [fst];
      first [ left; repeat split; reflexivity
            | right; eexists; split; reflexivity
            | eexists; split; [reflexivity|];
              first [ left; eexists; reflexivity
                    | right; eexists; split; reflexivity ] ].
Qed.

(** ** What the model is asked *)

Lemma asks_app a b : asks (a ++ b) = asks a ++ asks b.
Proof. apply flat_map_app. Qed.

Lemma asks_chunk_events (msg : string -> pyval) vs :
  asks (map (fun v => EvSend (msg v) None) vs) = [].
Proof. induction vs; simpl; auto. Qed.

Lemma valid_messages_cons f rest :
  valid_messages (f :: rest) = valid_messages [f] ++ valid_messages rest.
Proof. unfold valid_messages. simpl. rewrite app_nil_r. reflexivity. Qed.

Lemma firstn_all_app {A} (a b : list A) :
  firstn (List.length a) (a ++ b) = a.
Proof. induction a; simpl; congruence. Qed.

Lemma firstn_past_app {A} (a b : list A) n :
  firstn (List.length a + n) (a ++ b) = a ++ firstn n b.
Proof. induction a; simpl; congruence. Qed.

Section AskLoop.
Variable body : result pyval -> M control.
Hypothesis body_spec : ask_pass_spec body.

Lemma ask_while_true_spec frames :
  ask_loop_spec frames (while_true body frames).
Proof.
  induction frames as [|f rest IH]; intros w; simpl while_true.
  - destruct (body_spec (Raise WebSocketDisconnect) w) as (evs & Hl & Ha).
    exists 0, ([EvRecv (Raise WebSocketDisconnect)] ++ evs).
    split.
    + unfold bind.
      destruct (body (Raise WebSocketDisconnect) w) as [[c|e] w1]; exact Hl.
    + rewrite asks_app. cbn. destruct Ha as [Ha|[Ha _]]; exact Ha.
  - destruct (body_spec f w) as (evs & Hl & Ha).
    rewrite valid_messages_cons. unfold bind.
    destruct (body f w) as [[[|]|e] w1]; cbn [fst snd ret] in *.
    + destruct (IH w1) as (n & evs2 & Hl2 & Ha2).
      exists (List.length (valid_messages [f]) + n),
        (([EvRecv f] ++ evs) ++ evs2).
      rewrite Hl2, Hl, <- !app_assoc. split; [reflexivity|].
      rewrite !asks_app, Ha2, firstn_past_app. cbn [asks flat_map app].
      destruct Ha as [Ha|[_ Ha]]; [rewrite Ha; reflexivity|congruence].
    + destruct Ha as [Ha|[Ha _]].
      * exists (List.length (valid_messages [f])), ([EvRecv f] ++ evs).
        split; [exact Hl|]. rewrite asks_app, firstn_all_app. exact Ha.
      * exists 0, ([EvRecv f] ++ evs). split; [exact Hl|].
        rewrite asks_app. exact Ha.
    + destruct Ha as [Ha|[Ha _]].
      * exists (List.length (valid_messages [f])), ([EvRecv f] ++ evs).
        split; [exact Hl|]. rewrite asks_app, firstn_all_app. exact Ha.
      * exists 0, ([EvRecv f] ++ evs). split; [exact Hl|].
        rewrite asks_app. exact Ha.
Qed.
End AskLoop.

Ltac ask_leaf :=
  settle_log; eexists; split; [reflexivity|];
  rewrite ?asks_app, ?asks_chunk_events;
  cbn [asks flat_map app message fst];
  first [ left; reflexivity
        | right; split; [reflexivity | discriminate] ].

Ltac ask_pass :=
  intros f w; unfold valid_messages; cbn [flat_map app].

Lemma non_stream_asks3 cid : ask_pass_spec (App3.non_stream_pass cid).
Proof.
  ask_pass.
  unfold App3.non_stream_pass, App3.non_stream_receive,
    App3.non_stream_request, App3.non_stream_reply.
  crunch_pass; try name_rid; ask_leaf.
Qed.

Lemma non_stream_asks2 cid : ask_pass_spec (App2.non_stream_pass cid).
Proof.
  ask_pass.
  unfold App2.non_stream_pass, App2.receive_chat_request,
    App2.non_stream_request, App2.non_stream_reply.
  crunch_pass; try name_rid; ask_leaf.
Qed.

Lemma stream_asks3 cid : ask_pass_spec (App3.stream_pass cid).
Proof.
  ask_pass.
  unfold App3.stream_pass, App3.stream_receive, App3.stream_request,
    App3.stream_reply, App3.stream_tokens.
  crunch_pass; try name_rid;
    try (run_chunks App3.stream_chunks stream_chunks_spec3; crunch_pass);
    ask_leaf.
Qed.

Lemma stream_asks2 cid : ask_pass_spec (App2.stream_pass cid).
Proof.
  ask_pass.
  unfold App2.stream_pass, App2.receive_chat_request, App2.stream_request,
    App2.stream_reply, App2.stream_tokens.
  crunch_pass; try name_rid;
    try (run_chunks App2.stream_chunks stream_chunks_spec2; crunch_pass);
    ask_leaf.
Qed.

Ltac ask_connection lemma :=
  match goal with
  | |- context [while_true ?body ?frames ?W] =>
      let n := fresh "n" in
      let evs := fresh "evs" in
      let Hl := fresh "Hlog" in
      let Ha := fresh "Hasks" in
      let r := fresh "r" in
      let w1 := fresh "w1" in
      destruct (ask_while_true_spec body lemma frames W)
        as (n & evs & Hl & Ha);
      destruct (while_true body frames W) as [r w1];
      cbn [add_log fst snd send_script close_script invoke_script
           stream_script uuid_script close_code full_text log tl] in Hl;
      exists n;
      destruct r as [[]|[| | |]]; crunch; settle_log;
      rewrite !asks_app; cbn [asks flat_map app];
      rewrite app_nil_r; exact Ha
  end.


(** ** The events of a pass of the streaming endpoint of app.py *)

Lemma chunk_types1 vs :
  map msg_type (map chunk_msg1 vs) = repeat "chunk" (List.length vs).
Proof.
  induction vs as [|v vs IH]; [reflexivity|].
  change (map msg_type (map chunk_msg1 (v :: vs)))
    with ("chunk" :: map msg_type (map chunk_msg1 vs)).
  rewrite IH. reflexivity.
Qed.

(** X17.  The events that go out in a pass of the streaming endpoint of
    app.py.  A pass that returns has sent the one invalid-payload error, or
    one [start], then [chunk]s, then one [end].  A pass that raises has
    sent nothing, or one [start] and then [chunk]s: no [end], and no error
    event, which this endpoint has only for refused payloads. *)
Theorem app1_stream_event_sequence f w :
  match fst (App1Stream.pass f w) with
  | Ok _ =>
      event_types (events_of (App1Stream.pass f) w) = ["error"] \/
      exists n,
        event_types (events_of (App1Stream.pass f) w) =
          "start" :: repeat "chunk" n ++ ["end"]
  | Raise _ =>
      event_types (events_of (App1Stream.pass f) w) = [] \/
      exists n,
        event_types (events_of (App1Stream.pass f) w) =
          "start" :: repeat "chunk" n
  end.
Proof.
  unfold events_of, App1Stream.pass. conn_eval.
  destruct f as [data|e]; conn_eval; [|settle_log; left; reflexivity].
  destruct (App1.get_message data) as [v|e]; conn_eval;
    [|settle_log; left; reflexivity].
  destruct (App1.refused v); conn_eval.
  { destruct (hd None (send_script w)); settle_log; left; reflexivity. }
  destruct (hd None (send_script w)); conn_eval.
  { settle_log. left; reflexivity. }
  match goal with
  | |- context [App1Stream.stream_chunks ?c ?s ?W] =>
      destruct (app1_stream_chunks_spec c s W) as (vs & tail & Hl & Hc & Hr);
      destruct (App1Stream.stream_chunks c s W) as [[[]|e] w1]
  end; cbn [fst snd log add_log full_text] in Hl, Hr; conn_eval.
  - destruct Hr as [-> Hr].
    destruct (hd None (send_script w1)); settle_log; unfold event_types;
      read_chunks; rewrite chunk_types1; cbn [fst]; right;
      exists (List.length vs); rewrite ?app_nil_r; reflexivity.
  - destruct Hr as [-> | [? ->]]; settle_log; unfold event_types;
      read_chunks; rewrite ?chunk_types1; cbn [fst]; right;
      exists (List.length vs); rewrite ?app_nil_r; reflexivity.
Qed.

(** ** How a refused payload is reported *)

(** X18.  What the receive step reports for a payload, whatever it is (an
    object or not).  Both endpoints of app3.py report MESSAGE_TOO_BIG for
    an object whose [message] is a string of more than 8000 characters,
    INVALID_PAYLOAD for every other payload that does not validate, and
    nothing for one that does.  [receive_chat_request] of app2.py makes no
    such difference: it reports every payload that does not validate,
    oversized or not, as INVALID_PAYLOAD. *)
Theorem refused_payload_reports data w :
  map (field "code")
    (sent (events_of (App3.non_stream_receive (Ok data)) w)) =
    (if oversized data then [Some (PyStr "MESSAGE_TOO_BIG")]
     else if raises (model_validate data)
          then [Some (PyStr "INVALID_PAYLOAD")] else []) /\
  map (field "status")
    (sent (events_of (App3.stream_receive (Ok data)) w)) =
    (if oversized data then [Some (PyStr "MESSAGE_TOO_BIG")]
     else if raises (model_validate data)
          then [Some (PyStr "INVALID_PAYLOAD")] else []) /\
  map (field "code")
    (sent (events_of (App2.receive_chat_request (Ok data)) w)) =
    (if raises (model_validate data)
     then [Some (PyStr "INVALID_PAYLOAD")] else []).
Proof.
  pose proof (model_validate_outcome data) as Hv.
  unfold events_of, App3.non_stream_receive, App3.stream_receive,
    App2.receive_chat_request.
  conn_eval.
  destruct (model_validate data) as [req|[| |errors|]]; try contradiction;
    conn_eval.
  - rewrite Hv. settle_log. repeat split.
  - rewrite Hv.
    destruct (oversized data); conn_eval;
      destruct (hd None (send_script w)); settle_log; repeat split.
Qed.

(** ** Nothing after the report *)

Lemma reports_last_app a b :
  first_report a = None -> reports_last (a ++ b) = reports_last b.
Proof.
  induction a as [|m a IH]; simpl; auto.
  destruct (report_code m); [discriminate|exact IH].
Qed.

Lemma report_code_chunk (msg : string -> pyval) v :
  (forall v, msg_type (msg v) = "chunk") -> report_code (msg v) = None.
Proof. intros H. unfold report_code, has_type. rewrite H. reflexivity. Qed.

Lemma first_report_chunks (msg : string -> pyval) vs rest :
  (forall v, msg_type (msg v) = "chunk") ->
  first_report (map msg vs ++ rest) = first_report rest.
Proof.
  intros H. induction vs; simpl; auto. rewrite (report_code_chunk msg a H).
  exact IHvs.
Qed.

Lemma reports_last_chunks (msg : string -> pyval) vs rest :
  (forall v, msg_type (msg v) = "chunk") ->
  reports_last (map msg vs ++ rest) = reports_last rest.
Proof.
  intros H. induction vs; simpl; auto. rewrite (report_code_chunk msg a H).
  exact IHvs.
Qed.

Ltac last_report_leaf :=
  settle_log; eexists; split; [reflexivity|];
  read_chunks;
  repeat (cbn [reports_last first_report report_code has_type msg_type field
               field_is dict_get String.eqb Ascii.eqb Bool.eqb negb orb app
               fst];
          rewrite ?reports_last_chunks, ?first_report_chunks by reflexivity);
  rewrite ?app_nil_r;
  rewrite <- ?(app_nil_r (map _ _));
  rewrite ?reports_last_chunks, ?first_report_chunks by reflexivity;
  cbn [reports_last first_report];
  split; [reflexivity|];
  first [left; reflexivity | right; discriminate].

Lemma non_stream_last_report3 cid :
  last_report_pass_spec (App3.non_stream_pass cid).
Proof.
  intros f w.
  unfold App3.non_stream_pass, App3.non_stream_receive,
    App3.non_stream_request, App3.non_stream_reply.
  crunch_pass; try name_rid; last_report_leaf.
Qed.

Lemma stream_last_report3 cid :
  last_report_pass_spec (App3.stream_pass cid).
Proof.
  intros f w.
  unfold App3.stream_pass, App3.stream_receive, App3.stream_request,
    App3.stream_reply, App3.stream_tokens.
  crunch_pass; try name_rid;
    try (run_chunks App3.stream_chunks stream_chunks_spec3; crunch_pass);
    last_report_leaf.
Qed.

Section LastReportLoop.
Variable body : result pyval -> M control.
Hypothesis body_spec : last_report_pass_spec body.

Lemma last_report_while_true_spec frames : forall w,
  exists evs,
    log (snd (while_true body frames w)) = log w ++ evs /\
    reports_last (delivered evs) = true.
Proof.
  induction frames as [|f rest IH]; intros w; simpl while_true.
  - destruct (body_spec (Raise WebSocketDisconnect) w) as (evs & Hl & Hr & _).
    exists ([EvRecv (Raise WebSocketDisconnect)] ++ evs). split; [|exact Hr].
    unfold bind.
    destruct (body (Raise WebSocketDisconnect) w) as [[c|e] w1]; exact Hl.
  - destruct (body_spec f w) as (evs & Hl & Hr & Hn).
    unfold bind.
    destruct (body f w) as [[[|]|e] w1]; cbn [fst snd ret] in *.
    + destruct (IH w1) as (evs2 & Hl2 & Hr2).
      exists (([EvRecv f] ++ evs) ++ evs2).
      rewrite Hl2, Hl, <- !app_assoc. split; [reflexivity|].
      rewrite !app_assoc, delivered_app, delivered_after_recv.
      destruct Hn as [Hn|Hn]; [|congruence].
      rewrite (reports_last_app _ _ Hn). exact Hr2.
    + exists ([EvRecv f] ++ evs). split; [exact Hl|exact Hr].
    + exists ([EvRecv f] ++ evs). split; [exact Hl|exact Hr].
Qed.
End LastReportLoop.

Ltac last_report_connection lemma :=
  match goal with
  | |- context [while_true ?body ?frames ?W] =>
      let evs := fresh "evs" in
      let Hl := fresh "Hlog" in
      let Hr := fresh "Hlast" in
      let r := fresh "r" in
      let w1 := fresh "w1" in
      destruct (last_report_while_true_spec body lemma frames W)
        as (evs & Hl & Hr);
      destruct (while_true body frames W) as [r w1];
      cbn [add_log fst snd send_script close_script invoke_script
           stream_script uuid_script close_code full_text log tl] in Hl;
      destruct r as [[]|[| | |]]; crunch; settle_log;
      rewrite !delivered_app; cbn [delivered flat_map app];
      rewrite app_nil_r; exact Hr
  end.

(** X19.  On every connection of app3.py, nothing is delivered to the
    client after an event that reports MESSAGE_TOO_BIG, a time-out or a
    failure of the model: such a report, when it goes out, is the last
    message of the connection. *)
Theorem nothing_is_sent_after_the_report frames w :
  reports_last
    (delivered (events_of (App3.ws_chat_non_stream frames) w)) = true /\
  reports_last
    (delivered (events_of (App3.ws_chat_stream frames) w)) = true.
Proof.
  split.
  - unfold events_of, App3.ws_chat_non_stream. conn_eval.
    last_report_connection
      (non_stream_last_report3
         (substring 0 8 (hd EmptyString (uuid_script w)))).
  - unfold events_of, App3.ws_chat_stream. conn_eval.
    last_report_connection
      (stream_last_report3
         (substring 0 8 (hd EmptyString (uuid_script w)))).
Qed.
